(** * Scale backend API: entitlements, quota and billing webhooks

    A shallow embedding of the route handlers of the subscription and
    usage-metering backend (models/User.ts, models/UsageEvent.ts,
    routes/usage.ts, routes/subscription.ts, routes/webhooks.ts), and the
    properties of the tier policy, the quota counter and the webhook gate
    that are proved about them.

    Modelling conventions.
    - A [Date] is its epoch time in milliseconds, an integer.  Every
      [new Date()] and [Date.now()] evaluated while one request is served
      reads the same instant, the handler's argument [now].
    - The quota counters are JavaScript numbers holding integers far inside
      the range where [+ 1] and [-] are exact; they are modelled in [Z].
    - The [users] collection is a finite map indexed by the schema's unique
      [userId]; [User.findOne({ userId })] is a lookup and [user.save()] an
      insert under that key.  Saving always succeeds.
    - A record is read as it is stored.  Every record the routes create
      holds [metadata.lastActiveDate]; for a record stored without it
      mongoose would fill the field in from the schema default when the
      record is loaded, and write it with the next save.  That default is
      not applied here: what is stated of a user's metadata is stated of
      records that hold the field.
    - A handler is a function from the state before the request to the
      state after it and the response sent. *)

From Stdlib Require Import ZArith Lia Ascii String List.
From stdpp Require Import base option list strings gmap fin_maps sorting.

Local Open Scope string_scope.
Local Open Scope Z_scope.

(** ** models/User.ts *)

Inductive SubscriptionTier := FAN | DEVELOPER | ENTERPRISE.

Inductive SubscriptionStatus := ACTIVE | INACTIVE | CANCELLED | EXPIRED | TRIAL.

#[global] Instance SubscriptionTier_eq_dec : EqDecision SubscriptionTier.
Proof. solve_decision. Defined.

#[global] Instance SubscriptionStatus_eq_dec : EqDecision SubscriptionStatus.
Proof. solve_decision. Defined.

(** The string values of the two TypeScript enums. *)
Definition SubscriptionTier_value (t : SubscriptionTier) : string :=
  match t with
  | FAN => "fan"
  | DEVELOPER => "developer"
  | ENTERPRISE => "enterprise"
  end.

Definition SubscriptionStatus_value (s : SubscriptionStatus) : string :=
  match s with
  | ACTIVE => "active"
  | INACTIVE => "inactive"
  | CANCELLED => "cancelled"
  | EXPIRED => "expired"
  | TRIAL => "trial"
  end.

Definition SubscriptionTier_values : list SubscriptionTier :=
  [FAN; DEVELOPER; ENTERPRISE].

Definition SubscriptionStatus_values : list SubscriptionStatus :=
  [ACTIVE; INACTIVE; CANCELLED; EXPIRED; TRIAL].

Definition Date := Z.

Record IUsageQuota := mkUsageQuota {
  promptsPerMonth : Z;
  promptsUsed : Z;
  resetDate : Date;
  lastResetDate : option Date
}.

Record ISubscription := mkSubscription {
  tier : SubscriptionTier;
  status : SubscriptionStatus;
  startDate : Date;
  endDate : option Date;
  renewalDate : option Date;
  goDaddySubscriptionId : option string;
  goDaddyCustomerId : option string;
  paymentMethodId : option string;
  trialEndDate : option Date;
  isTrialActive : bool
}.

Record IUserMetadata := mkUserMetadata {
  extensionVersion : option string;
  lastActiveDate : option Date;
  installationId : option string;
  source : option string
}.

(** The document without its key: [userId] is the index of the store. *)
Record IUser := mkUser {
  email : option string;
  subscription : ISubscription;
  usageQuota : IUsageQuota;
  features : list string;
  metadata : IUserMetadata
}.

(** Field assignments, [user.usageQuota.promptsUsed = v] and the like. *)
Definition set_promptsPerMonth (v : Z) (q : IUsageQuota) : IUsageQuota :=
  mkUsageQuota v (promptsUsed q) (resetDate q) (lastResetDate q).

Definition set_promptsUsed (v : Z) (q : IUsageQuota) : IUsageQuota :=
  mkUsageQuota (promptsPerMonth q) v (resetDate q) (lastResetDate q).

Definition set_resetDate (v : Date) (q : IUsageQuota) : IUsageQuota :=
  mkUsageQuota (promptsPerMonth q) (promptsUsed q) v (lastResetDate q).

Definition set_lastResetDate (v : option Date) (q : IUsageQuota) : IUsageQuota :=
  mkUsageQuota (promptsPerMonth q) (promptsUsed q) (resetDate q) v.

Definition set_tier (v : SubscriptionTier) (s : ISubscription) : ISubscription :=
  mkSubscription v (status s) (startDate s) (endDate s) (renewalDate s)
    (goDaddySubscriptionId s) (goDaddyCustomerId s) (paymentMethodId s)
    (trialEndDate s) (isTrialActive s).

Definition set_status (v : SubscriptionStatus) (s : ISubscription) : ISubscription :=
  mkSubscription (tier s) v (startDate s) (endDate s) (renewalDate s)
    (goDaddySubscriptionId s) (goDaddyCustomerId s) (paymentMethodId s)
    (trialEndDate s) (isTrialActive s).

Definition set_startDate (v : Date) (s : ISubscription) : ISubscription :=
  mkSubscription (tier s) (status s) v (endDate s) (renewalDate s)
    (goDaddySubscriptionId s) (goDaddyCustomerId s) (paymentMethodId s)
    (trialEndDate s) (isTrialActive s).

Definition set_endDate (v : option Date) (s : ISubscription) : ISubscription :=
  mkSubscription (tier s) (status s) (startDate s) v (renewalDate s)
    (goDaddySubscriptionId s) (goDaddyCustomerId s) (paymentMethodId s)
    (trialEndDate s) (isTrialActive s).

Definition set_renewalDate (v : option Date) (s : ISubscription) : ISubscription :=
  mkSubscription (tier s) (status s) (startDate s) (endDate s) v
    (goDaddySubscriptionId s) (goDaddyCustomerId s) (paymentMethodId s)
    (trialEndDate s) (isTrialActive s).

Definition set_goDaddySubscriptionId (v : option string) (s : ISubscription) : ISubscription :=
  mkSubscription (tier s) (status s) (startDate s) (endDate s) (renewalDate s)
    v (goDaddyCustomerId s) (paymentMethodId s)
    (trialEndDate s) (isTrialActive s).

Definition set_goDaddyCustomerId (v : option string) (s : ISubscription) : ISubscription :=
  mkSubscription (tier s) (status s) (startDate s) (endDate s) (renewalDate s)
    (goDaddySubscriptionId s) v (paymentMethodId s)
    (trialEndDate s) (isTrialActive s).

Definition set_isTrialActive (v : bool) (s : ISubscription) : ISubscription :=
  mkSubscription (tier s) (status s) (startDate s) (endDate s) (renewalDate s)
    (goDaddySubscriptionId s) (goDaddyCustomerId s) (paymentMethodId s)
    (trialEndDate s) v.

Definition set_lastActiveDate (v : option Date) (m : IUserMetadata) : IUserMetadata :=
  mkUserMetadata (extensionVersion m) v (installationId m) (source m).

Definition set_extensionVersion (v : option string) (m : IUserMetadata) : IUserMetadata :=
  mkUserMetadata v (lastActiveDate m) (installationId m) (source m).

Definition set_source (v : option string) (m : IUserMetadata) : IUserMetadata :=
  mkUserMetadata (extensionVersion m) (lastActiveDate m) (installationId m) v.

Definition with_email (v : option string) (u : IUser) : IUser :=
  mkUser v (subscription u) (usageQuota u) (features u) (metadata u).

Definition with_subscription (f : ISubscription -> ISubscription) (u : IUser) : IUser :=
  mkUser (email u) (f (subscription u)) (usageQuota u) (features u) (metadata u).

Definition with_usageQuota (f : IUsageQuota -> IUsageQuota) (u : IUser) : IUser :=
  mkUser (email u) (subscription u) (f (usageQuota u)) (features u) (metadata u).

Definition with_features (v : list string) (u : IUser) : IUser :=
  mkUser (email u) (subscription u) (usageQuota u) v (metadata u).

Definition with_metadata (f : IUserMetadata -> IUserMetadata) (u : IUser) : IUser :=
  mkUser (email u) (subscription u) (usageQuota u) (features u) (f (metadata u)).

(** [30 * 24 * 60 * 60 * 1000], the reset period in milliseconds. *)
Definition THIRTY_DAYS : Z := 30 * 24 * 60 * 60 * 1000.

(** The instance methods the schema declares.  No route calls them: the
    routes inline their own versions of each. *)
Module UserSchema_methods.

Definition hasRemainingPrompts (this : IUser) : bool :=
  (promptsPerMonth (usageQuota this) =? -1)
  || (promptsUsed (usageQuota this) <? promptsPerMonth (usageQuota this)).

Definition incrementPromptUsage (now : Date) (this : IUser) : IUser :=
  with_metadata (set_lastActiveDate (Some now))
    (with_usageQuota (fun q => set_promptsUsed (promptsUsed q + 1) q) this).

Definition resetUsageQuota (now : Date) (this : IUser) : IUser :=
  with_usageQuota
    (fun q => set_resetDate (now + THIRTY_DAYS)
                (set_lastResetDate (Some now) (set_promptsUsed 0 q)))
    this.

Definition isSubscriptionActive (now : Date) (this : IUser) : bool :=
  bool_decide (status (subscription this) = ACTIVE)
  && match endDate (subscription this) with
     | None => true
     | Some e => now <? e
     end.

Definition isTrialActive (now : Date) (this : IUser) : bool :=
  isTrialActive (subscription this)
  && match trialEndDate (subscription this) with
     | None => false
     | Some e => now <? e
     end.

End UserSchema_methods.

(** ** models/UsageEvent.ts *)

Inductive UsageEventType :=
  | PROMPT | CODE_COMPLETION | DEPENDENCY_VISUALIZATION | KNOWLEDGE_BASE
  | FINE_TUNING | CHAT | AGENT.

Definition UsageEventType_value (t : UsageEventType) : string :=
  match t with
  | PROMPT => "prompt"
  | CODE_COMPLETION => "code_completion"
  | DEPENDENCY_VISUALIZATION => "dependency_visualization"
  | KNOWLEDGE_BASE => "knowledge_base"
  | FINE_TUNING => "fine_tuning"
  | CHAT => "chat"
  | AGENT => "agent"
  end.

Definition UsageEventType_values : list UsageEventType :=
  [PROMPT; CODE_COMPLETION; DEPENDENCY_VISUALIZATION; KNOWLEDGE_BASE;
   FINE_TUNING; CHAT; AGENT].

Record IUsageEventMetadata := mkEventMetadata {
  em_model : option string;
  em_tokensUsed : option Z;
  em_responseTime : option Z;
  em_success : option bool;
  em_errorMessage : option string;
  em_source : option string;
  em_extensionVersion : option string
}.

Record IUsageEvent := mkUsageEvent {
  ue_userId : string;
  ue_eventId : string;
  ue_type : string;
  ue_feature : string;
  ue_timestamp : Date;
  ue_metadata : IUsageEventMetadata
}.

(** ** The persisted state: the two collections *)

Record State := mkState {
  users : gmap string IUser;
  usageEvents : list IUsageEvent
}.

Definition save_user (userId : string) (u : IUser) (st : State) : State :=
  mkState (<[userId := u]> (users st)) (usageEvents st).

Definition save_event (e : IUsageEvent) (st : State) : State :=
  mkState (users st) (usageEvents st ++ [e]).

(** JavaScript truthiness of an optional string: present and not empty. *)
Definition truthy (s : option string) : bool :=
  match s with
  | Some v => negb (String.eqb v "")
  | None => false
  end.

(** express-validator's [isIn(Object.values(E))] on a string. *)
Definition isIn (s : string) (values : list string) : bool :=
  existsb (String.eqb s) values.

(** [Array.prototype.includes] on an array of strings. *)
Definition includes (l : list string) (s : string) : bool :=
  existsb (String.eqb s) l.

(** ** routes/usage.ts *)

Record QuotaView := mkQuotaView {
  qv_promptsPerMonth : Z;
  qv_promptsUsed : Z;
  qv_promptsRemaining : Z;
  qv_resetDate : Date
}.

Record TrackRequest := mkTrackRequest {
  tr_userId : string;
  tr_type : string;
  tr_feature : string;
  tr_metadata : IUsageEventMetadata
}.

Inductive TrackResponse :=
  | TrackValidationError
  | TrackUserNotFound
  | TrackFeatureNotAvailable (feature : string)
  | TrackLimitExceeded (q : QuotaView)
  | TrackOk (eventId : string) (q : QuotaView).

Definition track_status (r : TrackResponse) : Z :=
  match r with
  | TrackValidationError => 400
  | TrackUserNotFound => 404
  | TrackFeatureNotAvailable _ => 403
  | TrackLimitExceeded _ => 429
  | TrackOk _ _ => 200
  end.

Definition track_valid (req : TrackRequest) : bool :=
  negb (String.eqb (tr_userId req) "")
  && isIn (tr_type req) (map UsageEventType_value UsageEventType_values)
  && negb (String.eqb (tr_feature req) "").

(** The test of line 46: the event types that count against the quota. *)
Definition isPromptBased (type : string) : bool :=
  String.eqb type (UsageEventType_value PROMPT)
  || String.eqb type (UsageEventType_value CHAT)
  || String.eqb type (UsageEventType_value AGENT).

(** The increment of lines 62-63. *)
Definition consume (now : Date) (user : IUser) : IUser :=
  with_metadata (set_lastActiveDate (Some now))
    (with_usageQuota (fun q => set_promptsUsed (promptsUsed q + 1) q) user).

(** [POST /track].  [eventId] is the identifier [uuidv4()] draws.  The
    event is stored with the schema default [true] for a [success] the
    client did not send.  The client's metadata is typed: a request whose
    metadata the event schema cannot cast, which the route answers with 500
    after the counter was saved, is not among the requests modelled. *)
Definition track (now : Date) (eventId : string) (req : TrackRequest) (st : State)
  : State * TrackResponse :=
  if negb (track_valid req) then (st, TrackValidationError) else
  match users st !! tr_userId req with
  | None => (st, TrackUserNotFound)
  | Some user =>
    if negb (includes (features user) (tr_feature req))
    then (st, TrackFeatureNotAvailable (tr_feature req))
    else
      let q := usageQuota user in
      let hasRemaining :=
        (promptsPerMonth q =? -1) || (promptsUsed q <? promptsPerMonth q) in
      if isPromptBased (tr_type req)
         && (negb hasRemaining && negb (promptsPerMonth q =? -1))
      then (st, TrackLimitExceeded
                  (mkQuotaView (promptsPerMonth q) (promptsUsed q) 0 (resetDate q)))
      else
        let user1 :=
          if isPromptBased (tr_type req) then consume now user else user in
        let st1 :=
          if isPromptBased (tr_type req)
          then save_user (tr_userId req) user1 st
          else st in
        let m := tr_metadata req in
        let usageEvent :=
          mkUsageEvent (tr_userId req) eventId (tr_type req) (tr_feature req) now
            (mkEventMetadata (em_model m) (em_tokensUsed m) (em_responseTime m)
               (Some (default true (em_success m))) (em_errorMessage m)
               (source (metadata user1)) (extensionVersion (metadata user1))) in
        let q1 := usageQuota user1 in
        (save_event usageEvent st1,
         TrackOk eventId
           (mkQuotaView (promptsPerMonth q1) (promptsUsed q1)
              (if promptsPerMonth q1 =? -1 then -1
               else Z.max 0 (promptsPerMonth q1 - promptsUsed q1))
              (resetDate q1)))
  end.

(** [POST /reset/:userId], the administrative reset. *)
Inductive ResetResponse :=
  | ResetValidationError
  | ResetUserNotFound
  | ResetOk (q : QuotaView).

Definition reset (now : Date) (userId : string) (st : State) : State * ResetResponse :=
  if String.eqb userId "" then (st, ResetValidationError) else
  match users st !! userId with
  | None => (st, ResetUserNotFound)
  | Some user =>
    let user1 :=
      with_usageQuota
        (fun q => set_resetDate (now + THIRTY_DAYS) (set_promptsUsed 0 q)) user in
    let q1 := usageQuota user1 in
    (save_user userId user1 st,
     ResetOk (mkQuotaView (promptsPerMonth q1) (promptsUsed q1)
                (if promptsPerMonth q1 =? -1 then -1
                 else promptsPerMonth q1 - promptsUsed q1)
                (resetDate q1)))
  end.

(** [GET /stats/:userId]. *)
Module Stats.

Record StatsRequest := mkStatsRequest {
  sr_userId : string;
  sr_startDate : option string;
  sr_endDate : option string;
  sr_type : option string
}.

(** The filter of lines 134-145, once the dates are parsed. *)
Definition matches (userId : string) (startDate endDate : option Date)
    (type : option string) (e : IUsageEvent) : bool :=
  String.eqb (ue_userId e) userId
  && match startDate with Some d => d <=? ue_timestamp e | None => true end
  && match endDate with Some d => ue_timestamp e <=? d | None => true end
  && match type with Some t => String.eqb (ue_type e) t | None => true end.

(** [sort({ timestamp: -1 })]: latest first.  Events of one timestamp come
    out in some order, here that of their insertion. *)
Fixpoint insert_desc (e : IUsageEvent) (l : list IUsageEvent) : list IUsageEvent :=
  match l with
  | [] => [e]
  | x :: rest =>
      if ue_timestamp x <? ue_timestamp e then e :: x :: rest
      else x :: insert_desc e rest
  end.

Definition sort_desc (l : list IUsageEvent) : list IUsageEvent :=
  fold_left (fun sorted e => insert_desc e sorted) l [].

(** [UsageEvent.find(query).sort({ timestamp: -1 }).limit(1000)]. *)
Definition find_events (userId : string) (startDate endDate : option Date)
    (type : option string) (st : State) : list IUsageEvent :=
  firstn 1000 (sort_desc (List.filter (matches userId startDate endDate type)
                            (usageEvents st))).

(** [counts[key] = (counts[key] || 0) + 1]. *)
Definition bump (key : string) (counts : gmap string Z) : gmap string Z :=
  <[key := default 0 (counts !! key) + 1]> counts.

(** What the loop of lines 150-185 accumulates.  The two quotients the
    route then takes, [totalResponseTime / responseTimeCount] and
    [successCount / events.length * 100], are floating-point numbers and
    are left as the integers they are taken from. *)
Record Aggregates := mkAggregates {
  totalEvents : Z;
  eventsByType : gmap string Z;
  eventsByFeature : gmap string Z;
  eventsByDay : gmap string Z;
  totalResponseTime : Z;
  responseTimeCount : Z;
  successCount : Z
}.

(** One turn of the loop; [isoDay] is [toISOString().split('T')[0]]. *)
Definition accumulate (isoDay : Date -> string) (a : Aggregates) (event : IUsageEvent)
  : Aggregates :=
  let timed :=
    match em_responseTime (ue_metadata event) with
    | Some rt => negb (rt =? 0)
    | None => false
    end in
  mkAggregates (totalEvents a)
    (bump (ue_type event) (eventsByType a))
    (bump (ue_feature event) (eventsByFeature a))
    (bump (isoDay (ue_timestamp event)) (eventsByDay a))
    (if timed then totalResponseTime a + default 0 (em_responseTime (ue_metadata event))
     else totalResponseTime a)
    (if timed then responseTimeCount a + 1 else responseTimeCount a)
    (if bool_decide (em_success (ue_metadata event) = Some false) then successCount a
     else successCount a + 1).

Definition aggregate (isoDay : Date -> string) (events : list IUsageEvent) : Aggregates :=
  fold_left (accumulate isoDay) events
    (mkAggregates (Z.of_nat (length events)) ∅ ∅ ∅ 0 0 0).

Inductive StatsResponse :=
  | StatsValidationError
  | StatsUserNotFound
  | StatsOk (userId : string) (tier : SubscriptionTier) (q : QuotaView)
            (stats : Aggregates) (events : list IUsageEvent).

(** A query parameter that is present must parse ([isISO8601], then
    [new Date]); [parseISO] is [None] on what the validator refuses. *)
Definition parse_optional (parseISO : string -> option Date) (s : option string)
  : option (option Date) :=
  match s with
  | None => Some None
  | Some v =>
      match parseISO v with
      | Some d => Some (Some d)
      | None => None
      end
  end.

Definition stats (parseISO : string -> option Date) (isoDay : Date -> string)
    (req : StatsRequest) (st : State) : StatsResponse :=
  if String.eqb (sr_userId req) "" then StatsValidationError else
  match parse_optional parseISO (sr_startDate req),
        parse_optional parseISO (sr_endDate req) with
  | Some startDate, Some endDate =>
    if match sr_type req with
       | Some t => negb (isIn t (map UsageEventType_value UsageEventType_values))
       | None => false
       end
    then StatsValidationError
    else
      match users st !! sr_userId req with
      | None => StatsUserNotFound
      | Some user =>
        let events := find_events (sr_userId req) startDate endDate (sr_type req) st in
        let q := usageQuota user in
        StatsOk (sr_userId req) (tier (subscription user))
          (mkQuotaView (promptsPerMonth q) (promptsUsed q)
             (if promptsPerMonth q =? -1 then -1
              else Z.max 0 (promptsPerMonth q - promptsUsed q))
             (resetDate q))
          (aggregate isoDay events)
          (firstn 50 events)
      end
  | _, _ => StatsValidationError
  end.

End Stats.

(** A run of tracking calls, each with its own clock reading and event id. *)
Record TrackCall := mkTrackCall {
  tc_now : Date;
  tc_eventId : string;
  tc_req : TrackRequest
}.

Definition track_call (c : TrackCall) (st : State) : State * TrackResponse :=
  track (tc_now c) (tc_eventId c) (tc_req c) st.

Fixpoint track_all (calls : list TrackCall) (st : State) : State * list TrackResponse :=
  match calls with
  | [] => (st, [])
  | c :: rest =>
    let (st1, r) := track_call c st in
    let (st2, rs) := track_all rest st1 in
    (st2, r :: rs)
  end.

(** ** services/goDaddyService.ts *)

Record GoDaddySubscriptionStatus := mkGoDaddyStatus {
  gd_status : string;
  gd_isActive : bool
}.

(** [verifySubscription]: [api] is the billing provider's answer to the
    GET request, the subscription's status string, or [None] when the
    request fails and the method throws. *)
Definition verifySubscription (api : string -> option string) (subscriptionId : string)
  : option GoDaddySubscriptionStatus :=
  match api subscriptionId with
  | Some s => Some (mkGoDaddyStatus s (String.eqb s "ACTIVE"))
  | None => None
  end.

(** ** routes/subscription.ts *)

Record TierConfiguration := mkTierConfiguration {
  config_promptsPerMonth : Z;
  config_features : list string
}.

Record UserSummary := mkUserSummary {
  us_userId : string;
  us_tier : SubscriptionTier;
  us_status : SubscriptionStatus;
  us_features : list string;
  us_usageQuota : QuotaView
}.

(** What a freshly created document holds: the routes that create users
    write the same literal, but for [email] and [metadata]. *)
Definition new_user (now : Date) (email : option string) (m : IUserMetadata) : IUser :=
  mkUser email
    (mkSubscription FAN ACTIVE now None None None None None None false)
    (mkUsageQuota 75 0 (now + THIRTY_DAYS) None)
    ["chat"; "agent"; "codeCompletion"]
    m.

Definition SubscriptionTier_of_string (s : string) : option SubscriptionTier :=
  find (fun t => String.eqb s (SubscriptionTier_value t)) SubscriptionTier_values.

Definition SubscriptionStatus_of_string (s : string) : option SubscriptionStatus :=
  find (fun t => String.eqb s (SubscriptionStatus_value t)) SubscriptionStatus_values.

(** [String.prototype.toUpperCase] on the ASCII letters. *)
Definition toUpperAscii (c : ascii) : ascii :=
  let n := nat_of_ascii c in
  if ((97 <=? n) && (n <=? 122))%nat then ascii_of_nat (n - 32) else c.

Fixpoint toUpperCase (s : string) : string :=
  match s with
  | EmptyString => EmptyString
  | String c rest => String (toUpperAscii c) (toUpperCase rest)
  end.

(** The member names of the enum object, for the lookup [SubscriptionTier[key]]. *)
Definition SubscriptionTier_key (t : SubscriptionTier) : string :=
  match t with
  | FAN => "FAN"
  | DEVELOPER => "DEVELOPER"
  | ENTERPRISE => "ENTERPRISE"
  end.

Definition SubscriptionTier_of_key (k : string) : option SubscriptionTier :=
  find (fun t => String.eqb k (SubscriptionTier_key t)) SubscriptionTier_values.

Definition SEVEN_DAYS : Z := 7 * 24 * 60 * 60 * 1000.

Module Subscription.

(** The helper of lines 392-415.  Its [default] branch repeats the [FAN]
    one and is not reachable from a value of the enum. *)
Definition getTierConfiguration (tier : SubscriptionTier) : TierConfiguration :=
  match tier with
  | FAN =>
      mkTierConfiguration 75 ["chat"; "agent"; "codeCompletion"]
  | DEVELOPER =>
      mkTierConfiguration (-1)
        ["chat"; "agent"; "codeCompletion"; "dependencyVisualization"; "knowledgeBase"]
  | ENTERPRISE =>
      mkTierConfiguration (-1)
        ["chat"; "agent"; "codeCompletion"; "dependencyVisualization"; "knowledgeBase";
         "fineTuning"; "rbac"; "auditLogging"; "sso"]
  end.

(** The rollover written inline in [/verify], lines 60-64. *)
Definition rollover (now : Date) (q : IUsageQuota) : IUsageQuota :=
  if resetDate q <? now
  then set_resetDate (now + THIRTY_DAYS) (set_promptsUsed 0 q)
  else q.

(** The [usageQuota] object of the [/verify], [/update] and [GET] responses. *)
Definition quota_view (q : IUsageQuota) : QuotaView :=
  mkQuotaView (promptsPerMonth q) (promptsUsed q)
    (promptsPerMonth q - promptsUsed q) (resetDate q).

Definition summary (userId : string) (user : IUser) : UserSummary :=
  mkUserSummary userId (tier (subscription user)) (status (subscription user))
    (features user) (quota_view (usageQuota user)).

Record VerifyRequest := mkVerifyRequest {
  vr_userId : string;
  vr_extensionVersion : option string;
  vr_source : option string
}.

Inductive VerifyResponse :=
  | VerifyValidationError
  | VerifyOk (valid : bool) (user : UserSummary)
             (isTrialActive : bool) (trialEndDate : option Date).

Definition verify_status (r : VerifyResponse) : Z :=
  match r with
  | VerifyValidationError => 400
  | VerifyOk _ _ _ _ => 200
  end.

(** Lines 26-67: find or create the user; an existing one has its metadata
    refreshed and its quota rolled over, and is saved. *)
Definition verify_ensure (now : Date) (req : VerifyRequest) (st : State) : IUser :=
  match users st !! vr_userId req with
  | None =>
      new_user now None
        (mkUserMetadata (vr_extensionVersion req) (Some now) None (vr_source req))
  | Some user =>
      let m0 := set_lastActiveDate (Some now) (metadata user) in
      let m1 := if truthy (vr_extensionVersion req)
                then set_extensionVersion (vr_extensionVersion req) m0 else m0 in
      let m2 := if truthy (vr_source req)
                then set_source (vr_source req) m1 else m1 in
      with_usageQuota (rollover now) (with_metadata (fun _ => m2) user)
  end.

(** Lines 69-84: reconcile the status with the billing provider. *)
Definition verify_reconcile (api : string -> option string) (user : IUser) : IUser :=
  match goDaddySubscriptionId (subscription user) with
  | Some sid =>
      if truthy (Some sid) then
        match verifySubscription api sid with
        | Some goDaddyStatus =>
            if negb (Bool.eqb (gd_isActive goDaddyStatus)
                       (bool_decide (status (subscription user) = ACTIVE)))
            then with_subscription
                   (set_status (if gd_isActive goDaddyStatus then ACTIVE else INACTIVE))
                   user
            else user
        | None => user
        end
      else user
  | None => user
  end.

(** [POST /verify].  The saves of lines 52 or 66 and of line 79 write the
    same document; the state after the request holds the last value. *)
Definition verify (now : Date) (api : string -> option string)
    (req : VerifyRequest) (st : State) : State * VerifyResponse :=
  if String.eqb (vr_userId req) "" then (st, VerifyValidationError) else
  let user1 := verify_ensure now req st in
  let user2 := verify_reconcile api user1 in
  let isActive :=
    bool_decide (status (subscription user2) = ACTIVE)
    && match endDate (subscription user2) with
       | None => true
       | Some e => now <? e
       end in
  let isTrialActive :=
    isTrialActive (subscription user2)
    && match trialEndDate (subscription user2) with
       | None => false
       | Some e => now <? e
       end in
  (save_user (vr_userId req) user2 st,
   VerifyOk (isActive || isTrialActive) (summary (vr_userId req) user2)
     isTrialActive (trialEndDate (subscription user2))).

Record UpdateRequest := mkUpdateRequest {
  ur_userId : string;
  ur_tier : string;
  ur_status : string;
  ur_goDaddySubscriptionId : option string;
  ur_goDaddyCustomerId : option string
}.

Inductive UpdateResponse :=
  | UpdateValidationError
  | UpdateUserNotFound
  | UpdateOk (user : UserSummary).

Definition update_status (r : UpdateResponse) : Z :=
  match r with
  | UpdateValidationError => 400
  | UpdateUserNotFound => 404
  | UpdateOk _ => 200
  end.

(** [PUT /update/:userId]. *)
Definition update (req : UpdateRequest) (st : State) : State * UpdateResponse :=
  if String.eqb (ur_userId req) "" then (st, UpdateValidationError) else
  match SubscriptionTier_of_string (ur_tier req),
        SubscriptionStatus_of_string (ur_status req) with
  | Some tier, Some status =>
    match users st !! ur_userId req with
    | None => (st, UpdateUserNotFound)
    | Some user =>
      let s0 := set_status status (set_tier tier (subscription user)) in
      let s1 := if truthy (ur_goDaddySubscriptionId req)
                then set_goDaddySubscriptionId (ur_goDaddySubscriptionId req) s0
                else s0 in
      let s2 := if truthy (ur_goDaddyCustomerId req)
                then set_goDaddyCustomerId (ur_goDaddyCustomerId req) s1
                else s1 in
      let tierConfig := getTierConfiguration tier in
      let user1 :=
        with_usageQuota (set_promptsPerMonth (config_promptsPerMonth tierConfig))
          (with_features (config_features tierConfig)
             (with_subscription (fun _ => s2) user)) in
      (save_user (ur_userId req) user1 st, UpdateOk (summary (ur_userId req) user1))
    end
  | _, _ => (st, UpdateValidationError)
  end.

Inductive GetResponse :=
  | GetValidationError
  | GetUserNotFound
  | GetOk (user : UserSummary) (isTrialActive : bool)
          (trialEndDate renewalDate : option Date).

(** [GET /:userId]. *)
Definition get (now : Date) (userId : string) (st : State) : GetResponse :=
  if String.eqb userId "" then GetValidationError else
  match users st !! userId with
  | None => GetUserNotFound
  | Some user =>
      GetOk (summary userId user)
        (isTrialActive (subscription user)
         && match trialEndDate (subscription user) with
            | None => false
            | Some e => now <? e
            end)
        (trialEndDate (subscription user))
        (renewalDate (subscription user))
  end.

Record VerifyPaymentRequest := mkVerifyPaymentRequest {
  vp_userId : string;
  vp_tier : string;
  vp_transactionId : option string;
  vp_email : option string
}.

Inductive VerifyPaymentResponse :=
  | PaymentValidationError
  | PaymentInternalError
  | PaymentOk (user : UserSummary) (renewalDate : option Date).

Definition verify_payment_status (r : VerifyPaymentResponse) : Z :=
  match r with
  | PaymentValidationError => 400
  | PaymentInternalError => 500
  | PaymentOk _ _ => 200
  end.

(** The validators of lines 305-308; [isEmail] is express-validator's. *)
Definition verify_payment_valid (isEmail : string -> bool) (req : VerifyPaymentRequest)
  : bool :=
  negb (String.eqb (vp_userId req) "")
  && isIn (vp_tier req) ["fan"; "developer"; "enterprise"]
  && match vp_email req with
     | Some e => isEmail e
     | None => true
     end.

(** The trial user of lines 324-340. *)
Definition trial_user (now : Date) (userId : string) (email : option string) : IUser :=
  mkUser
    (if truthy email then email else Some ("user-" ++ userId ++ "@scale.local"))
    (mkSubscription FAN INACTIVE now None None None None None
       (Some (now + SEVEN_DAYS)) true)
    (mkUsageQuota 75 0 (now + THIRTY_DAYS) None)
    ["chat"; "agent"; "codeCompletion"]
    (mkUserMetadata None (Some now) None None).

(** The [usageQuota] object of the [/verify-payment] response. *)
Definition payment_quota_view (q : IUsageQuota) : QuotaView :=
  mkQuotaView (promptsPerMonth q) (promptsUsed q)
    (if promptsPerMonth q =? -1 then -1 else promptsPerMonth q - promptsUsed q)
    (resetDate q).

(** [POST /verify-payment].  A tier string whose upper-case form is no
    member of the enum would leave [tier] undefined and make the save fail;
    the validators exclude it. *)
Definition verify_payment (now : Date) (isEmail : string -> bool)
    (req : VerifyPaymentRequest) (st : State) : State * VerifyPaymentResponse :=
  if negb (verify_payment_valid isEmail req) then (st, PaymentValidationError) else
  let user :=
    match users st !! vp_userId req with
    | Some user => user
    | None => trial_user now (vp_userId req) (vp_email req)
    end in
  match SubscriptionTier_of_key (toUpperCase (vp_tier req)) with
  | None => (st, PaymentInternalError)
  | Some tier =>
    let s0 :=
      set_renewalDate (Some (now + THIRTY_DAYS))
        (set_endDate (Some (now + THIRTY_DAYS))
           (set_startDate now (set_status ACTIVE (set_tier tier (subscription user))))) in
    let s1 := if truthy (vp_transactionId req)
              then set_goDaddySubscriptionId (vp_transactionId req) s0 else s0 in
    let tierConfig := getTierConfiguration tier in
    let user1 :=
      with_usageQuota (set_promptsPerMonth (config_promptsPerMonth tierConfig))
        (with_features (config_features tierConfig)
           (with_subscription (fun _ => s1) user)) in
    (save_user (vp_userId req) user1 st,
     PaymentOk
       (mkUserSummary (vp_userId req) (tier) (status (subscription user1))
          (features user1) (payment_quota_view (usageQuota user1)))
       (renewalDate (subscription user1)))
  end.

End Subscription.

(** ** middleware/auth.ts *)

(** The payload of a token.  A decoded token may lack any of the fields. *)
Record Claims := mkClaims {
  claim_userId : option string;
  claim_email : option string;
  claim_role : option string
}.

Record AuthEnv := mkAuthEnv {
  JWT_SECRET : option string;
  JWT_EXPIRES_IN : option string
}.

(** The two functions of the [jsonwebtoken] library: [sign payload secret
    expiresIn] and [verify token secret]; [None] when the call throws, which
    [sign] does on an [expiresIn] that is no time span. *)
Record Jwt := mkJwt {
  jwt_sign : Claims -> string -> string -> option string;
  jwt_verify : string -> string -> option Claims
}.

Inductive AuthOutcome :=
  | AuthNext (user : Claims)
  | AuthRespond (status : Z) (message : string).

(** [s.substring(n)]: what follows the first [n] characters. *)
Definition substring_from (n : nat) (s : string) : string :=
  String.substring n (String.length s - n) s.

Module AuthMiddleware.

Definition authenticateUser (jwt : Jwt) (env : AuthEnv) (authorization : option string)
  : AuthOutcome :=
  match authorization with
  | Some authHeader =>
    if negb (truthy (Some authHeader)) || negb (String.prefix "Bearer " authHeader)
    then AuthRespond 401 "No valid authorization token provided"
    else
      let token := substring_from 7 authHeader in
      match JWT_SECRET env with
      | Some jwtSecret =>
        if negb (truthy (Some jwtSecret))
        then AuthRespond 500 "Authentication service not configured"
        else
          match jwt_verify jwt token jwtSecret with
          | Some decoded =>
              AuthNext (mkClaims (claim_userId decoded) (claim_email decoded)
                          (claim_role decoded))
          | None => AuthRespond 401 "Invalid or expired token"
          end
      | None => AuthRespond 500 "Authentication service not configured"
      end
  | None => AuthRespond 401 "No valid authorization token provided"
  end.

Definition authenticateAdmin (jwt : Jwt) (env : AuthEnv) (authorization : option string)
  : AuthOutcome :=
  match authenticateUser jwt env authorization with
  | AuthNext user =>
      if negb (bool_decide (claim_role user = Some "admin"))
      then AuthRespond 403 "Admin access required"
      else AuthNext user
  | AuthRespond status message => AuthRespond status message
  end.

(** [generateToken(userId, email)], with the default role; [None] when it
    throws, for want of a secret or inside [jwt.sign]. *)
Definition generateToken (jwt : Jwt) (env : AuthEnv) (userId : string)
    (email : option string) : option string :=
  match JWT_SECRET env with
  | Some jwtSecret =>
      if negb (truthy (Some jwtSecret)) then None
      else
        jwt_sign jwt (mkClaims (Some userId) email (Some "user")) jwtSecret
          (if truthy (JWT_EXPIRES_IN env)
           then default "7d" (JWT_EXPIRES_IN env) else "7d")
  | None => None
  end.

End AuthMiddleware.

(** ** routes/auth.ts *)

Module Auth.

Record TokenRequest := mkTokenRequest {
  tk_userId : string;
  tk_extensionVersion : option string;
  tk_installationId : option string
}.

(** The [user] object of the two responses. *)
Record TokenUser := mkTokenUser {
  tu_userId : string;
  tu_tier : SubscriptionTier;
  tu_status : SubscriptionStatus;
  tu_features : list string
}.

Inductive TokenResponse :=
  | TokenValidationError
  | TokenUserNotFound
  | TokenInternalError
  | TokenOk (token : string) (user : TokenUser).

Definition token_status (r : TokenResponse) : Z :=
  match r with
  | TokenValidationError => 400
  | TokenUserNotFound => 404
  | TokenInternalError => 500
  | TokenOk _ _ => 200
  end.

Definition token_user (userId : string) (user : IUser) : TokenUser :=
  mkTokenUser userId (tier (subscription user)) (status (subscription user))
    (features user).

(** [POST /token].  The user is saved before the token is signed: when
    signing throws, the answer is 500 and the save stays. *)
Definition token (jwt : Jwt) (env : AuthEnv) (now : Date) (req : TokenRequest) (st : State)
  : State * TokenResponse :=
  if String.eqb (tk_userId req) "" then (st, TokenValidationError) else
  let user :=
    match users st !! tk_userId req with
    | None =>
        new_user now None
          (mkUserMetadata (tk_extensionVersion req) (Some now)
             (tk_installationId req) None)
    | Some user =>
        let m0 := set_lastActiveDate (Some now) (metadata user) in
        let m1 := if truthy (tk_extensionVersion req)
                  then set_extensionVersion (tk_extensionVersion req) m0 else m0 in
        let m2 := if truthy (tk_installationId req)
                  then mkUserMetadata (extensionVersion m1) (lastActiveDate m1)
                         (tk_installationId req) (source m1)
                  else m1 in
        with_metadata (fun _ => m2) user
    end in
  let st1 := save_user (tk_userId req) user st in
  match AuthMiddleware.generateToken jwt env (tk_userId req) (email user) with
  | None => (st1, TokenInternalError)
  | Some token => (st1, TokenOk token (token_user (tk_userId req) user))
  end.

(** [POST /refresh]. *)
Definition refresh (jwt : Jwt) (env : AuthEnv) (now : Date) (userId : string) (st : State)
  : State * TokenResponse :=
  if String.eqb userId "" then (st, TokenValidationError) else
  match users st !! userId with
  | None => (st, TokenUserNotFound)
  | Some user0 =>
    let user := with_metadata (set_lastActiveDate (Some now)) user0 in
    let st1 := save_user userId user st in
    match AuthMiddleware.generateToken jwt env userId (email user) with
    | None => (st1, TokenInternalError)
    | Some token => (st1, TokenOk token (token_user userId user))
    end
  end.

End Auth.

(** ** routes/webhooks.ts *)

(** The fields the handlers read from [event.data]; a field the payload
    lacks is [None]. *)
Record WebhookData := mkWebhookData {
  wd_subscriptionId : option string;
  wd_customerId : option string;
  wd_planId : option string;
  wd_customerEmail : option string;
  wd_status : option string;
  wd_metadata_userId : option string
}.

(** The parsed event: its [type], and its [data] when it has one. *)
Record WebhookEvent := mkWebhookEvent {
  we_type : string;
  we_data : option WebhookData
}.

(** [req.body] as the handler finds it: the [Buffer] of the raw payload
    that the route's [express.raw] read, or, when an earlier body parser had
    already set [req.body], the object that parser left, of which
    [String(req.body)] is kept.  Behind the [express.json()] that the server
    (part_000, line 42) installs ahead of every route, [express.raw] finds
    the body set and the handler never sees a [Buffer]. *)
Inductive Body :=
  | BufferBody (payload : string)
  | ParsedBody (text : string).

(** [req.body.toString()]. *)
Definition Body_toString (b : Body) : string :=
  match b with
  | BufferBody payload => payload
  | ParsedBody text => text
  end.

Record WebhookRequest := mkWebhookRequest {
  x_godaddy_signature : option string;
  body : Body
}.

Record Env := mkEnv {
  GODADDY_WEBHOOK_SECRET : option string
}.

Inductive WebhookResponse :=
  | WebhookInvalidSignature
  | WebhookReceived
  | WebhookProcessingFailed.

Definition webhook_status (r : WebhookResponse) : Z :=
  match r with
  | WebhookInvalidSignature => 401
  | WebhookReceived => 200
  | WebhookProcessingFailed => 500
  end.

Definition toLowerAscii (c : ascii) : ascii :=
  let n := nat_of_ascii c in
  if ((65 <=? n) && (n <=? 90))%nat then ascii_of_nat (n + 32) else c.

Fixpoint toLowerCase (s : string) : string :=
  match s with
  | EmptyString => EmptyString
  | String c rest => String (toLowerAscii c) (toLowerCase rest)
  end.

Module Webhooks.

Definition mapPlanIdToTier (planId : option string) : SubscriptionTier :=
  match planId with
  | Some p =>
      if String.eqb p "scale-fan" then FAN
      else if String.eqb p "scale-developer" then DEVELOPER
      else if String.eqb p "scale-enterprise" then ENTERPRISE
      else FAN
  | None => FAN
  end.

Definition mapGoDaddyStatusToSubscriptionStatus (status : string) : SubscriptionStatus :=
  let s := toLowerCase status in
  if String.eqb s "active" then ACTIVE
  else if String.eqb s "cancelled" then CANCELLED
  else if String.eqb s "expired" then EXPIRED
  else if String.eqb s "inactive" then INACTIVE
  else INACTIVE.

(** The second copy of the tier table, lines 283-306. *)
Definition getTierConfiguration (tier : SubscriptionTier) : TierConfiguration :=
  match tier with
  | FAN =>
      mkTierConfiguration 75 ["chat"; "agent"; "codeCompletion"]
  | DEVELOPER =>
      mkTierConfiguration (-1)
        ["chat"; "agent"; "codeCompletion"; "dependencyVisualization"; "knowledgeBase"]
  | ENTERPRISE =>
      mkTierConfiguration (-1)
        ["chat"; "agent"; "codeCompletion"; "dependencyVisualization"; "knowledgeBase";
         "fineTuning"; "rbac"; "auditLogging"; "sso"]
  end.

(** [User.findOne({ 'subscription.goDaddySubscriptionId': subscriptionId })]:
    some document whose field equals the one asked for, with its key.  The
    query of a payload without [subscriptionId] matches the documents
    without the field. *)
Definition findOneBySubscription (db : gmap string IUser) (subscriptionId : option string)
  : option (string * IUser) :=
  find (fun kv => bool_decide (goDaddySubscriptionId (subscription kv.2) = subscriptionId))
       (map_to_list db).

Definition applyTierConfiguration (tierConfig : TierConfiguration) (user : IUser) : IUser :=
  with_usageQuota (set_promptsPerMonth (config_promptsPerMonth tierConfig))
    (with_features (config_features tierConfig) user).

(** Each handler wraps its body in [try]/[catch]: a payload without [data]
    makes the destructuring throw, which is logged and changes nothing. *)
Definition handleSubscriptionCreated (now : Date) (data : option WebhookData) (st : State)
  : State :=
  match data with
  | None => st
  | Some d =>
    match wd_metadata_userId d with
    | None => st
    | Some userId =>
      if String.eqb userId "" then st else
      let tier := mapPlanIdToTier (wd_planId d) in
      let user :=
        match users st !! userId with
        | Some user => user
        | None => new_user now (wd_customerEmail d) (mkUserMetadata None (Some now) None None)
        end in
      let s1 :=
        set_isTrialActive false
          (set_startDate now
             (set_goDaddyCustomerId (wd_customerId d)
                (set_goDaddySubscriptionId (wd_subscriptionId d)
                   (set_status ACTIVE (set_tier tier (subscription user)))))) in
      let user1 := with_subscription (fun _ => s1) user in
      let user2 := if truthy (wd_customerEmail d)
                   then with_email (wd_customerEmail d) user1 else user1 in
      save_user userId (applyTierConfiguration (getTierConfiguration tier) user2) st
    end
  end.

Definition handleSubscriptionUpdated (data : option WebhookData) (st : State) : State :=
  match data with
  | None => st
  | Some d =>
    match findOneBySubscription (users st) (wd_subscriptionId d) with
    | None => st
    | Some (userId, user) =>
      let user1 :=
        if truthy (wd_planId d) then
          let newTier := mapPlanIdToTier (wd_planId d) in
          applyTierConfiguration (getTierConfiguration newTier)
            (with_subscription (set_tier newTier) user)
        else user in
      let user2 :=
        match wd_status d with
        | Some status =>
            if truthy (Some status)
            then with_subscription
                   (set_status (mapGoDaddyStatusToSubscriptionStatus status)) user1
            else user1
        | None => user1
        end in
      save_user userId user2 st
    end
  end.

Definition handleSubscriptionCancelled (now : Date) (data : option WebhookData) (st : State)
  : State :=
  match data with
  | None => st
  | Some d =>
    match findOneBySubscription (users st) (wd_subscriptionId d) with
    | None => st
    | Some (userId, user) =>
      save_user userId
        (with_subscription (fun s => set_endDate (Some now) (set_status CANCELLED s)) user)
        st
    end
  end.

Definition handleSubscriptionExpired (now : Date) (data : option WebhookData) (st : State)
  : State :=
  match data with
  | None => st
  | Some d =>
    match findOneBySubscription (users st) (wd_subscriptionId d) with
    | None => st
    | Some (userId, user) =>
      let user1 :=
        with_subscription
          (fun s => set_tier FAN (set_endDate (Some now) (set_status EXPIRED s))) user in
      save_user userId (applyTierConfiguration (getTierConfiguration FAN) user1) st
    end
  end.

Definition handlePaymentSucceeded (now : Date) (data : option WebhookData) (st : State)
  : State :=
  match data with
  | None => st
  | Some d =>
    match findOneBySubscription (users st) (wd_subscriptionId d) with
    | None => st
    | Some (userId, user) =>
      save_user userId
        (with_subscription
           (fun s => set_status ACTIVE (set_renewalDate (Some (now + THIRTY_DAYS)) s)) user)
        st
    end
  end.

Definition handlePaymentFailed (data : option WebhookData) (st : State) : State :=
  match data with
  | None => st
  | Some d =>
    match findOneBySubscription (users st) (wd_subscriptionId d) with
    | None => st
    | Some (userId, user) =>
      save_user userId (with_subscription (set_status INACTIVE) user) st
    end
  end.

(** The [switch] on [event.type], lines 31-52. *)
Definition processEvent (now : Date) (event : WebhookEvent) (st : State) : State :=
  let type := we_type event in
  if String.eqb type "subscription.created"
  then handleSubscriptionCreated now (we_data event) st
  else if String.eqb type "subscription.updated"
  then handleSubscriptionUpdated (we_data event) st
  else if String.eqb type "subscription.cancelled"
  then handleSubscriptionCancelled now (we_data event) st
  else if String.eqb type "subscription.expired"
  then handleSubscriptionExpired now (we_data event) st
  else if String.eqb type "payment.succeeded"
  then handlePaymentSucceeded now (we_data event) st
  else if String.eqb type "payment.failed"
  then handlePaymentFailed (we_data event) st
  else st.

Section Route.

(** Node's [crypto.createHmac('sha256', secret).update(payload).digest('hex')]
    and [JSON.parse] followed by the read of [event.type]; [None] stands for
    the exception either throws, which the route answers with 500. *)
Variable hmac_sha256_hex : string -> string -> string.
Variable JSON_parse : string -> option WebhookEvent.

(** [GoDaddyService.validateWebhookSignature]. *)
Definition validateWebhookSignature (payload signature secret : string) : bool :=
  String.eqb signature (hmac_sha256_hex secret payload).

(** Lines 16-19: [update] takes the bytes of a [Buffer] and throws a
    [TypeError] on an object. *)
Definition expected_signature (webhookSecret : string) (b : Body) : option string :=
  match b with
  | BufferBody payload => Some (hmac_sha256_hex webhookSecret payload)
  | ParsedBody _ => None
  end.

(** Lines 11-25: what becomes of the signature check. *)
Inductive SignatureCheck :=
  | SignatureSkipped
  | SignatureMatches
  | SignatureDiffers
  | SignatureThrows.

Definition check_signature (env : Env) (req : WebhookRequest) : SignatureCheck :=
  match GODADDY_WEBHOOK_SECRET env, x_godaddy_signature req with
  | Some webhookSecret, Some signature =>
      if truthy (Some webhookSecret) && truthy (Some signature)
      then
        match expected_signature webhookSecret (body req) with
        | Some expectedSignature =>
            if String.eqb signature expectedSignature
            then SignatureMatches else SignatureDiffers
        | None => SignatureThrows
        end
      else SignatureSkipped
  | _, _ => SignatureSkipped
  end.

(** Lines 27-54: parse the payload and process the event. *)
Definition parse_and_process (now : Date) (payload : string) (st : State)
  : State * WebhookResponse :=
  match JSON_parse payload with
  | None => (st, WebhookProcessingFailed)
  | Some event => (processEvent now event st, WebhookReceived)
  end.

(** [POST /godaddy/subscription]. *)
Definition godaddy_subscription (env : Env) (now : Date) (req : WebhookRequest) (st : State)
  : State * WebhookResponse :=
  match check_signature env req with
  | SignatureDiffers => (st, WebhookInvalidSignature)
  | SignatureThrows => (st, WebhookProcessingFailed)
  | SignatureSkipped | SignatureMatches =>
      parse_and_process now (Body_toString (body req)) st
  end.

End Route.

End Webhooks.

(** ** Vocabulary of the statements *)

(** The event types that count against the quota, and the others. *)
Definition quota_counted_types : list string :=
  map UsageEventType_value [PROMPT; CHAT; AGENT].

Definition uncounted_types : list string :=
  map UsageEventType_value
    [CODE_COMPLETION; DEPENDENCY_VISUALIZATION; KNOWLEDGE_BASE; FINE_TUNING].

(** A well-formed tracking call of [userId], of a quota-counted type, for a
    feature among [fs]. *)
Definition counted_call (userId : string) (fs : list string) (c : TrackCall) : Prop :=
  tr_userId (tc_req c) = userId
  /\ In (tr_type (tc_req c)) quota_counted_types
  /\ tr_feature (tc_req c) <> ""
  /\ In (tr_feature (tc_req c)) fs.

Definition within_quota (u : IUser) : Prop :=
  promptsPerMonth (usageQuota u) <> -1 ->
  promptsUsed (usageQuota u) <= promptsPerMonth (usageQuota u).

Definition quota_respected (st : State) : Prop :=
  map_Forall (fun _ u => within_quota u) (users st).

(** The Tier Policy table as the specification words it (section 4.1),
    with basic, mid and top read as [FAN], [DEVELOPER] and [ENTERPRISE]. *)
Definition TierPolicy (t : SubscriptionTier) : TierConfiguration :=
  match t with
  | FAN => mkTierConfiguration 75 ["chat"; "agent"; "codeCompletion"]
  | DEVELOPER =>
      mkTierConfiguration (-1)
        (["chat"; "agent"; "codeCompletion"] ++ ["dependencyVisualization"; "knowledgeBase"])
  | ENTERPRISE =>
      mkTierConfiguration (-1)
        (["chat"; "agent"; "codeCompletion"] ++ ["dependencyVisualization"; "knowledgeBase"]
         ++ ["fineTuning"; "rbac"; "auditLogging"; "sso"])
  end.

(** A user record carries the entitlements of tier [t]. *)
Definition entitled_as (t : SubscriptionTier) (u : IUser) : Prop :=
  tier (subscription u) = t
  /\ features u = config_features (TierPolicy t)
  /\ promptsPerMonth (usageQuota u) = config_promptsPerMonth (TierPolicy t).

(** The [usageQuota] object a response carries, when it carries one. *)
Definition track_quota (r : TrackResponse) : option QuotaView :=
  match r with
  | TrackLimitExceeded q | TrackOk _ q => Some q
  | _ => None
  end.

Definition verify_quota (r : Subscription.VerifyResponse) : option QuotaView :=
  match r with
  | Subscription.VerifyOk _ user _ _ => Some (us_usageQuota user)
  | Subscription.VerifyValidationError => None
  end.

Definition get_quota (r : Subscription.GetResponse) : option QuotaView :=
  match r with
  | Subscription.GetOk user _ _ _ => Some (us_usageQuota user)
  | _ => None
  end.

(** ** The service as a whole *)

(** The library functions the routes call. *)
Record Platform := mkPlatform {
  pf_hmac_sha256_hex : string -> string -> string;
  pf_JSON_parse : string -> option WebhookEvent;
  pf_isEmail : string -> bool;
  pf_jwt : Jwt
}.

(** A request to one of the routes that can write, with what it reads from
    its surroundings: the clock, the event id drawn, the environment, the
    billing provider's answers. *)
Inductive Request :=
  | PostUsageTrack (now : Date) (eventId : string) (req : TrackRequest)
  | PostUsageReset (now : Date) (userId : string)
  | PostSubscriptionVerify (now : Date) (api : string -> option string)
      (req : Subscription.VerifyRequest)
  | PutSubscriptionUpdate (req : Subscription.UpdateRequest)
  | PostVerifyPayment (now : Date) (req : Subscription.VerifyPaymentRequest)
  | PostAuthToken (env : AuthEnv) (now : Date) (req : Auth.TokenRequest)
  | PostAuthRefresh (env : AuthEnv) (now : Date) (userId : string)
  | PostWebhook (env : Env) (now : Date) (req : WebhookRequest).

(** The state a request leaves. *)
Definition serve (pf : Platform) (r : Request) (st : State) : State :=
  match r with
  | PostUsageTrack now eventId req => (track now eventId req st).1
  | PostUsageReset now userId => (reset now userId st).1
  | PostSubscriptionVerify now api req => (Subscription.verify now api req st).1
  | PutSubscriptionUpdate req => (Subscription.update req st).1
  | PostVerifyPayment now req =>
      (Subscription.verify_payment now (pf_isEmail pf) req st).1
  | PostAuthToken env now req => (Auth.token (pf_jwt pf) env now req st).1
  | PostAuthRefresh env now userId => (Auth.refresh (pf_jwt pf) env now userId st).1
  | PostWebhook env now req =>
      (Webhooks.godaddy_subscription (pf_hmac_sha256_hex pf) (pf_JSON_parse pf)
         env now req st).1
  end.

Definition serve_all (pf : Platform) (rs : list Request) (st : State) : State :=
  fold_left (fun st r => serve pf r st) rs st.

Definition empty_state : State := mkState ∅ [].

(** A record whose entitlements are those of its own tier and whose
    counter is not negative. *)
Definition user_sound (u : IUser) : Prop :=
  entitled_as (tier (subscription u)) u /\ 0 <= promptsUsed (usageQuota u).

Definition store_sound (st : State) : Prop :=
  map_Forall (fun _ u => user_sound u) (users st).

(** [st'] holds every user of [st], possibly rewritten, and every usage
    event of [st], unchanged and in order, possibly followed by new ones. *)
Definition extends (st st' : State) : Prop :=
  (forall userId, is_Some (users st !! userId) -> is_Some (users st' !! userId))
  /\ exists added, usageEvents st' = (usageEvents st ++ added)%list.

(** A record that holds [metadata.lastActiveDate], as every record the
    routes create does. *)
Definition has_lastActiveDate (u : IUser) : Prop :=
  is_Some (lastActiveDate (metadata u)).

Definition store_dated (st : State) : Prop :=
  map_Forall (fun _ u => has_lastActiveDate u) (users st).

(** The order of a statistics query: the later event first. *)
Definition later_first (x y : IUsageEvent) : Prop :=
  ue_timestamp y <= ue_timestamp x.


(** ** Sample data, for the instances of the theorems *)

Definition sample_user : IUser :=
  mkUser None
    (mkSubscription FAN ACTIVE 0 None None (Some "sub_1") None None None false)
    (mkUsageQuota 2 0 1000 None)
    ["chat"; "agent"; "codeCompletion"]
    (mkUserMetadata None None None None).

Definition sample_state : State :=
  mkState {[ "u1" := sample_user ]} [].

Definition no_metadata : IUsageEventMetadata :=
  mkEventMetadata None None None None None None None.

(** A user at the end of a finite quota whose window closed at time 1000. *)
Definition spent_user : IUser :=
  with_usageQuota (set_promptsUsed 2) sample_user.

Definition spent_state : State :=
  mkState {[ "u1" := spent_user ]} [].

Definition verify_u1 : Subscription.VerifyRequest :=
  Subscription.mkVerifyRequest "u1" None None.

(** A billing provider that cannot be reached. *)
Definition api_down : string -> option string := fun _ => None.

(** A quota with 5 prompts used whose window closes at time 1000. *)
Definition sample_quota : IUsageQuota := mkUsageQuota 75 5 1000 None.

(** An unlimited user who has used 7 prompts. *)
Definition unlimited_user : IUser :=
  mkUser None
    (mkSubscription DEVELOPER ACTIVE 0 None None (Some "sub_2") None None None false)
    (mkUsageQuota (-1) 7 1000 None)
    (config_features (TierPolicy DEVELOPER))
    (mkUserMetadata None None None None).

Definition unlimited_state : State :=
  mkState {[ "u2" := unlimited_user ]} [].

(** Stand-ins for the two platform functions, for the instances: a keyed
    tag that prefixes the payload with the key, and a parser that knows one
    payload. *)
Definition sample_hmac (secret payload : string) : string :=
  secret ++ ":" ++ payload.

Definition expired_data : WebhookData :=
  mkWebhookData (Some "sub_2") None None None None None.

Definition sample_parse (payload : string) : option WebhookEvent :=
  if String.eqb payload "{expired sub_2}"
  then Some (mkWebhookEvent "subscription.expired" (Some expired_data))
  else None.

Definition u2_call (now : Date) : TrackCall :=
  mkTrackCall now "e" (mkTrackRequest "u2" "chat" "chat" no_metadata).

(** A billing provider that answers "ACTIVE" for every subscription. *)
Definition api_active : string -> option string := fun _ => Some "ACTIVE".

Definition verify_u9 : Subscription.VerifyRequest :=
  Subscription.mkVerifyRequest "u9" (Some "1.2.0") None.

Definition pay_u9 : Subscription.VerifyPaymentRequest :=
  Subscription.mkVerifyPaymentRequest "u9" "developer" (Some "tx_9") None.

Definition no_email : string -> bool := fun _ => false.

(** A [subscription.created] payload for user "u9". *)
Definition created_data : WebhookData :=
  mkWebhookData (Some "sub_9") (Some "cus_9") (Some "scale-developer") None None
    (Some "u9").

Definition cancelled_data : WebhookData :=
  mkWebhookData (Some "sub_9") None None None None None.

(** A stand-in for the token library: one token, for user "u9", and a
    signer that throws on the life time "soon". *)
Definition sample_jwt : Jwt :=
  mkJwt (fun _ _ expiresIn =>
           if String.eqb expiresIn "soon" then None else Some "token-u9")
        (fun token _ =>
           if String.eqb token "token-u9"
           then Some (mkClaims (Some "u9") None (Some "user")) else None).

Definition sample_auth_env : AuthEnv := mkAuthEnv (Some "jwt-secret") None.

(** The two sample users as the routes last left them at time 900. *)
Definition seen_user : IUser :=
  with_metadata (set_lastActiveDate (Some 900)) spent_user.

Definition seen_state : State :=
  mkState {[ "u1" := seen_user ]} [].

Definition seen_unlimited_user : IUser :=
  with_metadata (set_lastActiveDate (Some 900)) unlimited_user.

Definition seen_unlimited_state : State :=
  mkState {[ "u2" := seen_unlimited_user ]} [].

(** An environment whose token life time is no time span. *)
Definition soon_auth_env : AuthEnv := mkAuthEnv (Some "jwt-secret") (Some "soon").

Definition chat_call (now : Date) : TrackCall :=
  mkTrackCall now "e" (mkTrackRequest "u1" "chat" "chat" no_metadata).

(** ** Properties of the usage-tracking route *)

Lemma eqb_empty_false (s : string) : s <> "" -> String.eqb s "" = false.
Proof. intros H. by apply String.eqb_neq. Qed.

Lemma includes_In (l : list string) (s : string) : includes l s = true <-> In s l.
Proof.
  unfold includes. rewrite existsb_exists. split.
  - intros (x & Hx & Heq). apply String.eqb_eq in Heq. by subst.
  - intros H. exists s. split; [done | apply String.eqb_refl].
Qed.

Lemma counted_isPromptBased (ty : string) :
  In ty quota_counted_types -> isPromptBased ty = true.
Proof.
  unfold quota_counted_types. simpl.
  intros [<- | [<- | [<- | []]]]; reflexivity.
Qed.

Lemma uncounted_isPromptBased (ty : string) :
  In ty uncounted_types -> isPromptBased ty = false.
Proof.
  unfold uncounted_types. simpl.
  intros [<- | [<- | [<- | [<- | []]]]]; reflexivity.
Qed.

Lemma counted_isIn (ty : string) :
  In ty quota_counted_types ->
  isIn ty (map UsageEventType_value UsageEventType_values) = true.
Proof.
  unfold quota_counted_types. simpl.
  intros [<- | [<- | [<- | []]]]; reflexivity.
Qed.

(** A counted call with quota left consumes one prompt and is answered 200. *)
Lemma track_counted_ok (now : Date) (eventId : string) (req : TrackRequest)
    (st : State) (u : IUser) :
  counted_call (tr_userId req) (features u) (mkTrackCall now eventId req) ->
  tr_userId req <> "" ->
  users st !! tr_userId req = Some u ->
  promptsPerMonth (usageQuota u) = -1
  \/ promptsUsed (usageQuota u) < promptsPerMonth (usageQuota u) ->
  users (track now eventId req st).1 = <[tr_userId req := consume now u]> (users st)
  /\ track_status (track now eventId req st).2 = 200.
Proof.
  intros (_ & Hty & Hfe & Hin) Hid Hu Hrem. simpl in *.
  unfold track, track_valid.
  rewrite (eqb_empty_false _ Hid), (eqb_empty_false _ Hfe), (counted_isIn _ Hty).
  simpl. rewrite Hu.
  apply includes_In in Hin. rewrite Hin. simpl.
  rewrite (counted_isPromptBased _ Hty). simpl.
  assert ((promptsPerMonth (usageQuota u) =? -1)
          || (promptsUsed (usageQuota u) <? promptsPerMonth (usageQuota u)) = true) as ->.
  { destruct Hrem as [-> | Hlt]; [done |].
    apply orb_true_iff. right. by apply Z.ltb_lt. }
  simpl. done.
Qed.

(** A counted call on an exhausted finite quota is answered 429 and leaves
    the state as it was. *)
Lemma track_counted_exceeded (now : Date) (eventId : string) (req : TrackRequest)
    (st : State) (u : IUser) :
  counted_call (tr_userId req) (features u) (mkTrackCall now eventId req) ->
  tr_userId req <> "" ->
  users st !! tr_userId req = Some u ->
  promptsPerMonth (usageQuota u) <> -1 ->
  promptsPerMonth (usageQuota u) <= promptsUsed (usageQuota u) ->
  track now eventId req st
  = (st, TrackLimitExceeded
           (mkQuotaView (promptsPerMonth (usageQuota u)) (promptsUsed (usageQuota u))
              0 (resetDate (usageQuota u)))).
Proof.
  intros (_ & Hty & Hfe & Hin) Hid Hu Hne Hle. simpl in *.
  unfold track, track_valid.
  rewrite (eqb_empty_false _ Hid), (eqb_empty_false _ Hfe), (counted_isIn _ Hty).
  simpl. rewrite Hu.
  apply includes_In in Hin. rewrite Hin. simpl.
  rewrite (counted_isPromptBased _ Hty). simpl.
  assert ((promptsPerMonth (usageQuota u) =? -1) = false) as -> by by apply Z.eqb_neq.
  assert ((promptsUsed (usageQuota u) <? promptsPerMonth (usageQuota u)) = false) as ->
    by (apply Z.ltb_ge; lia).
  done.
Qed.

(** What one tracking call can do to the users collection: nothing, or one
    increment for a user who had quota left. *)
Lemma track_users_cases (now : Date) (eventId : string) (req : TrackRequest) (st : State) :
  users (track now eventId req st).1 = users st
  \/ exists u,
       users st !! tr_userId req = Some u
       /\ isPromptBased (tr_type req) = true
       /\ (promptsPerMonth (usageQuota u) = -1
           \/ promptsUsed (usageQuota u) < promptsPerMonth (usageQuota u))
       /\ users (track now eventId req st).1
          = <[tr_userId req := consume now u]> (users st).
Proof.
  unfold track.
  destruct (negb (track_valid req)); [by left |].
  destruct (users st !! tr_userId req) as [u |] eqn:Hu; [| by left].
  destruct (negb (includes (features u) (tr_feature req))); [by left |].
  destruct (isPromptBased (tr_type req)) eqn:Hp; simpl; [| by left].
  destruct (promptsPerMonth (usageQuota u) =? -1) eqn:Hunl; simpl.
  - right. exists u. repeat split; try done. left. by apply Z.eqb_eq.
  - destruct (promptsUsed (usageQuota u) <? promptsPerMonth (usageQuota u)) eqn:Hlt; simpl.
    + right. exists u. repeat split; try done. right. by apply Z.ltb_lt.
    + by left.
Qed.

Lemma track_all_cons (c : TrackCall) (rest : list TrackCall) (st : State) :
  track_all (c :: rest) st
  = ((track_all rest (track_call c st).1).1,
     (track_call c st).2 :: (track_all rest (track_call c st).1).2).
Proof.
  simpl. destruct (track_call c st) as [st1 r]. simpl.
  by destruct (track_all rest st1).
Qed.

(** A run of counted calls that fits in what is left of a finite quota:
    every call is answered 200 and the counter advances by their number. *)
Lemma track_all_within (userId : string) (calls : list TrackCall) :
  forall (st : State) (u : IUser),
    userId <> "" ->
    users st !! userId = Some u ->
    Forall (counted_call userId (features u)) calls ->
    promptsUsed (usageQuota u) + Z.of_nat (length calls) <= promptsPerMonth (usageQuota u) ->
    Forall (fun r => track_status r = 200) (track_all calls st).2
    /\ exists u1,
         users (track_all calls st).1 !! userId = Some u1
         /\ promptsUsed (usageQuota u1) = promptsUsed (usageQuota u) + Z.of_nat (length calls)
         /\ promptsPerMonth (usageQuota u1) = promptsPerMonth (usageQuota u)
         /\ features u1 = features u.
Proof.
  induction calls as [| c rest IH]; intros st u Hid Hu Hcalls Hfit.
  - simpl. split; [constructor |]. exists u. repeat split; try done. lia.
  - apply Forall_cons in Hcalls as [Hc Hrest].
    rewrite track_all_cons. simpl.
    destruct c as [now eventId req]. unfold track_call. simpl.
    assert (tr_userId req = userId) as Hreq by apply Hc. subst userId.
    simpl length in Hfit. rewrite Nat2Z.inj_succ in Hfit.
    destruct (track_counted_ok now eventId req st u Hc Hid Hu) as [Hst Hr]; [lia |].
    destruct (IH (track now eventId req st).1 (consume now u) Hid) as [Hok (u1 & Hu1 & Hused & Hppm & Hfs)].
    + rewrite Hst. apply lookup_insert_eq.
    + done.
    + simpl. lia.
    + split; [by constructor |].
      exists u1. repeat split; try done. rewrite Hused. simpl. lia.
Qed.

(** C2. For a user whose finite monthly quota is N and whose counter is 0,
    N consecutive well-formed tracking calls of a quota-counted type
    (prompt, chat, agent) for entitled features are all answered 200 and
    bring [promptsUsed] to N; one more such call is answered 429 (usage
    limit exceeded) and leaves the whole state, the user record included,
    as it was, so [promptsUsed] is still N. *)
Theorem track_quota_exhaustion (st : State) (userId : string) (u : IUser)
    (calls : list TrackCall) (extra : TrackCall) :
  userId <> "" ->
  users st !! userId = Some u ->
  promptsPerMonth (usageQuota u) = Z.of_nat (length calls) ->
  promptsUsed (usageQuota u) = 0 ->
  Forall (counted_call userId (features u)) calls ->
  counted_call userId (features u) extra ->
  let st1 := (track_all calls st).1 in
  Forall (fun r => track_status r = 200) (track_all calls st).2
  /\ length (track_all calls st).2 = length calls
  /\ (exists u1,
        users st1 !! userId = Some u1
        /\ promptsUsed (usageQuota u1) = Z.of_nat (length calls)
        /\ promptsPerMonth (usageQuota u1) = Z.of_nat (length calls))
  /\ track_status (track_call extra st1).2 = 429
  /\ (track_call extra st1).1 = st1.
Proof.
  intros Hid Hu Hppm Hused Hcalls Hextra st1.
  destruct (track_all_within userId calls st u Hid Hu Hcalls)
    as [Hok (u1 & Hu1 & Hused1 & Hppm1 & Hfs1)]; [lia |].
  split; [done |]. split.
  { clear. revert st. induction calls as [| c rest IH]; intros st; [done |].
    rewrite track_all_cons. simpl. by rewrite IH. }
  split.
  { exists u1. repeat split; [done | lia | lia]. }
  destruct extra as [now eventId req]. unfold track_call. simpl.
  assert (tr_userId req = userId) as Hreq by apply Hextra. subst userId.
  rewrite <- Hfs1 in Hextra.
  rewrite (track_counted_exceeded now eventId req st1 u1 Hextra Hid Hu1); [done | lia | lia].
Qed.

(** What one tracking call does to a user of the collection: the user
    stays, with the same [promptsPerMonth], and the counter is either left
    alone or advanced by 1, the latter only when quota was left. *)
Lemma track_call_user (c : TrackCall) (st : State) (userId : string) (u : IUser) :
  users st !! userId = Some u ->
  exists u1,
    users (track_call c st).1 !! userId = Some u1
    /\ promptsPerMonth (usageQuota u1) = promptsPerMonth (usageQuota u)
    /\ (promptsUsed (usageQuota u1) = promptsUsed (usageQuota u)
        \/ (promptsUsed (usageQuota u1) = promptsUsed (usageQuota u) + 1
            /\ (promptsPerMonth (usageQuota u) <> -1 ->
                promptsUsed (usageQuota u) < promptsPerMonth (usageQuota u)))).
Proof.
  intros Hu. destruct c as [now eventId req]. unfold track_call. simpl.
  destruct (track_users_cases now eventId req st)
    as [-> | (u0 & Hu0 & _ & Hrem & ->)].
  - exists u. split; [done |]. split; [done | by left].
  - destruct (decide (tr_userId req = userId)) as [<- | Hne].
    + assert (u0 = u) as -> by congruence.
      exists (consume now u). rewrite lookup_insert_eq.
      split; [done |]. split; [done |]. right. simpl. split; [done | lia].
    + exists u. rewrite lookup_insert_ne by done.
      split; [done |]. split; [done | by left].
Qed.

(** C4. The tracking route never takes a finite quota past its limit: for
    a user with [promptsPerMonth <> -1] and [promptsUsed <= promptsPerMonth],
    after any sequence of tracking calls (any requests, for any users) the
    user is still there with the same [promptsPerMonth] and
    [promptsUsed <= promptsPerMonth]; one call changes the counter only by
    adding 1, and only when [promptsUsed < promptsPerMonth] held before it.
    Hence a collection in which every finite quota is respected stays so. *)
Theorem track_respects_quota (calls : list TrackCall) (st : State)
    (userId : string) (u : IUser) :
  users st !! userId = Some u ->
  promptsPerMonth (usageQuota u) <> -1 ->
  promptsUsed (usageQuota u) <= promptsPerMonth (usageQuota u) ->
  (exists u1,
     users (track_all calls st).1 !! userId = Some u1
     /\ promptsPerMonth (usageQuota u1) = promptsPerMonth (usageQuota u)
     /\ promptsUsed (usageQuota u1) <= promptsPerMonth (usageQuota u1))
  /\ (forall c : TrackCall,
        exists u1,
          users (track_call c st).1 !! userId = Some u1
          /\ (promptsUsed (usageQuota u1) = promptsUsed (usageQuota u)
              \/ (promptsUsed (usageQuota u1) = promptsUsed (usageQuota u) + 1
                  /\ promptsUsed (usageQuota u) < promptsPerMonth (usageQuota u))))
  /\ (quota_respected st -> quota_respected (track_all calls st).1).
Proof.
  intros Hu Hfin Hle. split; [| split].
  - revert st u Hu Hfin Hle.
    induction calls as [| c rest IH]; intros st u Hu Hfin Hle.
    + exists u. done.
    + rewrite track_all_cons. simpl.
      destruct (track_call_user c st userId u Hu) as (u1 & Hu1 & Hppm & Hused).
      destruct (IH (track_call c st).1 u1 Hu1) as (u2 & Hu2 & Hppm2 & Hle2);
        [congruence | lia |].
      exists u2. split; [done |]. split; [congruence | done].
  - intros c.
    destruct (track_call_user c st userId u Hu) as (u1 & Hu1 & _ & Hused).
    exists u1. split; [done |].
    destruct Hused as [Hsame | [Hinc Hlt]]; [by left | right; auto].
  - clear. revert st. induction calls as [| c rest IH]; intros st Hinv; [done |].
    rewrite track_all_cons. simpl. apply IH.
    destruct c as [now eventId req]. unfold track_call, quota_respected in *. simpl.
    destruct (track_users_cases now eventId req st)
      as [-> | (u & Hu & _ & Hrem & ->)]; [done |].
    apply map_Forall_insert_2; [| done].
    specialize (Hinv _ _ Hu). unfold within_quota in *. simpl. lia.
Qed.

(** C5. A tracking call whose event type is not quota-counted
    (code_completion, dependency_visualization, knowledge_base, fine_tuning)
    leaves the users collection as it was, whatever the request and the
    quota state: no [promptsUsed], [promptsPerMonth] or [resetDate] changes;
    and it is never answered 429. *)
Theorem track_uncounted_frame (now : Date) (eventId : string) (req : TrackRequest)
    (st : State) :
  In (tr_type req) uncounted_types ->
  users (track now eventId req st).1 = users st
  /\ track_status (track now eventId req st).2 <> 429.
Proof.
  intros Hty. apply uncounted_isPromptBased in Hty.
  unfold track.
  destruct (negb (track_valid req)); [done |].
  destruct (users st !! tr_userId req) as [u |]; [| done].
  destruct (negb (includes (features u) (tr_feature req))); [done |].
  rewrite Hty. simpl. done.
Qed.

Lemma track_quota_exhaustion_witness :
  let st1 := (track_all [chat_call 10; chat_call 20] sample_state).1 in
  Forall (fun r => track_status r = 200)
    (track_all [chat_call 10; chat_call 20] sample_state).2
  /\ length (track_all [chat_call 10; chat_call 20] sample_state).2 = 2%nat
  /\ (exists u1,
        users st1 !! "u1" = Some u1
        /\ promptsUsed (usageQuota u1) = 2
        /\ promptsPerMonth (usageQuota u1) = 2)
  /\ track_status (track_call (chat_call 30) st1).2 = 429
  /\ (track_call (chat_call 30) st1).1 = st1.
Proof.
  apply (track_quota_exhaustion sample_state "u1" sample_user
           [chat_call 10; chat_call 20] (chat_call 30)).
  - discriminate.
  - reflexivity.
  - reflexivity.
  - reflexivity.
  - repeat constructor; simpl; (discriminate || tauto).
  - repeat split; simpl; (discriminate || tauto).
Defined.

Lemma track_uncounted_frame_witness :
  users (track 10 "e" (mkTrackRequest "u1" "code_completion" "codeCompletion" no_metadata)
           sample_state).1
  = users sample_state
  /\ track_status
       (track 10 "e" (mkTrackRequest "u1" "code_completion" "codeCompletion" no_metadata)
          sample_state).2 <> 429.
Proof.
  apply (track_uncounted_frame 10 "e"
           (mkTrackRequest "u1" "code_completion" "codeCompletion" no_metadata)
           sample_state).
  simpl. tauto.
Defined.

(** ** Properties of the tier policy and of the paths that apply it *)

Lemma getTierConfiguration_policy (t : SubscriptionTier) :
  Subscription.getTierConfiguration t = TierPolicy t
  /\ Webhooks.getTierConfiguration t = TierPolicy t.
Proof. by destruct t. Qed.

Lemma SubscriptionTier_of_string_value (t : SubscriptionTier) :
  SubscriptionTier_of_string (SubscriptionTier_value t) = Some t.
Proof. by destruct t. Qed.

Lemma SubscriptionStatus_of_string_value (s : SubscriptionStatus) :
  SubscriptionStatus_of_string (SubscriptionStatus_value s) = Some s.
Proof. by destruct s. Qed.

(** The user a subscription query finds is a document of the collection,
    stored under the key returned, and has the subscription id asked for. *)
Lemma findOneBySubscription_Some (db : gmap string IUser) (sid : option string)
    (userId : string) (u : IUser) :
  Webhooks.findOneBySubscription db sid = Some (userId, u) ->
  db !! userId = Some u /\ goDaddySubscriptionId (subscription u) = sid.
Proof.
  unfold Webhooks.findOneBySubscription. intros H.
  apply find_some in H as [Hin Hb].
  apply list_elem_of_In, elem_of_map_to_list in Hin.
  apply bool_decide_eq_true in Hb. done.
Qed.

(** C3. Every path that changes a tier writes the Tier Policy entry of the
    new tier T: after [PUT /update/:userId] with tier T, after the webhook
    [subscription.created] whose plan maps to T, and after the webhook
    [subscription.updated] carrying a plan that maps to T, the user has
    tier T, [features] equal to the policy's feature set for T and
    [promptsPerMonth] equal to the policy's quota for T (75 for the basic
    tier, -1 for the two others); [promptsUsed] of an existing user is what
    it was before.  Both copies of the tier table are the policy. *)
Theorem tier_change_applies_policy (T : SubscriptionTier) :
  config_promptsPerMonth (TierPolicy T) = (if decide (T = FAN) then 75 else -1)
  /\ Subscription.getTierConfiguration T = TierPolicy T
  /\ Webhooks.getTierConfiguration T = TierPolicy T
  /\ (forall (S : SubscriptionStatus) (req : Subscription.UpdateRequest)
             (st : State) (user : IUser),
        Subscription.ur_userId req <> "" ->
        Subscription.ur_tier req = SubscriptionTier_value T ->
        Subscription.ur_status req = SubscriptionStatus_value S ->
        users st !! Subscription.ur_userId req = Some user ->
        exists user1,
          users (Subscription.update req st).1 !! Subscription.ur_userId req = Some user1
          /\ entitled_as T user1
          /\ status (subscription user1) = S
          /\ promptsUsed (usageQuota user1) = promptsUsed (usageQuota user)
          /\ Subscription.update_status (Subscription.update req st).2 = 200)
  /\ (forall (now : Date) (d : WebhookData) (st : State) (userId : string),
        wd_metadata_userId d = Some userId ->
        userId <> "" ->
        Webhooks.mapPlanIdToTier (wd_planId d) = T ->
        exists user1,
          users (Webhooks.handleSubscriptionCreated now (Some d) st) !! userId = Some user1
          /\ entitled_as T user1
          /\ status (subscription user1) = ACTIVE
          /\ (forall user, users st !! userId = Some user ->
                promptsUsed (usageQuota user1) = promptsUsed (usageQuota user)))
  /\ (forall (d : WebhookData) (st : State) (userId : string) (user : IUser),
        Webhooks.findOneBySubscription (users st) (wd_subscriptionId d)
        = Some (userId, user) ->
        truthy (wd_planId d) = true ->
        Webhooks.mapPlanIdToTier (wd_planId d) = T ->
        exists user1,
          users (Webhooks.handleSubscriptionUpdated (Some d) st) !! userId = Some user1
          /\ entitled_as T user1
          /\ promptsUsed (usageQuota user1) = promptsUsed (usageQuota user)).
Proof.
  destruct (getTierConfiguration_policy T) as [HS HW].
  split; [by destruct T |]. split; [done |]. split; [done |].
  split; [| split].
  - intros S req st user Hid HT HS' Hu.
    unfold Subscription.update.
    rewrite (eqb_empty_false _ Hid), HT, HS',
      SubscriptionTier_of_string_value, SubscriptionStatus_of_string_value, Hu.
    simpl. rewrite lookup_insert_eq. eexists. split; [done |].
    unfold entitled_as. rewrite HS. simpl.
    destruct (truthy (Subscription.ur_goDaddySubscriptionId req)),
      (truthy (Subscription.ur_goDaddyCustomerId req)); done.
  - intros now d st userId Hmeta Hid HT.
    unfold Webhooks.handleSubscriptionCreated.
    rewrite Hmeta, (eqb_empty_false _ Hid), HT. simpl.
    rewrite lookup_insert_eq. eexists. split; [done |].
    unfold entitled_as. rewrite HW.
    destruct (truthy (wd_customerEmail d)); simpl; repeat split; try done.
    all: by intros user ->.
  - intros d st userId user Hfind Hplan HT.
    unfold Webhooks.handleSubscriptionUpdated.
    rewrite Hfind, Hplan, HT. simpl.
    rewrite lookup_insert_eq. eexists. split; [done |].
    unfold entitled_as. rewrite HW.
    destruct (wd_status d) as [s |]; simpl; [destruct (String.eqb s "") |]; done.
Qed.

(** C7. Processing a webhook [subscription.expired] event whose
    subscription id resolves to a user leaves that user, whatever the
    tier held before, with status expired, end date equal to the time of
    processing, tier basic ([FAN]), the basic feature set of the Tier Policy
    and the basic quota of 75 prompts per month. *)
Theorem expired_forces_basic (now : Date) (d : WebhookData) (st : State)
    (userId : string) (user : IUser) :
  Webhooks.findOneBySubscription (users st) (wd_subscriptionId d) = Some (userId, user) ->
  exists user1,
    users (Webhooks.processEvent now (mkWebhookEvent "subscription.expired" (Some d)) st)
      !! userId = Some user1
    /\ status (subscription user1) = EXPIRED
    /\ endDate (subscription user1) = Some now
    /\ tier (subscription user1) = FAN
    /\ features user1 = config_features (TierPolicy FAN)
    /\ features user1 = ["chat"; "agent"; "codeCompletion"]
    /\ promptsPerMonth (usageQuota user1) = config_promptsPerMonth (TierPolicy FAN)
    /\ promptsPerMonth (usageQuota user1) = 75.
Proof.
  intros Hfind.
  unfold Webhooks.processEvent, Webhooks.handleSubscriptionExpired. simpl.
  rewrite Hfind. simpl. rewrite lookup_insert_eq.
  eexists. split; [done |]. done.
Qed.

(** ** Properties of the quota rollover *)

(** The tracking route inlines the two schema methods it needs. *)
Lemma track_inlines_methods (now : Date) (u : IUser) :
  consume now u = UserSchema_methods.incrementPromptUsage now u
  /\ UserSchema_methods.hasRemainingPrompts u
     = (promptsPerMonth (usageQuota u) =? -1)
       || (promptsUsed (usageQuota u) <? promptsPerMonth (usageQuota u)).
Proof. done. Qed.

(** Neither of the two places that reset the counter, the rollover of the
    verification route and the administrative reset, writes
    [lastResetDate]. *)
Lemma resets_leave_lastResetDate (now : Date) (userId : string) (st : State) (u : IUser) :
  lastResetDate (Subscription.rollover now (usageQuota u)) = lastResetDate (usageQuota u)
  /\ (users st !! userId = Some u ->
      forall u1, users (reset now userId st).1 !! userId = Some u1 ->
      lastResetDate (usageQuota u1) = lastResetDate (usageQuota u)).
Proof.
  split.
  - unfold Subscription.rollover. by case_match.
  - intros Hu u1. unfold reset. rewrite Hu.
    destruct (String.eqb userId ""); simpl.
    + rewrite Hu. by intros [= <-].
    + rewrite lookup_insert_eq. by intros [= <-].
Qed.

Lemma rollover_not_due (now : Date) (q : IUsageQuota) :
  now <= resetDate q -> Subscription.rollover now q = q.
Proof.
  intros H. unfold Subscription.rollover.
  by destruct (Z.ltb_spec (resetDate q) now); [lia |].
Qed.

Lemma rollover_due (now : Date) (q : IUsageQuota) :
  resetDate q < now ->
  Subscription.rollover now q
  = mkUsageQuota (promptsPerMonth q) 0 (now + THIRTY_DAYS) (lastResetDate q).
Proof.
  intros H. unfold Subscription.rollover.
  by destruct (Z.ltb_spec (resetDate q) now); [| lia].
Qed.

Lemma THIRTY_DAYS_pos : 0 < THIRTY_DAYS.
Proof. reflexivity. Qed.

(** The quota a verification call stores and reports for an existing user
    is the rolled-over one. *)
Lemma verify_existing (now : Date) (api : string -> option string)
    (req : Subscription.VerifyRequest) (st : State) (user : IUser) :
  Subscription.vr_userId req <> "" ->
  users st !! Subscription.vr_userId req = Some user ->
  exists user1,
    users (Subscription.verify now api req st).1 !! Subscription.vr_userId req = Some user1
    /\ usageQuota user1 = Subscription.rollover now (usageQuota user)
    /\ verify_quota (Subscription.verify now api req st).2
       = Some (Subscription.quota_view (Subscription.rollover now (usageQuota user))).
Proof.
  intros Hid Hu. unfold Subscription.verify.
  rewrite (eqb_empty_false _ Hid). simpl. rewrite lookup_insert_eq.
  eexists. split; [done |].
  assert (usageQuota (Subscription.verify_ensure now req st)
          = Subscription.rollover now (usageQuota user)) as Hq.
  { unfold Subscription.verify_ensure. by rewrite Hu. }
  assert (forall u, usageQuota (Subscription.verify_reconcile api u) = usageQuota u) as Hrec.
  { intros u. unfold Subscription.verify_reconcile.
    repeat case_match; done. }
  rewrite Hrec, Hq. done.
Qed.

(** C1, as the code has it. On the subscription verification path, for an
    existing user whose [resetDate] is strictly before the time of the
    request, [promptsUsed] is set to 0 and [resetDate] to now + 30 days
    before the quota is reported: the stored record and the response show
    the fresh window, with [promptsRemaining] the whole monthly allowance.
    [lastResetDate] is not written.  When the request does not come after
    [resetDate], the quota is stored and reported as it was. *)
Theorem verify_rolls_over (now : Date) (api : string -> option string)
    (req : Subscription.VerifyRequest) (st : State) (user : IUser) :
  Subscription.vr_userId req <> "" ->
  users st !! Subscription.vr_userId req = Some user ->
  exists user1 view,
    users (Subscription.verify now api req st).1 !! Subscription.vr_userId req = Some user1
    /\ verify_quota (Subscription.verify now api req st).2 = Some view
    /\ lastResetDate (usageQuota user1) = lastResetDate (usageQuota user)
    /\ promptsPerMonth (usageQuota user1) = promptsPerMonth (usageQuota user)
    /\ (resetDate (usageQuota user) < now ->
        promptsUsed (usageQuota user1) = 0
        /\ resetDate (usageQuota user1) = now + THIRTY_DAYS
        /\ qv_promptsUsed view = 0
        /\ qv_promptsRemaining view = promptsPerMonth (usageQuota user)
        /\ qv_resetDate view = now + THIRTY_DAYS)
    /\ (now <= resetDate (usageQuota user) ->
        usageQuota user1 = usageQuota user
        /\ view = Subscription.quota_view (usageQuota user)).
Proof.
  intros Hid Hu.
  destruct (verify_existing now api req st user Hid Hu) as (user1 & Hu1 & Hq & Hv).
  exists user1, (Subscription.quota_view (Subscription.rollover now (usageQuota user))).
  split; [done |]. split; [done |]. rewrite Hq.
  split; [| split; [| split]].
  - unfold Subscription.rollover. by case_match.
  - unfold Subscription.rollover. by case_match.
  - intros Hdue. rewrite (rollover_due _ _ Hdue). simpl. repeat split; try done. lia.
  - intros Hnot. by rewrite (rollover_not_due _ _ Hnot).
Qed.

Lemma verify_rolls_over_witness :
  exists user1 view,
    users (Subscription.verify 5000 api_down verify_u1 spent_state).1 !! "u1" = Some user1
    /\ verify_quota (Subscription.verify 5000 api_down verify_u1 spent_state).2 = Some view
    /\ lastResetDate (usageQuota user1) = None
    /\ promptsPerMonth (usageQuota user1) = 2
    /\ (1000 < 5000 ->
        promptsUsed (usageQuota user1) = 0
        /\ resetDate (usageQuota user1) = 5000 + THIRTY_DAYS
        /\ qv_promptsUsed view = 0
        /\ qv_promptsRemaining view = 2
        /\ qv_resetDate view = 5000 + THIRTY_DAYS)
    /\ (5000 <= 1000 ->
        usageQuota user1 = usageQuota spent_user
        /\ view = Subscription.quota_view (usageQuota spent_user)).
Proof.
  apply (verify_rolls_over 5000 api_down verify_u1 spent_state spent_user).
  - discriminate.
  - reflexivity.
Defined.

(** C1 as stated fails at three inputs.  A tracking call made after the
    window closed is answered 429 with the counter and the reset date
    untouched; a verification call made exactly at [resetDate] resets
    nothing; and a verification call made after it leaves [lastResetDate]
    unset. *)
Lemma rollover_before_every_check_fails :
  (resetDate (usageQuota spent_user) <= 5000
   /\ track_call (chat_call 5000) spent_state
      = (spent_state, TrackLimitExceeded (mkQuotaView 2 2 0 1000)))
  /\ (resetDate (usageQuota spent_user) <= 1000
      /\ users (Subscription.verify 1000 api_down verify_u1 spent_state).1 !! "u1"
         = Some (with_metadata (set_lastActiveDate (Some 1000)) spent_user)
      /\ promptsUsed (usageQuota (with_metadata (set_lastActiveDate (Some 1000)) spent_user))
         = 2)
  /\ (resetDate (usageQuota spent_user) <= 5000
      /\ exists user1,
           users (Subscription.verify 5000 api_down verify_u1 spent_state).1 !! "u1"
           = Some user1
           /\ lastResetDate (usageQuota user1) <> Some 5000).
Proof.
  split; [| split].
  - split; [by vm_compute | reflexivity].
  - split; [by vm_compute |]. split; reflexivity.
  - split; [by vm_compute |]. eexists. split; [reflexivity | discriminate].
Qed.

(** C6, as the code has it. The rollover written inline in the verification
    route is idempotent at a given time.  When the time is not after
    [resetDate] it changes nothing, applied once or twice.  When
    [resetDate] is strictly before the time, one application leaves
    [promptsUsed = 0] and [resetDate = now + 30 days], which is after now,
    with [lastResetDate] and [promptsPerMonth] as they were, and a second
    application changes nothing more.  The schema method [resetUsageQuota],
    which no route calls, is unconditional: it sets [promptsUsed = 0],
    [lastResetDate = now] and [resetDate = now + 30 days] at any time. *)
Theorem rollover_idempotent (now : Date) (q : IUsageQuota) (u : IUser) :
  Subscription.rollover now (Subscription.rollover now q) = Subscription.rollover now q
  /\ (now <= resetDate q ->
      Subscription.rollover now q = q
      /\ Subscription.rollover now (Subscription.rollover now q) = q)
  /\ (resetDate q < now ->
      promptsUsed (Subscription.rollover now q) = 0
      /\ resetDate (Subscription.rollover now q) = now + THIRTY_DAYS
      /\ now < resetDate (Subscription.rollover now q)
      /\ lastResetDate (Subscription.rollover now q) = lastResetDate q
      /\ promptsPerMonth (Subscription.rollover now q) = promptsPerMonth q)
  /\ usageQuota (UserSchema_methods.resetUsageQuota now u)
     = mkUsageQuota (promptsPerMonth (usageQuota u)) 0 (now + THIRTY_DAYS) (Some now).
Proof.
  pose proof THIRTY_DAYS_pos as Hpos.
  split; [| split; [| split]].
  - destruct (Z.lt_ge_cases (resetDate q) now) as [Hdue | Hnot].
    + rewrite (rollover_due _ _ Hdue). apply rollover_not_due. simpl. lia.
    + by rewrite !(rollover_not_due _ _ Hnot).
  - intros Hnot. by rewrite !(rollover_not_due _ _ Hnot).
  - intros Hdue. rewrite (rollover_due _ _ Hdue). simpl. repeat split; try done. lia.
  - done.
Qed.

(** C6 as stated fails on the inline rollover: applied exactly at
    [resetDate] it resets nothing, and applied after it, it leaves
    [lastResetDate] unset. *)
Lemma rollover_as_stated_fails :
  (resetDate sample_quota <= 1000
   /\ promptsUsed (Subscription.rollover 1000 sample_quota) <> 0)
  /\ (resetDate sample_quota <= 2000
      /\ lastResetDate (Subscription.rollover 2000 sample_quota) <> Some 2000).
Proof.
  split; (split; [by vm_compute | by vm_compute]).
Qed.

(** ** Properties of the reported [promptsRemaining] *)

(** C10. The responses compute [promptsRemaining] in two ways.  Every
    [usageQuota] object of the verification and of the subscription-get
    responses has [promptsRemaining = promptsPerMonth - promptsUsed], with
    no case for the unlimited quota and no floor: a get for a user with
    [promptsPerMonth = -1] and [promptsUsed = k] reports [-1 - k], which is
    below [-1] as soon as [k > 0], and so does a verification made before
    the window closes.  Every [usageQuota] object of a usage-tracking
    response has [promptsRemaining = -1] for the unlimited quota and
    [max 0 (promptsPerMonth - promptsUsed)] otherwise, and the tracking
    route does send one: a well-formed request of an existing user for a
    feature the user has is answered 429 or 200, with the quota of the
    record and the counter as the call left it; for the unlimited user it
    is answered 200 with [promptsRemaining = -1]. *)
Theorem promptsRemaining_by_route (now : Date) (st : State) :
  (forall (userId : string) (view : QuotaView),
     get_quota (Subscription.get now userId st) = Some view ->
     qv_promptsRemaining view = qv_promptsPerMonth view - qv_promptsUsed view)
  /\ (forall api (req : Subscription.VerifyRequest) (view : QuotaView),
        verify_quota (Subscription.verify now api req st).2 = Some view ->
        qv_promptsRemaining view = qv_promptsPerMonth view - qv_promptsUsed view)
  /\ (forall (eventId : string) (req : TrackRequest) (view : QuotaView),
        track_quota (track now eventId req st).2 = Some view ->
        qv_promptsRemaining view
        = if qv_promptsPerMonth view =? -1 then -1
          else Z.max 0 (qv_promptsPerMonth view - qv_promptsUsed view))
  /\ (forall (userId : string) (user : IUser) (k : Z),
        userId <> "" ->
        users st !! userId = Some user ->
        promptsPerMonth (usageQuota user) = -1 ->
        promptsUsed (usageQuota user) = k ->
        (exists view,
           get_quota (Subscription.get now userId st) = Some view
           /\ qv_promptsRemaining view = -1 - k
           /\ (0 < k -> qv_promptsRemaining view < -1))
        /\ (forall api ext src,
              now <= resetDate (usageQuota user) ->
              exists view,
                verify_quota
                  (Subscription.verify now api
                     (Subscription.mkVerifyRequest userId ext src) st).2 = Some view
                /\ qv_promptsRemaining view = -1 - k)
        /\ (forall eventId req view,
              tr_userId req = userId ->
              track_quota (track now eventId req st).2 = Some view ->
              qv_promptsRemaining view = -1)
        /\ (forall eventId req,
              tr_userId req = userId ->
              track_valid req = true ->
              In (tr_feature req) (features user) ->
              exists view,
                (track now eventId req st).2 = TrackOk eventId view
                /\ qv_promptsPerMonth view = -1
                /\ qv_promptsUsed view = (if isPromptBased (tr_type req) then k + 1 else k)
                /\ qv_promptsRemaining view = -1))
  /\ (forall (eventId : string) (req : TrackRequest) (user : IUser),
        track_valid req = true ->
        users st !! tr_userId req = Some user ->
        In (tr_feature req) (features user) ->
        exists view,
          track_quota (track now eventId req st).2 = Some view
          /\ qv_promptsPerMonth view = promptsPerMonth (usageQuota user)
          /\ qv_resetDate view = resetDate (usageQuota user)
          /\ (track_status (track now eventId req st).2 = 429
              \/ track_status (track now eventId req st).2 = 200)
          /\ (track_status (track now eventId req st).2 = 429 ->
              promptsPerMonth (usageQuota user) <> -1
              /\ promptsPerMonth (usageQuota user) <= promptsUsed (usageQuota user)
              /\ qv_promptsUsed view = promptsUsed (usageQuota user)
              /\ qv_promptsRemaining view = 0)
          /\ (track_status (track now eventId req st).2 = 200 ->
              (track now eventId req st).2 = TrackOk eventId view
              /\ qv_promptsUsed view
                 = (if isPromptBased (tr_type req)
                    then promptsUsed (usageQuota user) + 1
                    else promptsUsed (usageQuota user))
              /\ qv_promptsRemaining view
                 = (if promptsPerMonth (usageQuota user) =? -1 then -1
                    else Z.max 0 (promptsPerMonth (usageQuota user)
                                  - qv_promptsUsed view)))).
Proof.
  split; [| split; [| split; [| split]]].
  - intros userId view. unfold Subscription.get.
    repeat case_match; simpl; try done; by intros [= <-].
  - intros api req view. unfold Subscription.verify.
    case_match; simpl; [done |]. by intros [= <-].
  - intros eventId req view. unfold track.
    destruct (negb (track_valid req)); [done |].
    destruct (users st !! tr_userId req) as [u |]; [| done].
    destruct (negb (includes (features u) (tr_feature req))); [done |].
    destruct (isPromptBased (tr_type req)); simpl.
    + destruct (Z.eqb_spec (promptsPerMonth (usageQuota u)) (-1)) as [Hunl | Hfin]; simpl.
      * intros [= <-]. simpl. by rewrite Hunl.
      * destruct (Z.ltb_spec (promptsUsed (usageQuota u)) (promptsPerMonth (usageQuota u)));
          simpl; intros [= <-]; simpl.
        all: destruct (Z.eqb_spec (promptsPerMonth (usageQuota u)) (-1)); lia.
    + by intros [= <-].
  - intros userId user k Hid Hu Hunl Hk. split; [| split; [| split]].
    + unfold Subscription.get. rewrite (eqb_empty_false _ Hid), Hu. simpl.
      eexists. split; [done |]. simpl. rewrite Hunl, Hk. split; [done | lia].
    + intros api ext src Hnot.
      destruct (verify_existing now api (Subscription.mkVerifyRequest userId ext src)
                  st user Hid Hu) as (user1 & _ & _ & Hv).
      rewrite Hv. eexists. split; [done |].
      rewrite (rollover_not_due _ _ Hnot). simpl. by rewrite Hunl, Hk.
    + intros eventId req view <-. unfold track. rewrite Hu, Hunl.
      destruct (negb (track_valid req)); [done |].
      destruct (negb (includes (features user) (tr_feature req))); [done |].
      destruct (isPromptBased (tr_type req)); simpl; intros [= <-]; simpl.
      all: by rewrite Hunl.
    + intros eventId req <- Hvalid Hfeat. unfold track.
      rewrite Hvalid, Hu, Hunl. apply includes_In in Hfeat. rewrite Hfeat.
      destruct (isPromptBased (tr_type req)); simpl.
      all: eexists; split; [reflexivity |]; simpl; rewrite ?Hunl, ?Hk; done.
  - intros eventId req user Hvalid Hu Hfeat. unfold track.
    rewrite Hvalid, Hu. apply includes_In in Hfeat. rewrite Hfeat.
    destruct (isPromptBased (tr_type req)); simpl.
    + destruct (Z.eqb_spec (promptsPerMonth (usageQuota user)) (-1)) as [Hunl | Hfin]; simpl.
      * eexists. split; [reflexivity |]. simpl. rewrite Hunl. simpl.
        split; [done |]. split; [done |]. split; [by right |].
        split; [intros [=] | done].
      * destruct (Z.ltb_spec (promptsUsed (usageQuota user))
                    (promptsPerMonth (usageQuota user))) as [Hlt | Hge]; simpl.
        -- eexists. split; [reflexivity |]. simpl.
           split; [done |]. split; [done |]. split; [by right |].
           split; [intros [=] |]. intros _. split; [done |]. split; [done |].
           by destruct (Z.eqb_spec (promptsPerMonth (usageQuota user)) (-1)).
        -- eexists. split; [reflexivity |]. simpl.
           split; [done |]. split; [done |]. split; [by left |].
           split; [done | intros [=]].
    + eexists. split; [reflexivity |]. simpl.
      split; [done |]. split; [done |]. split; [by right |].
      split; [intros [=] | done].
Qed.

(** ** Properties of the webhook signature gate *)

Section WebhookGate.

Variable hmac_sha256_hex : string -> string -> string.
Variable JSON_parse : string -> option WebhookEvent.

(** The route's comparison is [validateWebhookSignature] on the bytes of
    the body, when the body is a [Buffer]. *)
Lemma check_signature_buffer (secret signature payload : string) :
  secret <> "" ->
  signature <> "" ->
  Webhooks.check_signature hmac_sha256_hex (mkEnv (Some secret))
    (mkWebhookRequest (Some signature) (BufferBody payload))
  = if Webhooks.validateWebhookSignature hmac_sha256_hex payload signature secret
    then Webhooks.SignatureMatches else Webhooks.SignatureDiffers.
Proof.
  intros Hsecret Hsignature.
  unfold Webhooks.check_signature, Webhooks.validateWebhookSignature, truthy. simpl.
  by rewrite (eqb_empty_false _ Hsecret), (eqb_empty_false _ Hsignature).
Qed.

(** On a [Buffer] the handler is the gate it is written to be: the signature
    that is the digest of the bytes received lets the request through to
    parsing, any other is answered 401 with the state untouched. *)
Lemma signature_gate_on_buffer (secret signature payload : string) (now : Date)
    (st : State) :
  secret <> "" ->
  signature <> "" ->
  Webhooks.godaddy_subscription hmac_sha256_hex JSON_parse (mkEnv (Some secret)) now
    (mkWebhookRequest (Some signature) (BufferBody payload)) st
  = if String.eqb signature (hmac_sha256_hex secret payload)
    then match JSON_parse payload with
         | Some event => (Webhooks.processEvent now event st, WebhookReceived)
         | None => (st, WebhookProcessingFailed)
         end
    else (st, WebhookInvalidSignature).
Proof.
  intros Hsecret Hsignature. unfold Webhooks.godaddy_subscription.
  rewrite (check_signature_buffer _ _ _ Hsecret Hsignature).
  unfold Webhooks.validateWebhookSignature, Webhooks.parse_and_process. simpl.
  destruct (String.eqb signature (hmac_sha256_hex secret payload)); [| done].
  by destruct (JSON_parse payload).
Qed.

(** C8. The signature check does not hold on the requests the server hands
    to the route.  With a secret configured, a request that carries a
    signature and whose body reaches the handler already parsed, which is
    every request behind the server's [express.json()], makes the digest
    computation throw: the request is answered 500 with the state
    untouched, whatever the signature.  So the request signed with the
    HMAC-SHA256 digest of its own payload is not accepted, and a request
    with another signature is not answered 401. *)
Theorem webhook_signed_body_already_parsed (secret signature text : string)
    (now : Date) (st : State) :
  secret <> "" ->
  signature <> "" ->
  let env := mkEnv (Some secret) in
  let req := mkWebhookRequest (Some signature) (ParsedBody text) in
  Webhooks.check_signature hmac_sha256_hex env req = Webhooks.SignatureThrows
  /\ Webhooks.godaddy_subscription hmac_sha256_hex JSON_parse env now req st
     = (st, WebhookProcessingFailed)
  /\ webhook_status
       (Webhooks.godaddy_subscription hmac_sha256_hex JSON_parse env now req st).2 = 500.
Proof.
  intros Hsecret Hsignature env req. subst env req.
  assert (Webhooks.check_signature hmac_sha256_hex (mkEnv (Some secret))
            (mkWebhookRequest (Some signature) (ParsedBody text))
          = Webhooks.SignatureThrows) as Hthrows.
  { unfold Webhooks.check_signature, truthy. simpl.
    by rewrite (eqb_empty_false _ Hsecret), (eqb_empty_false _ Hsignature). }
  split; [exact Hthrows |].
  unfold Webhooks.godaddy_subscription. by rewrite Hthrows.
Qed.


End WebhookGate.

(** ** Instances on the sample data *)

Lemma track_respects_quota_witness :
  exists u1,
    users (track_all [chat_call 10; chat_call 20; chat_call 30] sample_state).1 !! "u1"
    = Some u1
    /\ promptsPerMonth (usageQuota u1) = 2
    /\ promptsUsed (usageQuota u1) <= promptsPerMonth (usageQuota u1).
Proof.
  apply (track_respects_quota [chat_call 10; chat_call 20; chat_call 30]
           sample_state "u1" sample_user).
  - reflexivity.
  - discriminate.
  - simpl. lia.
Defined.

Lemma rollover_idempotent_witness :
  promptsUsed (Subscription.rollover 2000 sample_quota) = 0
  /\ resetDate (Subscription.rollover 2000 sample_quota) = 2000 + THIRTY_DAYS
  /\ 2000 < resetDate (Subscription.rollover 2000 sample_quota)
  /\ lastResetDate (Subscription.rollover 2000 sample_quota) = None
  /\ promptsPerMonth (Subscription.rollover 2000 sample_quota) = 75.
Proof.
  apply (rollover_idempotent 2000 sample_quota sample_user).
  simpl. lia.
Defined.

Lemma tier_change_applies_policy_witness :
  exists user1,
    users (Subscription.update
             (Subscription.mkUpdateRequest "u1" "enterprise" "active" None None)
             spent_state).1 !! "u1" = Some user1
    /\ entitled_as ENTERPRISE user1
    /\ status (subscription user1) = ACTIVE
    /\ promptsUsed (usageQuota user1) = 2
    /\ Subscription.update_status
         (Subscription.update
            (Subscription.mkUpdateRequest "u1" "enterprise" "active" None None)
            spent_state).2 = 200.
Proof.
  destruct (tier_change_applies_policy ENTERPRISE) as (_ & _ & _ & Hput & _).
  apply (Hput ACTIVE (Subscription.mkUpdateRequest "u1" "enterprise" "active" None None)
           spent_state spent_user).
  - discriminate.
  - reflexivity.
  - reflexivity.
  - reflexivity.
Defined.

Lemma expired_forces_basic_witness :
  exists user1,
    users (Webhooks.processEvent 5000
             (mkWebhookEvent "subscription.expired" (Some expired_data)) unlimited_state)
      !! "u2" = Some user1
    /\ status (subscription user1) = EXPIRED
    /\ endDate (subscription user1) = Some 5000
    /\ tier (subscription user1) = FAN
    /\ features user1 = config_features (TierPolicy FAN)
    /\ features user1 = ["chat"; "agent"; "codeCompletion"]
    /\ promptsPerMonth (usageQuota user1) = config_promptsPerMonth (TierPolicy FAN)
    /\ promptsPerMonth (usageQuota user1) = 75.
Proof.
  apply (expired_forces_basic 5000 expired_data unlimited_state "u2" unlimited_user).
  reflexivity.
Defined.

Lemma promptsRemaining_by_route_witness :
  (exists view,
     get_quota (Subscription.get 500 "u2" unlimited_state) = Some view
     /\ qv_promptsRemaining view = -1 - 7
     /\ (0 < 7 -> qv_promptsRemaining view < -1))
  /\ (exists view,
        (track 500 "e" (mkTrackRequest "u2" "chat" "chat" no_metadata) unlimited_state).2
        = TrackOk "e" view
        /\ qv_promptsPerMonth view = -1
        /\ qv_promptsUsed view = 7 + 1
        /\ qv_promptsRemaining view = -1)
  /\ (exists view,
        track_quota
          (track 500 "e" (mkTrackRequest "u1" "chat" "chat" no_metadata) spent_state).2
        = Some view
        /\ qv_promptsPerMonth view = 2
        /\ qv_promptsUsed view = 2
        /\ qv_promptsRemaining view = 0).
Proof.
  destruct (promptsRemaining_by_route 500 unlimited_state) as (_ & _ & _ & H & _).
  destruct (H "u2" unlimited_user 7) as (Hget & _ & _ & Htrack).
  - discriminate.
  - reflexivity.
  - reflexivity.
  - reflexivity.
  - split; [exact Hget |]. split.
    + apply (Htrack "e" (mkTrackRequest "u2" "chat" "chat" no_metadata)).
      * reflexivity.
      * reflexivity.
      * simpl. by left.
    + destruct (promptsRemaining_by_route 500 spent_state) as (_ & _ & _ & _ & H5).
      destruct (H5 "e" (mkTrackRequest "u1" "chat" "chat" no_metadata) spent_user)
        as (view & Hview & Hppm & _ & _ & H429 & _).
      * reflexivity.
      * reflexivity.
      * simpl. by left.
      * exists view. split; [exact Hview |]. split; [exact Hppm |].
        destruct H429 as (_ & _ & Hused & Hrem); [reflexivity |].
        split; [exact Hused | exact Hrem].
Defined.

Lemma webhook_signed_body_already_parsed_witness :
  Webhooks.godaddy_subscription sample_hmac sample_parse (mkEnv (Some "whsec")) 5000
    (mkWebhookRequest (Some (sample_hmac "whsec" "{expired sub_2}"))
       (ParsedBody "[object Object]"))
    unlimited_state
  = (unlimited_state, WebhookProcessingFailed)
  /\ Webhooks.godaddy_subscription sample_hmac sample_parse (mkEnv (Some "whsec")) 5000
       (mkWebhookRequest (Some "forged") (ParsedBody "[object Object]"))
       unlimited_state
     = (unlimited_state, WebhookProcessingFailed).
Proof.
  split.
  - destruct (webhook_signed_body_already_parsed sample_hmac sample_parse "whsec"
                (sample_hmac "whsec" "{expired sub_2}") "[object Object]" 5000
                unlimited_state) as (_ & H & _).
    + discriminate.
    + discriminate.
    + exact H.
  - destruct (webhook_signed_body_already_parsed sample_hmac sample_parse "whsec"
                "forged" "[object Object]" 5000 unlimited_state) as (_ & H & _).
    + discriminate.
    + discriminate.
    + exact H.
Defined.


(** ** Further properties of the usage routes *)

(** A run of counted calls on an unlimited quota: none is refused, and the
    counter still advances by one per call. *)
Theorem track_unlimited_never_refused (userId : string) (calls : list TrackCall)
    (st : State) (u : IUser) :
  userId <> "" ->
  users st !! userId = Some u ->
  promptsPerMonth (usageQuota u) = -1 ->
  Forall (counted_call userId (features u)) calls ->
  Forall (fun r => track_status r = 200) (track_all calls st).2
  /\ exists u1,
       users (track_all calls st).1 !! userId = Some u1
       /\ promptsPerMonth (usageQuota u1) = -1
       /\ promptsUsed (usageQuota u1) = promptsUsed (usageQuota u) + Z.of_nat (length calls).
Proof.
  intros Hid. revert st u.
  induction calls as [| c rest IH]; intros st u Hu Hunl Hcalls.
  - split; [constructor |]. exists u. simpl. repeat split; try done. lia.
  - apply Forall_cons in Hcalls as [Hc Hrest].
    rewrite track_all_cons. simpl.
    destruct c as [now eventId req]. unfold track_call. simpl.
    assert (tr_userId req = userId) as Hreq by apply Hc. subst userId.
    destruct (track_counted_ok now eventId req st u Hc Hid Hu) as [Hst Hr]; [by left |].
    destruct (IH (track now eventId req st).1 (consume now u))
      as [Hok (u1 & Hu1 & Hunl1 & Hused)].
    + rewrite Hst. apply lookup_insert_eq.
    + done.
    + done.
    + split; [by constructor |].
      exists u1. repeat split; try done. rewrite Hused. simpl length.
      rewrite Nat2Z.inj_succ. simpl. lia.
Qed.

(** What a tracking call leaves behind.  An answer 400, 404, 403 or 429
    leaves the whole state as it was.  An answer 200 appends exactly one
    usage event, for an existing user entitled to the feature, stamped with
    the request's user, type, feature, the event id drawn and the time; its
    [source] and [extensionVersion] are the user's, not the client's, its
    [success] is the client's or, when the client sent none, [true], and
    the rest of its metadata is the client's; the user record is written
    exactly when the type is a counted one, with the counter advanced by
    one and [lastActiveDate] set to the time of the request. *)
Theorem track_effect (now : Date) (eventId : string) (req : TrackRequest) (st : State) :
  (track_status (track now eventId req st).2 = 400
   \/ track_status (track now eventId req st).2 = 404
   \/ track_status (track now eventId req st).2 = 403
   \/ track_status (track now eventId req st).2 = 429 ->
   (track now eventId req st).1 = st)
  /\ (track_status (track now eventId req st).2 = 200 ->
      exists user ev,
        users st !! tr_userId req = Some user
        /\ In (tr_feature req) (features user)
        /\ usageEvents (track now eventId req st).1 = (usageEvents st ++ [ev])%list
        /\ ue_userId ev = tr_userId req
        /\ ue_eventId ev = eventId
        /\ ue_type ev = tr_type req
        /\ ue_feature ev = tr_feature req
        /\ ue_timestamp ev = now
        /\ em_source (ue_metadata ev) = source (metadata user)
        /\ em_extensionVersion (ue_metadata ev) = extensionVersion (metadata user)
        /\ (track now eventId req st).2
           = TrackOk eventId
               (mkQuotaView (promptsPerMonth (usageQuota user))
                  (if isPromptBased (tr_type req)
                   then promptsUsed (usageQuota user) + 1
                   else promptsUsed (usageQuota user))
                  (if promptsPerMonth (usageQuota user) =? -1 then -1
                   else Z.max 0
                          (promptsPerMonth (usageQuota user)
                           - (if isPromptBased (tr_type req)
                              then promptsUsed (usageQuota user) + 1
                              else promptsUsed (usageQuota user))))
                  (resetDate (usageQuota user)))
        /\ em_success (ue_metadata ev)
           = Some (default true (em_success (tr_metadata req)))
        /\ em_model (ue_metadata ev) = em_model (tr_metadata req)
        /\ em_tokensUsed (ue_metadata ev) = em_tokensUsed (tr_metadata req)
        /\ em_responseTime (ue_metadata ev) = em_responseTime (tr_metadata req)
        /\ em_errorMessage (ue_metadata ev) = em_errorMessage (tr_metadata req)
        /\ users (track now eventId req st).1
           = (if isPromptBased (tr_type req)
              then <[tr_userId req := consume now user]> (users st)
              else users st)).
Proof.
  unfold track.
  destruct (negb (track_valid req)); [by split; [| intros [=]] |].
  destruct (users st !! tr_userId req) as [u |]; [| by split; [| intros [=]]].
  destruct (negb (includes (features u) (tr_feature req))) eqn:Hinc;
    [by split; [| intros [=]] |].
  apply negb_false_iff, includes_In in Hinc.
  destruct (isPromptBased (tr_type req)
            && (negb ((promptsPerMonth (usageQuota u) =? -1)
                      || (promptsUsed (usageQuota u) <? promptsPerMonth (usageQuota u)))
                && negb (promptsPerMonth (usageQuota u) =? -1)));
    [by split; [| intros [=]] |].
  split; [by intros [[=] | [[=] | [[=] | [=]]]] |]. intros _.
  exists u. eexists. split; [done |]. split; [done |].
  destruct (isPromptBased (tr_type req)); simpl; repeat split; done.
Qed.

(** The frame of a tracking call: it creates and removes no user, changes
    no one but the user of the request, and of that user leaves the email,
    the subscription, the features, and the quota's [promptsPerMonth],
    [resetDate] and [lastResetDate] alone. *)
Theorem track_frame (now : Date) (eventId : string) (req : TrackRequest) (st : State)
    (userId : string) :
  match users st !! userId with
  | None => users (track now eventId req st).1 !! userId = None
  | Some u =>
      exists u1,
        users (track now eventId req st).1 !! userId = Some u1
        /\ (userId <> tr_userId req -> u1 = u)
        /\ email u1 = email u
        /\ subscription u1 = subscription u
        /\ features u1 = features u
        /\ promptsPerMonth (usageQuota u1) = promptsPerMonth (usageQuota u)
        /\ resetDate (usageQuota u1) = resetDate (usageQuota u)
        /\ lastResetDate (usageQuota u1) = lastResetDate (usageQuota u)
  end.
Proof.
  destruct (track_users_cases now eventId req st)
    as [-> | (u0 & Hu0 & _ & _ & ->)].
  - destruct (users st !! userId) as [u |]; [| done]. by exists u.
  - destruct (decide (tr_userId req = userId)) as [<- | Hne].
    + rewrite Hu0, lookup_insert_eq. exists (consume now u0). by repeat split.
    + rewrite lookup_insert_ne by done.
      destruct (users st !! userId) as [u |]; [| done]. by exists u.
Qed.

(** Tracking never reads the subscription: replace a user's subscription
    (tier, status, dates, billing ids) by any other and the same request
    gets the same answer. *)
Lemma track_subscription_blind (now : Date) (eventId : string) (req : TrackRequest)
    (st : State) (userId : string) (u : IUser) (s : ISubscription) :
  users st !! userId = Some u ->
  (track now eventId req (save_user userId (with_subscription (fun _ => s) u) st)).2
  = (track now eventId req st).2.
Proof.
  intros Hu. unfold track.
  destruct (negb (track_valid req)); [done |]. simpl.
  destruct (decide (userId = tr_userId req)) as [-> | Hne].
  - rewrite lookup_insert_eq, Hu. simpl.
    destruct (negb (includes (features u) (tr_feature req))); [done |].
    destruct (isPromptBased (tr_type req)); simpl; [| done].
    by repeat case_match.
  - rewrite lookup_insert_ne by done.
    destruct (users st !! tr_userId req) as [u0 |]; [| done].
    destruct (negb (includes (features u0) (tr_feature req))); [done |].
    by repeat case_match.
Qed.

(** The administrative reset.  For an unknown user it answers 404 and
    changes nothing.  For a known one it zeroes the counter and opens a
    window of 30 days, keeping [promptsPerMonth] and [lastResetDate], the
    email, the subscription, the features, and the version, installation
    and source of the metadata; of a record that holds [lastActiveDate] it
    touches nothing else.  The answer reports the whole allowance, and the
    whole allowance is available again: any run of counted calls no longer
    than [promptsPerMonth] is then answered 200 throughout. *)
Theorem reset_restores_allowance (now : Date) (userId : string) (st : State) :
  userId <> "" ->
  match users st !! userId with
  | None => reset now userId st = (st, ResetUserNotFound)
  | Some u =>
      exists u1,
        users (reset now userId st).1 !! userId = Some u1
        /\ usageQuota u1
           = mkUsageQuota (promptsPerMonth (usageQuota u)) 0 (now + THIRTY_DAYS)
               (lastResetDate (usageQuota u))
        /\ email u1 = email u
        /\ subscription u1 = subscription u
        /\ features u1 = features u
        /\ extensionVersion (metadata u1) = extensionVersion (metadata u)
        /\ installationId (metadata u1) = installationId (metadata u)
        /\ source (metadata u1) = source (metadata u)
        /\ (has_lastActiveDate u ->
            u1 = with_usageQuota
                   (fun q => mkUsageQuota (promptsPerMonth q) 0 (now + THIRTY_DAYS)
                               (lastResetDate q)) u)
        /\ (reset now userId st).2
           = ResetOk
               (mkQuotaView (promptsPerMonth (usageQuota u)) 0
                  (if promptsPerMonth (usageQuota u) =? -1 then -1
                   else promptsPerMonth (usageQuota u) - 0)
                  (now + THIRTY_DAYS))
        /\ (forall other, other <> userId ->
              users (reset now userId st).1 !! other = users st !! other)
        /\ usageEvents (reset now userId st).1 = usageEvents st
        /\ (forall calls : list TrackCall,
              Forall (counted_call userId (features u)) calls ->
              Z.of_nat (length calls) <= promptsPerMonth (usageQuota u) ->
              Forall (fun r => track_status r = 200)
                (track_all calls (reset now userId st).1).2)
  end.
Proof.
  intros Hid. unfold reset. rewrite (eqb_empty_false _ Hid).
  destruct (users st !! userId) as [u |] eqn:Hu; [| done].
  simpl. rewrite lookup_insert_eq. eexists. split; [done |].
  do 9 (split; [done |]).
  split; [| split; [done |]].
  - intros other Hne. by rewrite lookup_insert_ne.
  - intros calls Hcalls Hlen.
    eapply track_all_within; [done | apply lookup_insert_eq | done |]. simpl. lia.
Qed.

(** ** Further properties of the subscription routes *)

(** The reconciliation with the billing provider rewrites the status and
    nothing else. *)
Lemma verify_reconcile_only_status (api : string -> option string) (u : IUser) :
  Subscription.verify_reconcile api u
  = with_subscription
      (set_status (status (subscription (Subscription.verify_reconcile api u)))) u.
Proof.
  unfold Subscription.verify_reconcile.
  destruct u as [e [] q f m]. simpl. by repeat case_match.
Qed.

(** The status the reconciliation leaves, from the provider's answer. *)
Lemma verify_reconcile_status (api : string -> option string) (u : IUser) :
  status (subscription (Subscription.verify_reconcile api u))
  = match goDaddySubscriptionId (subscription u) with
    | Some sid =>
        if String.eqb sid "" then status (subscription u)
        else match api sid with
             | Some s =>
                 if String.eqb s "ACTIVE" then ACTIVE
                 else if decide (status (subscription u) = ACTIVE) then INACTIVE
                      else status (subscription u)
             | None => status (subscription u)
             end
    | None => status (subscription u)
    end.
Proof.
  unfold Subscription.verify_reconcile, verifySubscription, truthy.
  destruct (goDaddySubscriptionId (subscription u)) as [sid |]; [| done].
  destruct (String.eqb sid ""); [done |]. simpl.
  destruct (api sid) as [s |]; [| done]. simpl.
  destruct (String.eqb s "ACTIVE"); simpl.
  - destruct (decide (status (subscription u) = ACTIVE)) as [Heq | Hne].
    + by rewrite bool_decide_eq_true_2.
    + by rewrite bool_decide_eq_false_2.
  - destruct (decide (status (subscription u) = ACTIVE)) as [Heq | Hne].
    + by rewrite bool_decide_eq_true_2.
    + by rewrite bool_decide_eq_false_2.
Qed.

(** The user a verification call stores for an existing user, and its
    answer: validity is the schema's [isSubscriptionActive || isTrialActive]
    on the stored record. *)
Lemma verify_existing_response (now : Date) (api : string -> option string)
    (req : Subscription.VerifyRequest) (st : State) (u : IUser) :
  Subscription.vr_userId req <> "" ->
  users st !! Subscription.vr_userId req = Some u ->
  exists u2,
    Subscription.verify now api req st
    = (save_user (Subscription.vr_userId req) u2 st,
       Subscription.VerifyOk
         (UserSchema_methods.isSubscriptionActive now u2
          || UserSchema_methods.isTrialActive now u2)
         (Subscription.summary (Subscription.vr_userId req) u2)
         (UserSchema_methods.isTrialActive now u2)
         (trialEndDate (subscription u2)))
    /\ subscription u2
       = set_status (status (subscription (Subscription.verify_reconcile api u)))
           (subscription u)
    /\ email u2 = email u
    /\ features u2 = features u
    /\ usageQuota u2 = Subscription.rollover now (usageQuota u).
Proof.
  intros Hid Hu. unfold Subscription.verify. rewrite (eqb_empty_false _ Hid).
  eexists. split; [reflexivity |].
  unfold Subscription.verify_ensure. rewrite Hu.
  rewrite (verify_reconcile_only_status api). simpl.
  rewrite !verify_reconcile_status. simpl. done.
Qed.

(** Across a run of tracking calls a user keeps the reset date, the
    features and the subscription. *)
Lemma track_all_keeps (calls : list TrackCall) :
  forall (st : State) (userId : string) (u : IUser),
    users st !! userId = Some u ->
    exists u1,
      users (track_all calls st).1 !! userId = Some u1
      /\ resetDate (usageQuota u1) = resetDate (usageQuota u)
      /\ features u1 = features u
      /\ subscription u1 = subscription u.
Proof.
  induction calls as [| c rest IH]; intros st userId u Hu.
  - by exists u.
  - rewrite track_all_cons. simpl.
    assert (exists u0, users (track_call c st).1 !! userId = Some u0
                       /\ resetDate (usageQuota u0) = resetDate (usageQuota u)
                       /\ features u0 = features u
                       /\ subscription u0 = subscription u) as (u0 & Hu0 & Hrd & Hfs & Hsub).
    { destruct c as [now eventId req]. unfold track_call. simpl.
      destruct (track_users_cases now eventId req st)
        as [-> | (v & Hv & _ & _ & ->)]; [by exists u |].
      destruct (decide (tr_userId req = userId)) as [<- | Hne].
      - rewrite lookup_insert_eq. assert (v = u) as -> by congruence.
        by exists (consume now u).
      - rewrite lookup_insert_ne by done. by exists u. }
    destruct (IH _ _ _ Hu0) as (u1 & Hu1 & Hrd1 & Hfs1 & Hsub1).
    exists u1. repeat split; congruence.
Qed.

(** First contact.  A verification call for an unknown user creates the
    basic record (tier fan, status active, 75 prompts, none used, window of
    30 days, the three basic features) and answers [valid = true] with 75
    prompts remaining.  From there 75 counted tracking calls for basic
    features are answered 200 and the 76th is answered 429 with
    [promptsRemaining = 0]. *)
Theorem verify_creates_basic_user (now : Date) (api : string -> option string)
    (req : Subscription.VerifyRequest) (st : State) :
  Subscription.vr_userId req <> "" ->
  users st !! Subscription.vr_userId req = None ->
  let userId := Subscription.vr_userId req in
  let st1 := (Subscription.verify now api req st).1 in
  let basic := ["chat"; "agent"; "codeCompletion"] in
  users st1 !! userId
  = Some (mkUser None
            (mkSubscription FAN ACTIVE now None None None None None None false)
            (mkUsageQuota 75 0 (now + THIRTY_DAYS) None) basic
            (mkUserMetadata (Subscription.vr_extensionVersion req) (Some now) None
               (Subscription.vr_source req)))
  /\ (Subscription.verify now api req st).2
     = Subscription.VerifyOk true
         (mkUserSummary userId FAN ACTIVE basic
            (mkQuotaView 75 0 75 (now + THIRTY_DAYS)))
         false None
  /\ (forall (calls : list TrackCall) (extra : TrackCall),
        length calls = 75%nat ->
        Forall (counted_call userId basic) calls ->
        counted_call userId basic extra ->
        Forall (fun r => track_status r = 200) (track_all calls st1).2
        /\ (track_call extra (track_all calls st1).1).2
           = TrackLimitExceeded (mkQuotaView 75 75 0 (now + THIRTY_DAYS))).
Proof.
  intros Hid Hnew. cbv zeta.
  set (st1 := (Subscription.verify now api req st).1).
  assert (users st1 !! Subscription.vr_userId req
          = Some (new_user now None
                    (mkUserMetadata (Subscription.vr_extensionVersion req) (Some now) None
                       (Subscription.vr_source req)))) as Hst1.
  { subst st1. unfold Subscription.verify, Subscription.verify_ensure.
    rewrite (eqb_empty_false _ Hid), Hnew. simpl. by rewrite lookup_insert_eq. }
  split; [exact Hst1 |]. split.
  { unfold Subscription.verify, Subscription.verify_ensure.
    by rewrite (eqb_empty_false _ Hid), Hnew. }
  intros calls extra Hlen Hcalls Hextra.
  destruct (track_all_within _ calls st1 _ Hid Hst1 Hcalls)
    as [Hok (u1 & Hu1 & Hused & Hppm & Hfs)].
  { simpl. lia. }
  split; [done |].
  destruct (track_all_keeps calls st1 _ _ Hst1) as (u1' & Hu1' & Hrd & _).
  assert (u1' = u1) as -> by congruence.
  destruct extra as [t eventId r]. unfold track_call. simpl.
  assert (tr_userId r = Subscription.vr_userId req) as Hr by apply Hextra.
  rewrite <- Hr in Hu1, Hid, Hextra.
  rewrite (track_counted_exceeded t eventId r _ u1); try done.
  - simpl in *. rewrite Hppm, Hused, Hrd, Hlen. done.
  - by rewrite Hfs.
  - by rewrite Hppm.
  - rewrite Hppm, Hused. simpl. lia.
Qed.

Lemma set_status_same (s : ISubscription) : set_status (status s) s = s.
Proof. by destruct s. Qed.

(** Reconciling twice against the same answers is reconciling once. *)
Lemma verify_reconcile_status_idem (api : string -> option string) (u : IUser) :
  status (subscription
            (Subscription.verify_reconcile api (Subscription.verify_reconcile api u)))
  = status (subscription (Subscription.verify_reconcile api u)).
Proof.
  set (v := Subscription.verify_reconcile api u).
  assert (goDaddySubscriptionId (subscription v) = goDaddySubscriptionId (subscription u))
    as Hsid by (subst v; by rewrite verify_reconcile_only_status).
  pose proof (verify_reconcile_status api u) as Hs. fold v in Hs.
  rewrite (verify_reconcile_status api v), Hsid.
  destruct (goDaddySubscriptionId (subscription u)) as [sid |]; [| done].
  destruct (String.eqb sid ""); [done |].
  destruct (api sid) as [s |]; [| done].
  destruct (String.eqb s "ACTIVE"); [done |].
  destruct (decide (status (subscription u) = ACTIVE)).
  - rewrite Hs. by rewrite decide_False.
  - rewrite decide_False; [done | congruence].
Qed.

(** How a verification call settles the status of an existing user.  With
    no billing subscription id (absent or empty), or when the provider
    cannot be reached, the status stays.  When the provider answers
    exactly "ACTIVE" the status becomes active; on any other answer an
    active user becomes inactive and any other status stays.  The rest of
    the subscription (tier, dates, ids, trial) is never touched. *)
Theorem verify_reconciles_status (now : Date) (api : string -> option string)
    (req : Subscription.VerifyRequest) (st : State) (u : IUser) :
  Subscription.vr_userId req <> "" ->
  users st !! Subscription.vr_userId req = Some u ->
  exists u1,
    users (Subscription.verify now api req st).1 !! Subscription.vr_userId req = Some u1
    /\ subscription u1 = set_status (status (subscription u1)) (subscription u)
    /\ status (subscription u1)
       = match goDaddySubscriptionId (subscription u) with
         | Some sid =>
             if String.eqb sid "" then status (subscription u)
             else match api sid with
                  | Some s =>
                      if String.eqb s "ACTIVE" then ACTIVE
                      else if decide (status (subscription u) = ACTIVE) then INACTIVE
                           else status (subscription u)
                  | None => status (subscription u)
                  end
         | None => status (subscription u)
         end.
Proof.
  intros Hid Hu.
  destruct (verify_existing_response now api req st u Hid Hu)
    as (u2 & Hv & Hsub & _).
  exists u2. rewrite Hv. simpl. rewrite lookup_insert_eq. split; [done |].
  rewrite Hsub. simpl. split; [done |]. apply verify_reconcile_status.
Qed.

(** Verifying again re-initialises nothing.  After one verification call
    (which may have created the user), a later one for the same user
    against the same provider answers leaves the subscription, the
    features and the email as the first left them, and the quota too as
    long as the window has not closed. *)
Theorem verify_twice (now now' : Date) (api : string -> option string)
    (req req' : Subscription.VerifyRequest) (st : State) :
  Subscription.vr_userId req <> "" ->
  Subscription.vr_userId req' = Subscription.vr_userId req ->
  exists u1 u2,
    users (Subscription.verify now api req st).1 !! Subscription.vr_userId req = Some u1
    /\ users (Subscription.verify now' api req'
               (Subscription.verify now api req st).1).1
         !! Subscription.vr_userId req = Some u2
    /\ subscription u2 = subscription u1
    /\ features u2 = features u1
    /\ email u2 = email u1
    /\ (now' <= resetDate (usageQuota u1) -> usageQuota u2 = usageQuota u1).
Proof.
  intros Hid Hsame.
  assert (exists x, users (Subscription.verify now api req st).1
                      !! Subscription.vr_userId req
                    = Some (Subscription.verify_reconcile api x)) as (x & Hu1).
  { unfold Subscription.verify. rewrite (eqb_empty_false _ Hid). simpl.
    rewrite lookup_insert_eq. by eexists. }
  exists (Subscription.verify_reconcile api x).
  rewrite <- Hsame in Hu1, Hid.
  destruct (verify_existing_response now' api req' _ _ Hid Hu1)
    as (u2 & Hv & Hsub & Hem & Hfs & Hq).
  exists u2. rewrite <- Hsame. split; [done |].
  rewrite Hv. simpl. rewrite lookup_insert_eq. split; [done |].
  split; [| split; [done | split; [done |]]].
  - rewrite Hsub, verify_reconcile_status_idem. apply set_status_same.
  - intros Hnot. rewrite Hq. by apply rollover_not_due.
Qed.

(** An ended subscription stays ended for the verifier.  Once a
    [subscription.cancelled] or [subscription.expired] webhook has been
    processed for a user, every later verification call reports as [valid]
    only what a running trial grants, whatever the billing provider then
    answers: without a trial the user is not valid. *)
Theorem ended_subscription_not_valid (ty : string) (t t' : Date) (d : WebhookData)
    (st : State) (userId : string) (u : IUser) (api : string -> option string)
    (ext src : option string) :
  In ty ["subscription.cancelled"; "subscription.expired"] ->
  Webhooks.findOneBySubscription (users st) (wd_subscriptionId d) = Some (userId, u) ->
  userId <> "" ->
  t <= t' ->
  exists summary,
    (Subscription.verify t' api (Subscription.mkVerifyRequest userId ext src)
       (Webhooks.processEvent t (mkWebhookEvent ty (Some d)) st)).2
    = Subscription.VerifyOk (UserSchema_methods.isTrialActive t' u) summary
        (UserSchema_methods.isTrialActive t' u) (trialEndDate (subscription u))
    /\ (isTrialActive (subscription u) = false ->
        UserSchema_methods.isTrialActive t' u = false).
Proof.
  intros Hty Hfind Hid Hle.
  assert (exists u1,
            users (Webhooks.processEvent t (mkWebhookEvent ty (Some d)) st) !! userId
            = Some u1
            /\ endDate (subscription u1) = Some t
            /\ isTrialActive (subscription u1) = isTrialActive (subscription u)
            /\ trialEndDate (subscription u1) = trialEndDate (subscription u))
    as (u1 & Hu1 & Hend & Hflag & Htrial).
  { simpl in Hty. destruct Hty as [<- | [<- | []]].
    - unfold Webhooks.processEvent, Webhooks.handleSubscriptionCancelled. simpl.
      rewrite Hfind. simpl. rewrite lookup_insert_eq. by eexists.
    - unfold Webhooks.processEvent, Webhooks.handleSubscriptionExpired. simpl.
      rewrite Hfind. simpl. rewrite lookup_insert_eq. by eexists. }
  destruct (verify_existing_response t' api (Subscription.mkVerifyRequest userId ext src)
              _ u1 Hid Hu1) as (u2 & Hv & Hsub & _).
  rewrite Hv. simpl. eexists. split.
  - unfold UserSchema_methods.isSubscriptionActive, UserSchema_methods.isTrialActive.
    rewrite Hsub. simpl. rewrite Hend, Hflag, Htrial.
    assert ((t' <? t) = false) as -> by (apply Z.ltb_ge; lia).
    by rewrite andb_false_r.
  - unfold UserSchema_methods.isTrialActive. by intros ->.
Qed.

(** What [PUT /update/:userId] touches.  Any answer other than 200 leaves
    the state as it was.  A successful update leaves the other users, the
    usage events, and of the user the email, the dates and trial of the
    subscription, the quota's [promptsUsed], [resetDate] and
    [lastResetDate], and the version, installation and source of the
    metadata, and the whole metadata of a record that holds
    [lastActiveDate]; a billing id is replaced only by a non-empty one of
    the request, so the route cannot clear it. *)
Theorem update_effect (req : Subscription.UpdateRequest) (st : State) :
  (Subscription.update_status (Subscription.update req st).2 <> 200 ->
   (Subscription.update req st).1 = st)
  /\ (Subscription.update_status (Subscription.update req st).2 = 200 ->
      exists u u1,
        users st !! Subscription.ur_userId req = Some u
        /\ users (Subscription.update req st).1 = <[Subscription.ur_userId req := u1]> (users st)
        /\ usageEvents (Subscription.update req st).1 = usageEvents st
        /\ email u1 = email u
        /\ extensionVersion (metadata u1) = extensionVersion (metadata u)
        /\ installationId (metadata u1) = installationId (metadata u)
        /\ source (metadata u1) = source (metadata u)
        /\ (has_lastActiveDate u -> metadata u1 = metadata u)
        /\ usageQuota u1
           = set_promptsPerMonth (promptsPerMonth (usageQuota u1)) (usageQuota u)
        /\ goDaddySubscriptionId (subscription u1)
           = (if truthy (Subscription.ur_goDaddySubscriptionId req)
              then Subscription.ur_goDaddySubscriptionId req
              else goDaddySubscriptionId (subscription u))
        /\ goDaddyCustomerId (subscription u1)
           = (if truthy (Subscription.ur_goDaddyCustomerId req)
              then Subscription.ur_goDaddyCustomerId req
              else goDaddyCustomerId (subscription u))
        /\ startDate (subscription u1) = startDate (subscription u)
        /\ endDate (subscription u1) = endDate (subscription u)
        /\ renewalDate (subscription u1) = renewalDate (subscription u)
        /\ trialEndDate (subscription u1) = trialEndDate (subscription u)
        /\ isTrialActive (subscription u1) = isTrialActive (subscription u)).
Proof.
  unfold Subscription.update.
  destruct (String.eqb (Subscription.ur_userId req) ""); [done |].
  destruct (SubscriptionTier_of_string (Subscription.ur_tier req)) as [T |]; [| done].
  destruct (SubscriptionStatus_of_string (Subscription.ur_status req)) as [S |]; [| done].
  destruct (users st !! Subscription.ur_userId req) as [u |]; [| done].
  split; [done |]. intros _. exists u. eexists. split; [done |]. split; [done |].
  simpl.
  destruct (truthy (Subscription.ur_goDaddySubscriptionId req)),
    (truthy (Subscription.ur_goDaddyCustomerId req)); done.
Qed.

(** Reads follow writes: the user object [GET /:userId] returns right
    after an update is the one the update answered with, and after a
    verification it is the one the verification answered with, trial flag
    and trial end included. *)
Theorem get_reads_back (now : Date) (st : State) :
  (forall (req : Subscription.UpdateRequest) (s : UserSummary),
     (Subscription.update req st).2 = Subscription.UpdateOk s ->
     exists ta te rd,
       Subscription.get now (Subscription.ur_userId req) (Subscription.update req st).1
       = Subscription.GetOk s ta te rd)
  /\ (forall (api : string -> option string) (req : Subscription.VerifyRequest)
            (valid : bool) (s : UserSummary) (ta : bool) (te : option Date),
        (Subscription.verify now api req st).2 = Subscription.VerifyOk valid s ta te ->
        exists rd,
          Subscription.get now (Subscription.vr_userId req)
            (Subscription.verify now api req st).1
          = Subscription.GetOk s ta te rd).
Proof.
  split.
  - intros req s. unfold Subscription.update, Subscription.get.
    destruct (String.eqb (Subscription.ur_userId req) ""); [done |].
    destruct (SubscriptionTier_of_string (Subscription.ur_tier req)) as [T |]; [| done].
    destruct (SubscriptionStatus_of_string (Subscription.ur_status req)) as [S |]; [| done].
    destruct (users st !! Subscription.ur_userId req) as [u |]; [| done].
    simpl. rewrite lookup_insert_eq. intros [= <-]. by do 3 eexists.
  - intros api req valid s ta te. unfold Subscription.verify, Subscription.get.
    destruct (String.eqb (Subscription.vr_userId req) ""); [done |].
    simpl. rewrite lookup_insert_eq. intros [= _ <- <- <-]. by eexists.
Qed.

(** The enum lookup of [/verify-payment] finds the tier it was asked for. *)
Lemma SubscriptionTier_of_key_value (T : SubscriptionTier) :
  SubscriptionTier_of_key (toUpperCase (SubscriptionTier_value T)) = Some T.
Proof. by destruct T. Qed.

Lemma isIn_tier_values (s : string) :
  isIn s ["fan"; "developer"; "enterprise"] = true ->
  exists T, s = SubscriptionTier_value T.
Proof.
  unfold isIn. simpl. intros H.
  repeat (apply orb_true_iff in H as [H | H];
          [apply String.eqb_eq in H; subst | ]).
  - by exists FAN.
  - by exists DEVELOPER.
  - by exists ENTERPRISE.
  - done.
Qed.

(** [POST /verify-payment] answers 200 or 400, never 500: the validators
    admit exactly the three tier strings, each of which names a member of
    the enum once upper-cased.  A 400 leaves the state as it was, and is
    what a tier in another case ("Fan"), an empty user id or a refused
    email gets. *)
Theorem verify_payment_answers (now : Date) (isEmail : string -> bool)
    (req : Subscription.VerifyPaymentRequest) (st : State) :
  Subscription.verify_payment_status (Subscription.verify_payment now isEmail req st).2
  <> 500
  /\ (Subscription.verify_payment_status (Subscription.verify_payment now isEmail req st).2
      = 400 ->
      (Subscription.verify_payment now isEmail req st).1 = st)
  /\ (Subscription.verify_payment_status (Subscription.verify_payment now isEmail req st).2
      = 200 <->
      Subscription.vp_userId req <> ""
      /\ (exists T, Subscription.vp_tier req = SubscriptionTier_value T)
      /\ (forall e, Subscription.vp_email req = Some e -> isEmail e = true)).
Proof.
  unfold Subscription.verify_payment, Subscription.verify_payment_valid.
  destruct (isIn (Subscription.vp_tier req) ["fan"; "developer"; "enterprise"]) eqn:Htier.
  - destruct (isIn_tier_values _ Htier) as [T HT].
    rewrite HT, SubscriptionTier_of_key_value.
    destruct (String.eqb_spec (Subscription.vp_userId req) "") as [Hid | Hid].
    { simpl. split; [done |]. split; [done |]. split; [done | tauto]. }
    destruct (Subscription.vp_email req) as [e |] eqn:He.
    + destruct (isEmail e) eqn:Hmail; simpl.
      * split; [done |]. split; [done |]. split; [intros _ | done].
        repeat split; eauto. by intros e' [= <-].
      * split; [done |]. split; [done |]. split; [done |].
        intros (_ & _ & H). specialize (H e eq_refl). congruence.
    + simpl. split; [done |]. split; [done |]. split; [intros _ | done].
      repeat split; eauto. done.
  - rewrite andb_false_r. simpl. split; [done |]. split; [done |]. split; [done |].
    intros (_ & [T HT] & _). rewrite HT in Htier. by destruct T.
Qed.

(** What a verified payment grants.  For a well-formed request naming tier
    T, the user is stored with tier T and T's features and quota, status
    active, and a paid period of 30 days from now (start, end and renewal
    dates).  A user the route had to create starts with no prompt used, a
    trial of 7 days, and the email of the request or else a placeholder; an
    existing one keeps the email, the prompts used, the reset date and the
    trial. *)
Theorem verify_payment_grants (now : Date) (isEmail : string -> bool)
    (req : Subscription.VerifyPaymentRequest) (st : State) (T : SubscriptionTier) :
  Subscription.vp_userId req <> "" ->
  Subscription.vp_tier req = SubscriptionTier_value T ->
  (forall e, Subscription.vp_email req = Some e -> isEmail e = true) ->
  exists u1,
    users (Subscription.verify_payment now isEmail req st).1 !! Subscription.vp_userId req
    = Some u1
    /\ entitled_as T u1
    /\ status (subscription u1) = ACTIVE
    /\ startDate (subscription u1) = now
    /\ endDate (subscription u1) = Some (now + THIRTY_DAYS)
    /\ renewalDate (subscription u1) = Some (now + THIRTY_DAYS)
    /\ match users st !! Subscription.vp_userId req with
       | Some u =>
           email u1 = email u
           /\ promptsUsed (usageQuota u1) = promptsUsed (usageQuota u)
           /\ resetDate (usageQuota u1) = resetDate (usageQuota u)
           /\ isTrialActive (subscription u1) = isTrialActive (subscription u)
           /\ trialEndDate (subscription u1) = trialEndDate (subscription u)
           /\ goDaddySubscriptionId (subscription u1)
              = (if truthy (Subscription.vp_transactionId req)
                 then Subscription.vp_transactionId req
                 else goDaddySubscriptionId (subscription u))
       | None =>
           email u1
           = (if truthy (Subscription.vp_email req) then Subscription.vp_email req
              else Some ("user-" ++ Subscription.vp_userId req ++ "@scale.local"))
           /\ promptsUsed (usageQuota u1) = 0
           /\ resetDate (usageQuota u1) = now + THIRTY_DAYS
           /\ isTrialActive (subscription u1) = true
           /\ trialEndDate (subscription u1) = Some (now + SEVEN_DAYS)
           /\ goDaddySubscriptionId (subscription u1)
              = (if truthy (Subscription.vp_transactionId req)
                 then Subscription.vp_transactionId req else None)
       end.
Proof.
  intros Hid HT Hmail.
  destruct (getTierConfiguration_policy T) as [HS _].
  unfold Subscription.verify_payment, Subscription.verify_payment_valid.
  rewrite (eqb_empty_false _ Hid), HT, SubscriptionTier_of_key_value.
  assert (isIn (SubscriptionTier_value T) ["fan"; "developer"; "enterprise"] = true) as ->
    by by destruct T.
  assert (match Subscription.vp_email req with
          | Some e => isEmail e
          | None => true
          end = true) as ->.
  { destruct (Subscription.vp_email req) as [e |]; [by apply Hmail | done]. }
  simpl. rewrite lookup_insert_eq. eexists. split; [done |].
  unfold entitled_as. rewrite HS.
  destruct (users st !! Subscription.vp_userId req) as [u |];
    destruct (truthy (Subscription.vp_transactionId req)); simpl; done.
Qed.

(** How long a verified payment lasts for a user the route created.  A
    later verification call reports [valid = true] during the first 7 days
    whatever the billing provider answers (the trial), [valid = false] from
    30 days on whatever it answers (the paid period is over), and in
    between reports [valid = true] exactly when no transaction id was
    given, or the provider cannot be reached, or it answers "ACTIVE" for
    the transaction id. *)
Theorem paid_access_window (t t' : Date) (isEmail : string -> bool)
    (api : string -> option string) (req : Subscription.VerifyPaymentRequest)
    (st : State) (T : SubscriptionTier) (ext src : option string) :
  Subscription.vp_userId req <> "" ->
  Subscription.vp_tier req = SubscriptionTier_value T ->
  (forall e, Subscription.vp_email req = Some e -> isEmail e = true) ->
  users st !! Subscription.vp_userId req = None ->
  exists valid summary ta te,
    (Subscription.verify t' api
       (Subscription.mkVerifyRequest (Subscription.vp_userId req) ext src)
       (Subscription.verify_payment t isEmail req st).1).2
    = Subscription.VerifyOk valid summary ta te
    /\ (t' < t + SEVEN_DAYS -> valid = true)
    /\ (t + THIRTY_DAYS <= t' -> valid = false)
    /\ (t + SEVEN_DAYS <= t' -> t' < t + THIRTY_DAYS ->
        (valid = true <->
         match Subscription.vp_transactionId req with
         | Some tx => tx = "" \/ api tx = None \/ api tx = Some "ACTIVE"
         | None => True
         end)).
Proof.
  intros Hid HT Hmail Hnew.
  assert (exists u1,
            users (Subscription.verify_payment t isEmail req st).1
              !! Subscription.vp_userId req = Some u1
            /\ subscription u1
               = mkSubscription T ACTIVE t (Some (t + THIRTY_DAYS)) (Some (t + THIRTY_DAYS))
                   (if truthy (Subscription.vp_transactionId req)
                    then Subscription.vp_transactionId req else None)
                   None None (Some (t + SEVEN_DAYS)) true) as (u1 & Hu1 & Hsub1).
  { unfold Subscription.verify_payment, Subscription.verify_payment_valid.
    rewrite (eqb_empty_false _ Hid), HT, SubscriptionTier_of_key_value, Hnew.
    assert (isIn (SubscriptionTier_value T) ["fan"; "developer"; "enterprise"] = true) as ->
      by by destruct T.
    assert (match Subscription.vp_email req with
            | Some e => isEmail e
            | None => true
            end = true) as ->.
    { destruct (Subscription.vp_email req) as [e |]; [by apply Hmail | done]. }
    simpl. rewrite lookup_insert_eq. eexists. split; [done |].
    by destruct (truthy (Subscription.vp_transactionId req)). }
  destruct (verify_existing_response t' api
              (Subscription.mkVerifyRequest (Subscription.vp_userId req) ext src)
              _ u1 Hid Hu1) as (u2 & Hv & Hsub & _).
  rewrite Hv. simpl. do 4 eexists. split; [reflexivity |].
  unfold UserSchema_methods.isSubscriptionActive, UserSchema_methods.isTrialActive.
  rewrite Hsub, verify_reconcile_status, Hsub1. simpl.
  assert (SEVEN_DAYS < THIRTY_DAYS) as Hdays by reflexivity.
  split; [| split].
  - intros Hlt. apply orb_true_iff. right. apply Z.ltb_lt. lia.
  - intros Hge.
    assert ((t' <? t + THIRTY_DAYS) = false) as -> by (apply Z.ltb_ge; lia).
    assert ((t' <? t + SEVEN_DAYS) = false) as -> by (apply Z.ltb_ge; lia).
    by rewrite andb_false_r.
  - intros Hge Hlt.
    assert ((t' <? t + THIRTY_DAYS) = true) as -> by (apply Z.ltb_lt; lia).
    assert ((t' <? t + SEVEN_DAYS) = false) as -> by (apply Z.ltb_ge; lia).
    rewrite andb_true_r, orb_false_r, bool_decide_eq_true.
    destruct (Subscription.vp_transactionId req) as [tx |]; simpl; [| done].
    destruct (String.eqb_spec tx "") as [-> | Htx]; simpl.
    + split; [by left | done].
    + rewrite (eqb_empty_false _ Htx).
      destruct (api tx) as [s |]; [| split; [by right; left | done]].
      destruct (String.eqb_spec s "ACTIVE") as [-> | Hs].
      * split; [by right; right | done].
      * split; [done |]. intros [? | [? | [= ?]]]; done.
Qed.

(** ** Further properties of the webhook handlers *)

Lemma findOneBySubscription_None (db : gmap string IUser) (sid : option string) :
  (forall userId u, db !! userId = Some u -> goDaddySubscriptionId (subscription u) <> sid) ->
  Webhooks.findOneBySubscription db sid = None.
Proof.
  intros Hnone.
  destruct (Webhooks.findOneBySubscription db sid) as [[userId u] |] eqn:Hfind; [| done].
  apply findOneBySubscription_Some in Hfind as [Hu Hsid]. by destruct (Hnone _ _ Hu).
Qed.

(** When one user only holds a subscription id, the query finds that user. *)
Lemma findOneBySubscription_unique (db : gmap string IUser) (sid : option string)
    (userId : string) (u : IUser) :
  db !! userId = Some u ->
  goDaddySubscriptionId (subscription u) = sid ->
  (forall other v, db !! other = Some v -> other <> userId ->
     goDaddySubscriptionId (subscription v) <> sid) ->
  Webhooks.findOneBySubscription db sid = Some (userId, u).
Proof.
  intros Hu Hsid Honly.
  destruct (Webhooks.findOneBySubscription db sid) as [[k v] |] eqn:Hfind.
  - apply findOneBySubscription_Some in Hfind as [Hv Hk].
    destruct (decide (k = userId)) as [-> | Hne]; [congruence |].
    by destruct (Honly _ _ Hv Hne).
  - unfold Webhooks.findOneBySubscription in Hfind.
    pose proof (find_none _ _ Hfind (userId, u)) as Hno.
    simpl in Hno. rewrite bool_decide_eq_true_2 in Hno by done.
    assert (In (userId, u) (map_to_list db)) as Hin
      by by apply list_elem_of_In, elem_of_map_to_list.
    by specialize (Hno Hin).
Qed.

(** What processing one event does to the state: nothing, or one save, of a
    new user or of an existing one whose counters and metadata, read as
    they are stored, it keeps. *)
Lemma processEvent_cases (now : Date) (event : WebhookEvent) (st : State) :
  Webhooks.processEvent now event st = st
  \/ exists userId u1,
       Webhooks.processEvent now event st = save_user userId u1 st
       /\ forall u, users st !! userId = Some u ->
            promptsUsed (usageQuota u1) = promptsUsed (usageQuota u)
            /\ resetDate (usageQuota u1) = resetDate (usageQuota u)
            /\ lastResetDate (usageQuota u1) = lastResetDate (usageQuota u)
            /\ metadata u1 = metadata u
            /\ trialEndDate (subscription u1) = trialEndDate (subscription u).
Proof.
  unfold Webhooks.processEvent.
  destruct (we_data event) as [d |];
    [| left; repeat case_match; done].
  repeat case_match; try by left.
  - unfold Webhooks.handleSubscriptionCreated.
    destruct (wd_metadata_userId d) as [userId |]; [| by left].
    destruct (String.eqb userId ""); [by left |].
    right. do 2 eexists. split; [reflexivity |].
    intros u ->. by destruct (truthy (wd_customerEmail d)).
  - unfold Webhooks.handleSubscriptionUpdated.
    destruct (Webhooks.findOneBySubscription _ _) as [[userId u] |] eqn:Hfind; [| by left].
    apply findOneBySubscription_Some in Hfind as [Hu _].
    right. do 2 eexists. split; [reflexivity |].
    intros u' Hu'. assert (u' = u) as -> by congruence.
    destruct (truthy (wd_planId d)), (wd_status d) as [s |]; simpl;
      try destruct (String.eqb s ""); done.
  - unfold Webhooks.handleSubscriptionCancelled.
    destruct (Webhooks.findOneBySubscription _ _) as [[userId u] |] eqn:Hfind; [| by left].
    apply findOneBySubscription_Some in Hfind as [Hu _].
    right. do 2 eexists. split; [reflexivity |].
    intros u' Hu'. by assert (u' = u) as -> by congruence.
  - unfold Webhooks.handleSubscriptionExpired.
    destruct (Webhooks.findOneBySubscription _ _) as [[userId u] |] eqn:Hfind; [| by left].
    apply findOneBySubscription_Some in Hfind as [Hu _].
    right. do 2 eexists. split; [reflexivity |].
    intros u' Hu'. by assert (u' = u) as -> by congruence.
  - unfold Webhooks.handlePaymentSucceeded.
    destruct (Webhooks.findOneBySubscription _ _) as [[userId u] |] eqn:Hfind; [| by left].
    apply findOneBySubscription_Some in Hfind as [Hu _].
    right. do 2 eexists. split; [reflexivity |].
    intros u' Hu'. by assert (u' = u) as -> by congruence.
  - unfold Webhooks.handlePaymentFailed.
    destruct (Webhooks.findOneBySubscription _ _) as [[userId u] |] eqn:Hfind; [| by left].
    apply findOneBySubscription_Some in Hfind as [Hu _].
    right. do 2 eexists. split; [reflexivity |].
    intros u' Hu'. by assert (u' = u) as -> by congruence.
Qed.

(** No webhook event, of any kind and with any payload, resets or changes
    a counter: for every user of the collection [promptsUsed], [resetDate]
    and [lastResetDate] are what they were, and so are the version,
    installation and source of the metadata, and the whole metadata of a
    record that holds [lastActiveDate]; no user is removed, at most one
    record is written, and the usage events are not touched. *)
Theorem webhook_frame (now : Date) (event : WebhookEvent) (st : State) :
  usageEvents (Webhooks.processEvent now event st) = usageEvents st
  /\ (forall userId u,
        users st !! userId = Some u ->
        exists u1,
          users (Webhooks.processEvent now event st) !! userId = Some u1
          /\ promptsUsed (usageQuota u1) = promptsUsed (usageQuota u)
          /\ resetDate (usageQuota u1) = resetDate (usageQuota u)
          /\ lastResetDate (usageQuota u1) = lastResetDate (usageQuota u)
          /\ extensionVersion (metadata u1) = extensionVersion (metadata u)
          /\ installationId (metadata u1) = installationId (metadata u)
          /\ source (metadata u1) = source (metadata u)
          /\ (has_lastActiveDate u -> metadata u1 = metadata u))
  /\ (exists written,
        forall userId, userId <> written ->
          users (Webhooks.processEvent now event st) !! userId = users st !! userId).
Proof.
  destruct (processEvent_cases now event st) as [-> | (w & u1 & -> & Hkeep)].
  - split; [done |]. split; [| by exists ""].
    intros userId u Hu. by exists u.
  - split; [done |]. split.
    + intros userId u Hu. simpl.
      destruct (decide (w = userId)) as [-> | Hne].
      * rewrite lookup_insert_eq. exists u1. split; [done |].
        destruct (Hkeep u Hu) as (? & ? & ? & Hm & _). rewrite Hm. done.
      * rewrite lookup_insert_ne by done. by exists u.
    + exists w. intros userId Hne. simpl. by rewrite lookup_insert_ne.
Qed.

(** Events that change nothing.  An event of an unrecognised type, an
    event without [data], a [subscription.created] without a user id in its
    metadata (absent or empty), and any other recognised event whose
    subscription id no user holds all leave the state as it was; the route
    still acknowledges each of them with 200 once the payload has parsed. *)
Theorem webhook_noops (JSON_parse : string -> option WebhookEvent) (now : Date)
    (payload : string) (event : WebhookEvent) (st : State) :
  JSON_parse payload = Some event ->
  ~ In (we_type event)
      ["subscription.created"; "subscription.updated"; "subscription.cancelled";
       "subscription.expired"; "payment.succeeded"; "payment.failed"]
  \/ we_data event = None
  \/ (exists d, we_data event = Some d
                /\ we_type event = "subscription.created"
                /\ truthy (wd_metadata_userId d) = false)
  \/ (exists d, we_data event = Some d
                /\ we_type event <> "subscription.created"
                /\ forall userId u, users st !! userId = Some u ->
                     goDaddySubscriptionId (subscription u) <> wd_subscriptionId d) ->
  Webhooks.parse_and_process JSON_parse now payload st = (st, WebhookReceived).
Proof.
  intros Hparse Hcase. unfold Webhooks.parse_and_process. rewrite Hparse. f_equal.
  unfold Webhooks.processEvent.
  destruct Hcase as [Hty | [Hnone | [(d & Hd & Hty & Hid) | (d & Hd & Hty & Hnobody)]]].
  - assert (forall l,
              In l ["subscription.created"; "subscription.updated";
                    "subscription.cancelled"; "subscription.expired";
                    "payment.succeeded"; "payment.failed"] ->
              String.eqb (we_type event) l = false) as Hf.
    { intros l Hl. apply String.eqb_neq. intros Heq. apply Hty. by rewrite Heq. }
    cbv zeta. rewrite !Hf by (simpl; tauto). done.
  - rewrite Hnone. by repeat case_match.
  - rewrite Hd, Hty. simpl. unfold truthy in Hid.
    destruct (wd_metadata_userId d) as [userId |]; [| done].
    apply negb_false_iff in Hid. by rewrite Hid.
  - rewrite Hd. apply findOneBySubscription_None in Hnobody.
    rewrite (proj2 (String.eqb_neq _ _) Hty).
    unfold Webhooks.handleSubscriptionUpdated, Webhooks.handleSubscriptionCancelled,
      Webhooks.handleSubscriptionExpired, Webhooks.handlePaymentSucceeded,
      Webhooks.handlePaymentFailed.
    rewrite Hnobody. by repeat case_match.
Qed.

(** Plan ids are matched exactly.  The id "scale-" followed by a tier's
    value maps to that tier, and a plan maps above the basic tier only if
    it is one of the two exact ids: a missing id, an unknown one or one in
    another case is the basic tier. *)
Theorem mapPlanIdToTier_exact (planId : option string) (T : SubscriptionTier) :
  Webhooks.mapPlanIdToTier (Some ("scale-" ++ SubscriptionTier_value T)) = T
  /\ (Webhooks.mapPlanIdToTier planId = T -> T <> FAN ->
      planId = Some ("scale-" ++ SubscriptionTier_value T)).
Proof.
  split; [by destruct T |].
  unfold Webhooks.mapPlanIdToTier.
  destruct planId as [p |]; [| by intros <-].
  destruct (String.eqb_spec p "scale-fan"); [by intros <- |].
  destruct (String.eqb_spec p "scale-developer"); [by intros <- _; subst |].
  destruct (String.eqb_spec p "scale-enterprise"); [by intros <- _; subst |].
  by intros <-.
Qed.

Lemma toLowerAscii_idem (c : ascii) : toLowerAscii (toLowerAscii c) = toLowerAscii c.
Proof. by destruct c as [[] [] [] [] [] [] [] []]. Qed.

Lemma toLowerCase_idem (s : string) : toLowerCase (toLowerCase s) = toLowerCase s.
Proof.
  induction s as [| c rest IH]; [done |].
  simpl. by rewrite toLowerAscii_idem, IH.
Qed.

(** The provider's status words are read without regard to case, and only
    four of them are known.  The value of each status but [trial] maps
    back to it, also when written in upper case; the result depends on the
    lower-cased word only, is never [trial], and is anything but
    [inactive] only for the three words active, cancelled and expired. *)
Theorem mapGoDaddyStatus_words (word : string) (S : SubscriptionStatus) :
  (S <> TRIAL ->
   Webhooks.mapGoDaddyStatusToSubscriptionStatus (SubscriptionStatus_value S) = S
   /\ Webhooks.mapGoDaddyStatusToSubscriptionStatus
        (toUpperCase (SubscriptionStatus_value S)) = S)
  /\ Webhooks.mapGoDaddyStatusToSubscriptionStatus (toLowerCase word)
     = Webhooks.mapGoDaddyStatusToSubscriptionStatus word
  /\ Webhooks.mapGoDaddyStatusToSubscriptionStatus word <> TRIAL
  /\ (Webhooks.mapGoDaddyStatusToSubscriptionStatus word <> INACTIVE ->
      toLowerCase word
      = SubscriptionStatus_value (Webhooks.mapGoDaddyStatusToSubscriptionStatus word)).
Proof.
  split; [by destruct S |].
  unfold Webhooks.mapGoDaddyStatusToSubscriptionStatus.
  rewrite toLowerCase_idem.
  split; [done |].
  destruct (String.eqb_spec (toLowerCase word) "active") as [-> | _]; [done |].
  destruct (String.eqb_spec (toLowerCase word) "cancelled") as [-> | _]; [done |].
  destruct (String.eqb_spec (toLowerCase word) "expired") as [-> | _]; [done |].
  destruct (String.eqb_spec (toLowerCase word) "inactive") as [-> | _]; done.
Qed.

(** A cancellation, a failed payment and a successful payment change the
    status and dates only, and tracking does not read them: after any of
    these three events every tracking request is answered exactly as it
    would have been before it.  In particular a cancelled subscription
    keeps being served and counted. *)
Theorem status_events_keep_service (ty : string) (t now : Date) (data : option WebhookData)
    (eventId : string) (req : TrackRequest) (st : State) :
  In ty ["subscription.cancelled"; "payment.failed"; "payment.succeeded"] ->
  (track now eventId req (Webhooks.processEvent t (mkWebhookEvent ty data) st)).2
  = (track now eventId req st).2.
Proof.
  intros Hty.
  assert (Webhooks.processEvent t (mkWebhookEvent ty data) st = st
          \/ exists userId u f,
               users st !! userId = Some u
               /\ Webhooks.processEvent t (mkWebhookEvent ty data) st
                  = save_user userId (with_subscription (fun _ => f) u) st)
    as [-> | (userId & u & f & Hu & ->)]; [| done | by apply track_subscription_blind].
  simpl in Hty. unfold Webhooks.processEvent.
  destruct data as [d |]; [| left; destruct Hty as [<- | [<- | [<- | []]]]; done].
  destruct Hty as [<- | [<- | [<- | []]]]; simpl.
  - unfold Webhooks.handleSubscriptionCancelled.
    destruct (Webhooks.findOneBySubscription _ _) as [[userId u] |] eqn:Hfind; [| by left].
    apply findOneBySubscription_Some in Hfind as [Hu _].
    right. exists userId, u. by eexists.
  - unfold Webhooks.handlePaymentFailed.
    destruct (Webhooks.findOneBySubscription _ _) as [[userId u] |] eqn:Hfind; [| by left].
    apply findOneBySubscription_Some in Hfind as [Hu _].
    right. exists userId, u. by eexists.
  - unfold Webhooks.handlePaymentSucceeded.
    destruct (Webhooks.findOneBySubscription _ _) as [[userId u] |] eqn:Hfind; [| by left].
    apply findOneBySubscription_Some in Hfind as [Hu _].
    right. exists userId, u. by eexists.
Qed.

(** What the downgrade on expiry means for tracking.  Once a
    [subscription.expired] event has been processed for a user, a
    well-formed tracking request of that user is answered 403 for any
    feature outside the three basic ones, and a quota-counted request for a
    basic feature is answered 429 when the user had already used 75 prompts
    or more (the counter is not reset by the downgrade) and 200 otherwise. *)
Theorem expiry_limits_tracking (t now : Date) (d : WebhookData) (st : State)
    (userId eventId : string) (u : IUser) (req : TrackRequest) :
  Webhooks.findOneBySubscription (users st) (wd_subscriptionId d) = Some (userId, u) ->
  tr_userId req = userId ->
  track_valid req = true ->
  let st1 := Webhooks.processEvent t (mkWebhookEvent "subscription.expired" (Some d)) st in
  (~ In (tr_feature req) ["chat"; "agent"; "codeCompletion"] ->
   track_status (track now eventId req st1).2 = 403)
  /\ (In (tr_feature req) ["chat"; "agent"; "codeCompletion"] ->
      In (tr_type req) quota_counted_types ->
      (75 <= promptsUsed (usageQuota u) ->
       track_status (track now eventId req st1).2 = 429)
      /\ (promptsUsed (usageQuota u) < 75 ->
          track_status (track now eventId req st1).2 = 200)).
Proof.
  intros Hfind Hreq Hvalid. cbv zeta.
  assert (exists u1,
            users (Webhooks.processEvent t
                     (mkWebhookEvent "subscription.expired" (Some d)) st) !! tr_userId req
            = Some u1
            /\ features u1 = ["chat"; "agent"; "codeCompletion"]
            /\ promptsPerMonth (usageQuota u1) = 75
            /\ promptsUsed (usageQuota u1) = promptsUsed (usageQuota u))
    as (u1 & Hu1 & Hfs & Hppm & Hused1).
  { unfold Webhooks.processEvent, Webhooks.handleSubscriptionExpired. simpl.
    rewrite Hfind, Hreq. simpl. rewrite lookup_insert_eq. by eexists. }
  unfold track. rewrite Hvalid, Hu1.
  destruct (includes (features u1) (tr_feature req)) eqn:Hinc.
  - apply includes_In in Hinc. rewrite Hfs in Hinc.
    split; [by intros Hout |]. intros _ Hty.
    rewrite (counted_isPromptBased _ Hty), Hppm, Hused1. simpl.
    split; intros Hused.
    + assert ((promptsUsed (usageQuota u) <? 75) = false) as -> by (apply Z.ltb_ge; lia).
      done.
    + assert ((promptsUsed (usageQuota u) <? 75) = true) as -> by (apply Z.ltb_lt; lia).
      done.
  - split; [done |]. intros Hin. rewrite <- Hfs in Hin.
    apply includes_In in Hin. congruence.
Qed.

(** The webhook life cycle is tied together by the subscription id.  After
    a [subscription.created] event for a user, if no other user holds the
    subscription id of the event, a later [subscription.cancelled] event
    carrying that id marks this very user cancelled as of its time and
    leaves the tier the plan gave, with its features and quota. *)
Theorem created_then_cancelled (t t' : Date) (d d' : WebhookData) (st : State)
    (userId : string) :
  wd_metadata_userId d = Some userId ->
  userId <> "" ->
  wd_subscriptionId d' = wd_subscriptionId d ->
  (forall other v, users st !! other = Some v -> other <> userId ->
     goDaddySubscriptionId (subscription v) <> wd_subscriptionId d) ->
  exists u2,
    users (Webhooks.processEvent t' (mkWebhookEvent "subscription.cancelled" (Some d'))
             (Webhooks.processEvent t (mkWebhookEvent "subscription.created" (Some d)) st))
      !! userId = Some u2
    /\ status (subscription u2) = CANCELLED
    /\ endDate (subscription u2) = Some t'
    /\ entitled_as (Webhooks.mapPlanIdToTier (wd_planId d)) u2.
Proof.
  intros Hmeta Hid Hsame Honly.
  destruct (getTierConfiguration_policy (Webhooks.mapPlanIdToTier (wd_planId d)))
    as [_ HW].
  set (st1 := Webhooks.processEvent t (mkWebhookEvent "subscription.created" (Some d)) st).
  assert (exists u1,
            users st1 = <[userId := u1]> (users st)
            /\ goDaddySubscriptionId (subscription u1) = wd_subscriptionId d
            /\ entitled_as (Webhooks.mapPlanIdToTier (wd_planId d)) u1)
    as (u1 & Hst1 & Hsid & Hent).
  { subst st1. unfold Webhooks.processEvent, Webhooks.handleSubscriptionCreated. simpl.
    rewrite Hmeta, (eqb_empty_false _ Hid). simpl. eexists. split; [done |].
    unfold entitled_as. rewrite HW.
    destruct (truthy (wd_customerEmail d)); done. }
  assert (Webhooks.findOneBySubscription (users st1) (wd_subscriptionId d')
          = Some (userId, u1)) as Hfind.
  { rewrite Hsame, Hst1. apply findOneBySubscription_unique.
    - apply lookup_insert_eq.
    - done.
    - intros other v Hv Hne. rewrite lookup_insert_ne in Hv by done. by eapply Honly. }
  unfold Webhooks.processEvent at 1. unfold Webhooks.handleSubscriptionCancelled. simpl.
  fold st1. rewrite Hfind. simpl. rewrite lookup_insert_eq.
  eexists. split; [done |]. done.
Qed.

(** ** Properties of the service as a whole *)

Lemma save_user_sound (userId : string) (u : IUser) (st : State) :
  store_sound st -> user_sound u -> store_sound (save_user userId u st).
Proof. intros Hst Hu. by apply map_Forall_insert_2. Qed.

Lemma user_sound_status (S : SubscriptionStatus) (u : IUser) :
  user_sound u -> user_sound (with_subscription (set_status S) u).
Proof. by intros [(? & ? & ?) ?]. Qed.

Lemma new_user_sound (now : Date) (e : option string) (m : IUserMetadata) :
  user_sound (new_user now e m).
Proof. by repeat split. Qed.

Lemma track_sound (now : Date) (eventId : string) (req : TrackRequest) (st : State) :
  store_sound st -> store_sound (track now eventId req st).1.
Proof.
  intros Hst. unfold store_sound.
  destruct (track_users_cases now eventId req st)
    as [-> | (u & Hu & _ & _ & ->)]; [done |].
  apply map_Forall_insert_2; [| done].
  destruct (Hst _ _ Hu) as [(? & ? & ?) ?]. repeat split; simpl; try done. lia.
Qed.

Lemma reset_sound (now : Date) (userId : string) (st : State) :
  store_sound st -> store_sound (reset now userId st).1.
Proof.
  intros Hst. unfold reset.
  destruct (String.eqb userId ""); [done |].
  destruct (users st !! userId) as [u |] eqn:Hu; [| done].
  apply save_user_sound; [done |].
  destruct (Hst _ _ Hu) as [(? & ? & ?) ?]. by repeat split.
Qed.

Lemma verify_sound (now : Date) (api : string -> option string)
    (req : Subscription.VerifyRequest) (st : State) :
  store_sound st -> store_sound (Subscription.verify now api req st).1.
Proof.
  intros Hst. unfold Subscription.verify.
  destruct (String.eqb (Subscription.vr_userId req) ""); [done |].
  apply save_user_sound; [done |].
  rewrite verify_reconcile_only_status. apply user_sound_status.
  unfold Subscription.verify_ensure.
  destruct (users st !! Subscription.vr_userId req) as [u |] eqn:Hu;
    [| apply new_user_sound].
  destruct (Hst _ _ Hu) as [(? & ? & ?) ?].
  unfold Subscription.rollover.
  repeat split; simpl; try done; by case_match.
Qed.

Lemma update_sound (req : Subscription.UpdateRequest) (st : State) :
  store_sound st -> store_sound (Subscription.update req st).1.
Proof.
  intros Hst. unfold Subscription.update.
  destruct (String.eqb (Subscription.ur_userId req) ""); [done |].
  destruct (SubscriptionTier_of_string (Subscription.ur_tier req)) as [T |]; [| done].
  destruct (SubscriptionStatus_of_string (Subscription.ur_status req)) as [S |]; [| done].
  destruct (users st !! Subscription.ur_userId req) as [u |] eqn:Hu; [| done].
  apply save_user_sound; [done |].
  destruct (Hst _ _ Hu) as [_ ?].
  destruct (getTierConfiguration_policy T) as [-> _].
  destruct (truthy (Subscription.ur_goDaddySubscriptionId req)),
    (truthy (Subscription.ur_goDaddyCustomerId req)); by repeat split.
Qed.

Lemma verify_payment_sound (now : Date) (isEmail : string -> bool)
    (req : Subscription.VerifyPaymentRequest) (st : State) :
  store_sound st -> store_sound (Subscription.verify_payment now isEmail req st).1.
Proof.
  intros Hst. unfold Subscription.verify_payment.
  destruct (negb (Subscription.verify_payment_valid isEmail req)); [done |].
  destruct (SubscriptionTier_of_key (toUpperCase (Subscription.vp_tier req))) as [T |];
    [| done].
  apply save_user_sound; [done |].
  destruct (getTierConfiguration_policy T) as [-> _].
  assert (0 <= promptsUsed
                 (usageQuota
                    match users st !! Subscription.vp_userId req with
                    | Some user => user
                    | None => Subscription.trial_user now (Subscription.vp_userId req)
                                (Subscription.vp_email req)
                    end)) as Hused.
  { destruct (users st !! Subscription.vp_userId req) as [u |] eqn:Hu; [| done].
    by destruct (Hst _ _ Hu). }
  destruct (truthy (Subscription.vp_transactionId req)); by repeat split.
Qed.

Lemma token_sound (jwt : Jwt) (env : AuthEnv) (now : Date) (req : Auth.TokenRequest)
    (st : State) :
  store_sound st -> store_sound (Auth.token jwt env now req st).1.
Proof.
  intros Hst. unfold Auth.token.
  destruct (String.eqb (Auth.tk_userId req) ""); [done |].
  assert (user_sound
            match users st !! Auth.tk_userId req with
            | Some user =>
                with_metadata
                  (fun _ =>
                     let m0 := set_lastActiveDate (Some now) (metadata user) in
                     let m1 := if truthy (Auth.tk_extensionVersion req)
                               then set_extensionVersion (Auth.tk_extensionVersion req) m0
                               else m0 in
                     if truthy (Auth.tk_installationId req)
                     then mkUserMetadata (extensionVersion m1) (lastActiveDate m1)
                            (Auth.tk_installationId req) (source m1)
                     else m1) user
            | None =>
                new_user now None
                  (mkUserMetadata (Auth.tk_extensionVersion req) (Some now)
                     (Auth.tk_installationId req) None)
            end) as Hu.
  { destruct (users st !! Auth.tk_userId req) as [u |] eqn:Hu; [| apply new_user_sound].
    by destruct (Hst _ _ Hu) as [(? & ? & ?) ?]. }
  destruct (AuthMiddleware.generateToken _ _ _ _); simpl; by apply save_user_sound.
Qed.

Lemma refresh_sound (jwt : Jwt) (env : AuthEnv) (now : Date) (userId : string)
    (st : State) :
  store_sound st -> store_sound (Auth.refresh jwt env now userId st).1.
Proof.
  intros Hst. unfold Auth.refresh.
  destruct (String.eqb userId ""); [done |].
  destruct (users st !! userId) as [u |] eqn:Hu; [| done].
  destruct (AuthMiddleware.generateToken _ _ _ _); simpl; apply save_user_sound;
    try done; by destruct (Hst _ _ Hu) as [(? & ? & ?) ?].
Qed.

Lemma applyTierConfiguration_sound (T : SubscriptionTier) (u : IUser) :
  tier (subscription u) = T ->
  0 <= promptsUsed (usageQuota u) ->
  user_sound (Webhooks.applyTierConfiguration (Webhooks.getTierConfiguration T) u).
Proof.
  intros HT Hused. destruct (getTierConfiguration_policy T) as [_ ->].
  unfold user_sound, entitled_as. simpl. by rewrite HT.
Qed.

Lemma processEvent_sound (now : Date) (event : WebhookEvent) (st : State) :
  store_sound st -> store_sound (Webhooks.processEvent now event st).
Proof.
  intros Hst. unfold Webhooks.processEvent.
  destruct (we_data event) as [d |]; [| by repeat case_match].
  repeat case_match; try done.
  - unfold Webhooks.handleSubscriptionCreated.
    destruct (wd_metadata_userId d) as [userId |]; [| done].
    destruct (String.eqb userId ""); [done |].
    apply save_user_sound; [done |].
    apply applyTierConfiguration_sound.
    + by destruct (truthy (wd_customerEmail d)).
    + destruct (users st !! userId) as [u |] eqn:Hu;
        destruct (truthy (wd_customerEmail d)); simpl; try done;
        by destruct (Hst _ _ Hu).
  - unfold Webhooks.handleSubscriptionUpdated.
    destruct (Webhooks.findOneBySubscription _ _) as [[userId u] |] eqn:Hfind; [| done].
    apply findOneBySubscription_Some in Hfind as [Hu _].
    apply save_user_sound; [done |].
    assert (user_sound
              (if truthy (wd_planId d)
               then Webhooks.applyTierConfiguration
                      (Webhooks.getTierConfiguration (Webhooks.mapPlanIdToTier (wd_planId d)))
                      (with_subscription (set_tier (Webhooks.mapPlanIdToTier (wd_planId d))) u)
               else u)) as Hsound.
    { destruct (truthy (wd_planId d)); [| by apply (Hst _ _ Hu)].
      apply applyTierConfiguration_sound; [done |]. by destruct (Hst _ _ Hu). }
    destruct (wd_status d) as [s |]; [| done].
    destruct (truthy (Some s)); [| done]. by apply user_sound_status.
  - unfold Webhooks.handleSubscriptionCancelled.
    destruct (Webhooks.findOneBySubscription _ _) as [[userId u] |] eqn:Hfind; [| done].
    apply findOneBySubscription_Some in Hfind as [Hu _].
    apply save_user_sound; [done |]. by destruct (Hst _ _ Hu) as [(? & ? & ?) ?].
  - unfold Webhooks.handleSubscriptionExpired.
    destruct (Webhooks.findOneBySubscription _ _) as [[userId u] |] eqn:Hfind; [| done].
    apply findOneBySubscription_Some in Hfind as [Hu _].
    apply save_user_sound; [done |].
    apply applyTierConfiguration_sound; [done |]. by destruct (Hst _ _ Hu).
  - unfold Webhooks.handlePaymentSucceeded.
    destruct (Webhooks.findOneBySubscription _ _) as [[userId u] |] eqn:Hfind; [| done].
    apply findOneBySubscription_Some in Hfind as [Hu _].
    apply save_user_sound; [done |]. by destruct (Hst _ _ Hu) as [(? & ? & ?) ?].
  - unfold Webhooks.handlePaymentFailed.
    destruct (Webhooks.findOneBySubscription _ _) as [[userId u] |] eqn:Hfind; [| done].
    apply findOneBySubscription_Some in Hfind as [Hu _].
    apply save_user_sound; [done |]. by destruct (Hst _ _ Hu) as [(? & ? & ?) ?].
Qed.

Lemma serve_sound (pf : Platform) (r : Request) (st : State) :
  store_sound st -> store_sound (serve pf r st).
Proof.
  intros Hst. destruct r; simpl.
  - by apply track_sound.
  - by apply reset_sound.
  - by apply verify_sound.
  - by apply update_sound.
  - by apply verify_payment_sound.
  - by apply token_sound.
  - by apply refresh_sound.
  - unfold Webhooks.godaddy_subscription, Webhooks.parse_and_process.
    destruct (Webhooks.check_signature _ _ _); try done.
    all: destruct (pf_JSON_parse pf (Body_toString (body req))); [| done].
    all: by apply processEvent_sound.
Qed.

(** The entitlements follow the tier, always.  In every state the service
    reaches from the empty store, by any sequence of requests to its
    routes (tracking, reset, verification, update, payment verification,
    token issue and refresh, billing webhooks, with whatever clock
    readings, environments and provider answers), each user's [features]
    and [promptsPerMonth] are those of the Tier Policy for the user's own
    tier, and [promptsUsed] is not negative; and a store that has the
    property keeps it. *)
Theorem service_keeps_entitlements (pf : Platform) (rs : list Request) :
  store_sound (serve_all pf rs empty_state)
  /\ forall st, store_sound st -> store_sound (serve_all pf rs st).
Proof.
  assert (forall st, store_sound st -> store_sound (serve_all pf rs st)) as Hkeep.
  { induction rs as [| r rest IH]; intros st Hst; [done |].
    simpl. apply IH. by apply serve_sound. }
  split; [| done]. apply Hkeep. unfold store_sound, empty_state. simpl.
  apply map_Forall_empty.
Qed.

Lemma extends_refl (st : State) : extends st st.
Proof. split; [done |]. exists []. by rewrite app_nil_r. Qed.

Lemma extends_trans (st1 st2 st3 : State) :
  extends st1 st2 -> extends st2 st3 -> extends st1 st3.
Proof.
  intros [Hu12 [l12 He12]] [Hu23 [l23 He23]]. split; [by auto |].
  exists (l12 ++ l23)%list. by rewrite He23, He12, app_assoc.
Qed.

Lemma extends_save_user (userId : string) (u : IUser) (st : State) :
  extends st (save_user userId u st).
Proof.
  split.
  - intros k Hk. simpl. apply lookup_insert_is_Some'. by right.
  - exists []. simpl. by rewrite app_nil_r.
Qed.

Lemma extends_save_event (e : IUsageEvent) (st : State) : extends st (save_event e st).
Proof. split; [done |]. by exists [e]. Qed.

Lemma processEvent_extends (now : Date) (event : WebhookEvent) (st : State) :
  extends st (Webhooks.processEvent now event st)
  /\ usageEvents (Webhooks.processEvent now event st) = usageEvents st.
Proof.
  destruct (processEvent_cases now event st) as [-> | (w & u1 & -> & _)].
  - split; [apply extends_refl | done].
  - split; [apply extends_save_user | done].
Qed.

Lemma serve_extends (pf : Platform) (r : Request) (st : State) :
  extends st (serve pf r st)
  /\ ((forall now eventId req, r <> PostUsageTrack now eventId req) ->
      usageEvents (serve pf r st) = usageEvents st).
Proof.
  destruct r; simpl.
  - split; [| intros H; by destruct (H now eventId req)].
    unfold track. repeat case_match; try apply extends_refl.
    all: eapply extends_trans; [| apply extends_save_event].
    all: try apply extends_save_user; apply extends_refl.
  - split; [| intros _]; unfold reset; repeat case_match;
      try apply extends_refl; try apply extends_save_user; done.
  - split; [| intros _]; unfold Subscription.verify; repeat case_match;
      try apply extends_refl; try apply extends_save_user; done.
  - split; [| intros _]; unfold Subscription.update; repeat case_match;
      try apply extends_refl; try apply extends_save_user; done.
  - split; [| intros _]; unfold Subscription.verify_payment; repeat case_match;
      try apply extends_refl; try apply extends_save_user; done.
  - split; [| intros _]; unfold Auth.token; repeat case_match;
      try apply extends_refl; try apply extends_save_user; done.
  - split; [| intros _]; unfold Auth.refresh; repeat case_match;
      try apply extends_refl; try apply extends_save_user; done.
  - unfold Webhooks.godaddy_subscription, Webhooks.parse_and_process.
    destruct (Webhooks.check_signature _ _ _);
      try (split; [apply extends_refl | done]).
    all: destruct (pf_JSON_parse pf (Body_toString (body req)));
      [| split; [apply extends_refl | done]].
    all: destruct (processEvent_extends now w st); by split.
Qed.

(** Nothing is ever deleted.  Whatever requests the service handles,
    every user of the store is still in it afterwards and the usage events
    recorded before are still there, unchanged and in their order, followed
    by the new ones; and only the tracking route adds usage events. *)
Theorem service_never_deletes (pf : Platform) (rs : list Request) (st : State) :
  extends st (serve_all pf rs st)
  /\ (Forall (fun r => forall now eventId req, r <> PostUsageTrack now eventId req) rs ->
      usageEvents (serve_all pf rs st) = usageEvents st).
Proof.
  revert st. induction rs as [| r rest IH]; intros st.
  - split; [apply extends_refl | done].
  - simpl. destruct (serve_extends pf r st) as [Hext Hev].
    destruct (IH (serve pf r st)) as [Hext' Hev'].
    split; [by eapply extends_trans |].
    intros Hall. apply Forall_cons in Hall as [Hr Hrest].
    rewrite Hev' by done. by apply Hev.
Qed.

Lemma save_user_dated (userId : string) (u : IUser) (st : State) :
  store_dated st -> has_lastActiveDate u -> store_dated (save_user userId u st).
Proof. intros Hst Hu. by apply map_Forall_insert_2. Qed.

Lemma processEvent_dated (now : Date) (event : WebhookEvent) (st : State) :
  store_dated st -> store_dated (Webhooks.processEvent now event st).
Proof.
  intros Hst. unfold Webhooks.processEvent.
  destruct (we_data event) as [d |]; [| by repeat case_match].
  repeat case_match; try done.
  - unfold Webhooks.handleSubscriptionCreated.
    destruct (wd_metadata_userId d) as [userId |]; [| done].
    destruct (String.eqb userId ""); [done |].
    apply save_user_dated; [done |]. unfold has_lastActiveDate.
    destruct (users st !! userId) as [u |] eqn:Hu;
      destruct (truthy (wd_customerEmail d)); simpl; try done;
      by apply (Hst _ _ Hu).
  - unfold Webhooks.handleSubscriptionUpdated.
    destruct (Webhooks.findOneBySubscription _ _) as [[userId u] |] eqn:Hfind; [| done].
    apply findOneBySubscription_Some in Hfind as [Hu _].
    apply save_user_dated; [done |]. unfold has_lastActiveDate.
    destruct (truthy (wd_planId d)), (wd_status d) as [s |]; simpl;
      try destruct (String.eqb s ""); simpl; by apply (Hst _ _ Hu).
  - unfold Webhooks.handleSubscriptionCancelled.
    destruct (Webhooks.findOneBySubscription _ _) as [[userId u] |] eqn:Hfind; [| done].
    apply findOneBySubscription_Some in Hfind as [Hu _].
    apply save_user_dated; [done |]. by apply (Hst _ _ Hu).
  - unfold Webhooks.handleSubscriptionExpired.
    destruct (Webhooks.findOneBySubscription _ _) as [[userId u] |] eqn:Hfind; [| done].
    apply findOneBySubscription_Some in Hfind as [Hu _].
    apply save_user_dated; [done |]. by apply (Hst _ _ Hu).
  - unfold Webhooks.handlePaymentSucceeded.
    destruct (Webhooks.findOneBySubscription _ _) as [[userId u] |] eqn:Hfind; [| done].
    apply findOneBySubscription_Some in Hfind as [Hu _].
    apply save_user_dated; [done |]. by apply (Hst _ _ Hu).
  - unfold Webhooks.handlePaymentFailed.
    destruct (Webhooks.findOneBySubscription _ _) as [[userId u] |] eqn:Hfind; [| done].
    apply findOneBySubscription_Some in Hfind as [Hu _].
    apply save_user_dated; [done |]. by apply (Hst _ _ Hu).
Qed.

Lemma serve_dated (pf : Platform) (r : Request) (st : State) :
  store_dated st -> store_dated (serve pf r st).
Proof.
  intros Hst. destruct r; simpl.
  - unfold store_dated.
    destruct (track_users_cases now eventId req st)
      as [-> | (u & Hu & _ & _ & ->)]; [done |].
    apply map_Forall_insert_2; [by eexists | done].
  - unfold reset.
    destruct (String.eqb userId ""); [done |].
    destruct (users st !! userId) as [u |] eqn:Hu; [| done].
    apply save_user_dated; [done |]. by apply (Hst _ _ Hu).
  - unfold Subscription.verify.
    destruct (String.eqb (Subscription.vr_userId req) ""); [done |].
    apply save_user_dated; [done |].
    rewrite verify_reconcile_only_status. unfold has_lastActiveDate. simpl.
    unfold Subscription.verify_ensure.
    destruct (users st !! Subscription.vr_userId req) as [u |]; simpl;
      [| by eexists].
    destruct (truthy (Subscription.vr_extensionVersion req)),
      (truthy (Subscription.vr_source req)); simpl; by eexists.
  - unfold Subscription.update.
    destruct (String.eqb (Subscription.ur_userId req) ""); [done |].
    destruct (SubscriptionTier_of_string (Subscription.ur_tier req)) as [T |]; [| done].
    destruct (SubscriptionStatus_of_string (Subscription.ur_status req)) as [S |]; [| done].
    destruct (users st !! Subscription.ur_userId req) as [u |] eqn:Hu; [| done].
    apply save_user_dated; [done |]. by apply (Hst _ _ Hu).
  - unfold Subscription.verify_payment.
    destruct (negb (Subscription.verify_payment_valid (pf_isEmail pf) req)); [done |].
    destruct (SubscriptionTier_of_key (toUpperCase (Subscription.vp_tier req))) as [T |];
      [| done].
    apply save_user_dated; [done |]. unfold has_lastActiveDate. simpl.
    destruct (users st !! Subscription.vp_userId req) as [u |] eqn:Hu;
      [by apply (Hst _ _ Hu) | by eexists].
  - unfold Auth.token.
    destruct (String.eqb (Auth.tk_userId req) ""); [done |].
    assert (has_lastActiveDate
              match users st !! Auth.tk_userId req with
              | Some user =>
                  with_metadata
                    (fun _ =>
                       let m0 := set_lastActiveDate (Some now) (metadata user) in
                       let m1 := if truthy (Auth.tk_extensionVersion req)
                                 then set_extensionVersion (Auth.tk_extensionVersion req) m0
                                 else m0 in
                       if truthy (Auth.tk_installationId req)
                       then mkUserMetadata (extensionVersion m1) (lastActiveDate m1)
                              (Auth.tk_installationId req) (source m1)
                       else m1) user
              | None =>
                  new_user now None
                    (mkUserMetadata (Auth.tk_extensionVersion req) (Some now)
                       (Auth.tk_installationId req) None)
              end) as Hu.
    { unfold has_lastActiveDate.
      destruct (users st !! Auth.tk_userId req) as [u |]; simpl; [| by eexists].
      destruct (truthy (Auth.tk_extensionVersion req)),
        (truthy (Auth.tk_installationId req)); simpl; by eexists. }
    destruct (AuthMiddleware.generateToken _ _ _ _); simpl; by apply save_user_dated.
  - unfold Auth.refresh.
    destruct (String.eqb userId ""); [done |].
    destruct (users st !! userId) as [u |] eqn:Hu; [| done].
    destruct (AuthMiddleware.generateToken _ _ _ _); simpl; apply save_user_dated;
      try done; by eexists.
  - unfold Webhooks.godaddy_subscription, Webhooks.parse_and_process.
    destruct (Webhooks.check_signature _ _ _); try done.
    all: destruct (pf_JSON_parse pf (Body_toString (body req))); [| done].
    all: by apply processEvent_dated.
Qed.

(** Every record holds [lastActiveDate].  In every state the service
    reaches from the empty store, by any sequence of requests to its
    routes, each user record holds [metadata.lastActiveDate]: the routes
    that create a user set it, the tracking, verification and token routes
    set it anew, and no route clears it; and a store whose records hold it
    keeps that property. *)
Theorem service_dates_every_user (pf : Platform) (rs : list Request) :
  store_dated (serve_all pf rs empty_state)
  /\ forall st, store_dated st -> store_dated (serve_all pf rs st).
Proof.
  assert (forall st, store_dated st -> store_dated (serve_all pf rs st)) as Hkeep.
  { induction rs as [| r rest IH]; intros st Hst; [done |].
    simpl. apply IH. by apply serve_dated. }
  split; [| done]. apply Hkeep. unfold store_dated, empty_state. simpl.
  apply map_Forall_empty.
Qed.

(** ** Properties of the authentication middleware and routes *)

Lemma substring_0_length (s : string) : String.substring 0 (String.length s) s = s.
Proof. induction s as [| c rest IH]; [done |]. simpl. by rewrite IH. Qed.

Lemma append_cons (a : ascii) (p s : string) : String a p ++ s = String a (p ++ s).
Proof. reflexivity. Qed.

Lemma append_nil (s : string) : "" ++ s = s.
Proof. reflexivity. Qed.

(** A string with a given prefix is the prefix followed by what
    [substring] leaves after it. *)
Lemma prefix_split (p h : string) :
  String.prefix p h = true ->
  h = p ++ String.substring (String.length p) (String.length h - String.length p) h.
Proof.
  revert h. induction p as [| a p IH]; intros h Hp.
  - rewrite append_nil. simpl. by rewrite Nat.sub_0_r, substring_0_length.
  - destruct h as [| b h]; [done |]. simpl in Hp.
    destruct (ascii_dec a b) as [-> | _]; [| done].
    rewrite append_cons. simpl. f_equal. by apply IH.
Qed.

Lemma substring_from_app (p s : string) :
  substring_from (String.length p) (p ++ s) = s.
Proof.
  unfold substring_from. induction p as [| a p IH].
  - rewrite append_nil. simpl. by rewrite Nat.sub_0_r, substring_0_length.
  - rewrite append_cons. simpl. exact IH.
Qed.

Lemma prefix_app (p s : string) : String.prefix p (p ++ s) = true.
Proof.
  induction p as [| a p IH]; [rewrite append_nil; by destruct s |].
  rewrite append_cons. simpl. by destruct (ascii_dec a a).
Qed.

Lemma bearer_strip (token : string) :
  String.prefix "Bearer " ("Bearer " ++ token) = true
  /\ substring_from 7 ("Bearer " ++ token) = token.
Proof.
  split; [apply prefix_app | exact (substring_from_app "Bearer " token)].
Qed.

Lemma claims_eta (c : Claims) :
  mkClaims (claim_userId c) (claim_email c) (claim_role c) = c.
Proof. by destruct c. Qed.

(** Who gets past the authentication.  [authenticateUser] lets a request
    through exactly when its Authorization header is "Bearer " followed
    by a token, a non-empty JWT secret is configured, and the library
    verifies the token under that secret; the user attached is the decoded
    payload.  Each refusal is one of three: 401 "No valid authorization
    token provided" when the header is missing or does not start with
    "Bearer "; 500 "Authentication service not configured" when the header
    is well formed and no non-empty secret is configured, the token then
    never being looked at; 401 "Invalid or expired token" when a secret is
    configured and the library rejects the token.  [authenticateAdmin] lets
    through exactly the requests [authenticateUser] does whose role is
    "admin", answers 403 to the others of them, and repeats every refusal
    of [authenticateUser]. *)
Theorem authentication_decisions (jwt : Jwt) (env : AuthEnv) (authorization : option string)
    (user : Claims) :
  (AuthMiddleware.authenticateUser jwt env authorization = AuthNext user <->
   exists token secret,
     authorization = Some ("Bearer " ++ token)
     /\ JWT_SECRET env = Some secret /\ secret <> ""
     /\ jwt_verify jwt token secret = Some user)
  /\ (forall s m,
        AuthMiddleware.authenticateUser jwt env authorization = AuthRespond s m ->
        (s = 401 \/ (s = 500 /\ truthy (JWT_SECRET env) = false))
        /\ AuthMiddleware.authenticateAdmin jwt env authorization = AuthRespond s m)
  /\ (AuthMiddleware.authenticateAdmin jwt env authorization = AuthNext user <->
      AuthMiddleware.authenticateUser jwt env authorization = AuthNext user
      /\ claim_role user = Some "admin")
  /\ (AuthMiddleware.authenticateUser jwt env authorization = AuthNext user ->
      claim_role user <> Some "admin" ->
      AuthMiddleware.authenticateAdmin jwt env authorization
      = AuthRespond 403 "Admin access required")
  /\ (authorization = None
      \/ (exists authHeader,
            authorization = Some authHeader
            /\ String.prefix "Bearer " authHeader = false) ->
      AuthMiddleware.authenticateUser jwt env authorization
      = AuthRespond 401 "No valid authorization token provided")
  /\ (forall token,
        authorization = Some ("Bearer " ++ token) ->
        truthy (JWT_SECRET env) = false ->
        AuthMiddleware.authenticateUser jwt env authorization
        = AuthRespond 500 "Authentication service not configured"
        /\ AuthMiddleware.authenticateAdmin jwt env authorization
           = AuthRespond 500 "Authentication service not configured")
  /\ (forall token secret,
        authorization = Some ("Bearer " ++ token) ->
        JWT_SECRET env = Some secret ->
        secret <> "" ->
        jwt_verify jwt token secret = None ->
        AuthMiddleware.authenticateUser jwt env authorization
        = AuthRespond 401 "Invalid or expired token").
Proof.
  split; [| split; [| split; [| split; [| split; [| split]]]]].
  - unfold AuthMiddleware.authenticateUser, truthy. split.
    + destruct authorization as [h |]; [| done].
      destruct (String.eqb h ""); [done |]. simpl.
      destruct (String.prefix "Bearer " h) eqn:Hp; [| done]. simpl.
      destruct (JWT_SECRET env) as [secret |]; [| done].
      destruct (String.eqb_spec secret ""); [done |]. simpl.
      destruct (jwt_verify jwt _ secret) as [decoded |] eqn:Hv; [| done].
      rewrite claims_eta. intros [= <-].
      exists (substring_from 7 h), secret. split; [| done].
      f_equal. by apply (prefix_split "Bearer " h).
    + intros (token & secret & -> & -> & Hs & Hv).
      destruct (bearer_strip token) as [-> ->].
      assert (String.eqb ("Bearer " ++ token) "" = false) as -> by done.
      simpl. rewrite (eqb_empty_false _ Hs). simpl. by rewrite Hv, claims_eta.
  - intros s m. unfold AuthMiddleware.authenticateAdmin.
    destruct (AuthMiddleware.authenticateUser jwt env authorization) eqn:Hu; [done |].
    intros [= <- <-]. split; [| done].
    unfold AuthMiddleware.authenticateUser, truthy in Hu.
    repeat case_match; simplify_eq; try (by left); right; split; try done.
    all: by apply negb_true_iff.
  - unfold AuthMiddleware.authenticateAdmin.
    destruct (AuthMiddleware.authenticateUser jwt env authorization) as [v |]; [| split].
    + destruct (decide (claim_role v = Some "admin")) as [Hr | Hr].
      * rewrite bool_decide_eq_true_2 by done. simpl.
        split; [by intros [= <-] | by intros [[= <-] _]].
      * rewrite bool_decide_eq_false_2 by done. simpl.
        split; [done | by intros [[= <-] ?]].
    + done.
    + by intros [? _].
  - unfold AuthMiddleware.authenticateAdmin. intros -> Hr.
    by rewrite bool_decide_eq_false_2.
  - unfold AuthMiddleware.authenticateUser.
    intros [-> | (authHeader & -> & Hp)]; [done |].
    rewrite Hp. by rewrite orb_true_r.
  - intros token -> Hno.
    assert (AuthMiddleware.authenticateUser jwt env (Some ("Bearer " ++ token))
            = AuthRespond 500 "Authentication service not configured") as Hu.
    { unfold AuthMiddleware.authenticateUser.
      destruct (bearer_strip token) as [-> ->].
      assert (truthy (Some ("Bearer " ++ token)) = true) as -> by done.
      destruct (JWT_SECRET env) as [secret |]; simpl; [| done].
      simpl in Hno. by rewrite Hno. }
    split; [exact Hu |]. unfold AuthMiddleware.authenticateAdmin. by rewrite Hu.
  - intros token secret -> Hsecret Hs Hv.
    unfold AuthMiddleware.authenticateUser.
    destruct (bearer_strip token) as [-> ->].
    assert (truthy (Some ("Bearer " ++ token)) = true) as -> by done. simpl.
    rewrite Hsecret. unfold truthy. rewrite (eqb_empty_false _ Hs). simpl.
    by rewrite Hv.
Qed.

(** Tokens the service issues are user tokens.  [generateToken] issues a
    token only when a non-empty secret is configured, and then exactly
    when the library's [sign] does, called on the user's claims with role
    "user", the secret, and the configured life time or "7d" when none is
    set.  Provided the library verifies the tokens it signed for this user
    under the same secret (which it does until the token expires), a token
    made by [generateToken] and sent back as "Bearer <token>" passes
    [authenticateUser] as the user it was issued to, with role "user", and
    is therefore refused by [authenticateAdmin] with 403. *)
Theorem issued_tokens_are_user_tokens (jwt : Jwt) (env : AuthEnv) (userId : string)
    (email : option string) :
  let claims := mkClaims (Some userId) email (Some "user") in
  let expiresIn :=
    if truthy (JWT_EXPIRES_IN env) then default "7d" (JWT_EXPIRES_IN env) else "7d" in
  (forall secret lifetime token,
     jwt_sign jwt claims secret lifetime = Some token ->
     jwt_verify jwt token secret = Some claims) ->
  (truthy (JWT_SECRET env) = false ->
   AuthMiddleware.generateToken jwt env userId email = None)
  /\ (forall secret,
        JWT_SECRET env = Some secret ->
        secret <> "" ->
        AuthMiddleware.generateToken jwt env userId email
        = jwt_sign jwt claims secret expiresIn)
  /\ forall token,
       AuthMiddleware.generateToken jwt env userId email = Some token ->
       truthy (JWT_SECRET env) = true
       /\ AuthMiddleware.authenticateUser jwt env (Some ("Bearer " ++ token))
          = AuthNext claims
       /\ AuthMiddleware.authenticateAdmin jwt env (Some ("Bearer " ++ token))
          = AuthRespond 403 "Admin access required".
Proof.
  cbv zeta. intros Hround. split; [| split].
  - unfold AuthMiddleware.generateToken. intros Hno.
    destruct (JWT_SECRET env) as [secret |]; [| done]. by rewrite Hno.
  - intros secret Hsecret Hs. unfold AuthMiddleware.generateToken, truthy at 1.
    by rewrite Hsecret, (eqb_empty_false _ Hs).
  - intros token Htoken.
    assert (truthy (JWT_SECRET env) = true) as Hyes.
    { unfold AuthMiddleware.generateToken in Htoken.
      destruct (JWT_SECRET env) as [secret |]; [| done].
      by destruct (truthy (Some secret)). }
    assert (AuthMiddleware.authenticateUser jwt env (Some ("Bearer " ++ token))
            = AuthNext (mkClaims (Some userId) email (Some "user"))) as Hpass.
    { unfold AuthMiddleware.generateToken in Htoken.
      unfold AuthMiddleware.authenticateUser.
      destruct (bearer_strip token) as [-> ->].
      assert (truthy (Some ("Bearer " ++ token)) = true) as -> by done.
      destruct (JWT_SECRET env) as [secret |]; [| done].
      simpl in *. rewrite Hyes in *. simpl in *.
      by rewrite (Hround _ _ _ Htoken). }
    split; [done |]. split; [done |].
    unfold AuthMiddleware.authenticateAdmin. by rewrite Hpass.
Qed.

(** What the token routes write.  [POST /token] stores the user before it
    signs: the record is there afterwards whether the answer is 200 or
    500, and the answer is 200, with the token and the stored user's tier,
    status and features, exactly when [generateToken] returns a token, and
    500 when it throws, as it does without a JWT secret.  A user the route
    creates is the basic one; an existing user keeps the email, the
    subscription, the quota and the features, and has [lastActiveDate] set
    to now.  [POST /refresh] answers 404 for an unknown user and changes
    nothing; for a known one it sets [lastActiveDate] and nothing else,
    again also when the answer is 500. *)
Theorem token_routes_effect (jwt : Jwt) (env : AuthEnv) (now : Date)
    (req : Auth.TokenRequest) (st : State) :
  Auth.tk_userId req <> "" ->
  let userId := Auth.tk_userId req in
  (exists u1,
     users (Auth.token jwt env now req st).1 = <[userId := u1]> (users st)
     /\ usageEvents (Auth.token jwt env now req st).1 = usageEvents st
     /\ lastActiveDate (metadata u1) = Some now
     /\ match users st !! userId with
        | Some u =>
            email u1 = email u /\ subscription u1 = subscription u
            /\ usageQuota u1 = usageQuota u /\ features u1 = features u
        | None =>
            u1 = new_user now None
                   (mkUserMetadata (Auth.tk_extensionVersion req) (Some now)
                      (Auth.tk_installationId req) None)
        end
     /\ (Auth.token jwt env now req st).2
        = match AuthMiddleware.generateToken jwt env userId (email u1) with
          | Some token => Auth.TokenOk token (Auth.token_user userId u1)
          | None => Auth.TokenInternalError
          end
     /\ (truthy (JWT_SECRET env) = false ->
         (Auth.token jwt env now req st).2 = Auth.TokenInternalError))
  /\ match users st !! userId with
     | None => Auth.refresh jwt env now userId st = (st, Auth.TokenUserNotFound)
     | Some u =>
         let u1 := with_metadata (set_lastActiveDate (Some now)) u in
         users (Auth.refresh jwt env now userId st).1 = <[userId := u1]> (users st)
         /\ usageEvents (Auth.refresh jwt env now userId st).1 = usageEvents st
         /\ (Auth.refresh jwt env now userId st).2
            = match AuthMiddleware.generateToken jwt env userId (email u) with
              | Some token => Auth.TokenOk token (Auth.token_user userId u1)
              | None => Auth.TokenInternalError
              end
     end.
Proof.
  intros Hid. cbv zeta.
  assert (forall e,
            truthy (JWT_SECRET env) = false ->
            AuthMiddleware.generateToken jwt env (Auth.tk_userId req) e = None) as Hgen.
  { intros e Hno. unfold AuthMiddleware.generateToken.
    destruct (JWT_SECRET env) as [secret |]; [| done]. by rewrite Hno. }
  split.
  - unfold Auth.token. rewrite (eqb_empty_false _ Hid). cbv zeta.
    match goal with
    | |- context [AuthMiddleware.generateToken _ _ _ (email ?u)] => set (user := u)
    end.
    exists user. split; [| split; [| split; [| split; [| split]]]].
    + by destruct (AuthMiddleware.generateToken _ _ _ _).
    + by destruct (AuthMiddleware.generateToken _ _ _ _).
    + subst user. destruct (users st !! Auth.tk_userId req) as [u |]; [| done].
      simpl. by repeat case_match.
    + subst user. by destruct (users st !! Auth.tk_userId req) as [u |].
    + by destruct (AuthMiddleware.generateToken _ _ _ _).
    + intros Hno. by rewrite (Hgen _ Hno).
  - unfold Auth.refresh. rewrite (eqb_empty_false _ Hid).
    destruct (users st !! Auth.tk_userId req) as [u |]; [| done].
    simpl. by destruct (AuthMiddleware.generateToken _ _ _ _).
Qed.

(** ** Properties of the usage statistics *)



(** The fields of the accumulator evolve independently of each other. *)
Lemma aggregate_fields (isoDay : Date -> string) (events : list IUsageEvent) :
  forall a : Stats.Aggregates,
    let a1 := fold_left (Stats.accumulate isoDay) events a in
    Stats.totalEvents a1 = Stats.totalEvents a
    /\ Stats.eventsByType a1
       = fold_left (fun m e => Stats.bump (ue_type e) m) events (Stats.eventsByType a)
    /\ Stats.eventsByFeature a1
       = fold_left (fun m e => Stats.bump (ue_feature e) m) events (Stats.eventsByFeature a)
    /\ Stats.eventsByDay a1
       = fold_left (fun m e => Stats.bump (isoDay (ue_timestamp e)) m) events
           (Stats.eventsByDay a)
    /\ Stats.successCount a <= Stats.successCount a1
       <= Stats.successCount a + Z.of_nat (length events)
    /\ Stats.responseTimeCount a <= Stats.responseTimeCount a1
       <= Stats.responseTimeCount a + Z.of_nat (length events).
Proof.
  induction events as [| e rest IH]; intros a; simpl.
  - repeat split; lia.
  - destruct (IH (Stats.accumulate isoDay a e)) as (Ht & Hty & Hf & Hd & Hs & Hr).
    split; [by rewrite Ht |]. split; [by rewrite Hty |].
    split; [by rewrite Hf |]. split; [by rewrite Hd |].
    simpl in Hs, Hr. split.
    + destruct (bool_decide (em_success (ue_metadata e) = Some false)); lia.
    + destruct (em_responseTime (ue_metadata e)) as [rt |];
        [destruct (negb (rt =? 0)) |]; lia.
Qed.




Lemma insert_desc_perm (e : IUsageEvent) (l : list IUsageEvent) :
  Stats.insert_desc e l ≡ₚ e :: l.
Proof.
  induction l as [| x rest IH]; simpl; [done |].
  destruct (ue_timestamp x <? ue_timestamp e); [done |].
  rewrite IH. apply Permutation_swap.
Qed.

Lemma sort_desc_perm (l : list IUsageEvent) : Stats.sort_desc l ≡ₚ l.
Proof.
  unfold Stats.sort_desc.
  assert (forall acc, fold_left (fun sorted e => Stats.insert_desc e sorted) l acc
                      ≡ₚ (l ++ acc)%list) as H.
  { induction l as [| e rest IH]; intros acc; simpl; [done |].
    rewrite IH, insert_desc_perm. by rewrite Permutation_middle. }
  by rewrite H, app_nil_r.
Qed.

Lemma insert_desc_sorted (e : IUsageEvent) (l : list IUsageEvent) :
  StronglySorted later_first l -> StronglySorted later_first (Stats.insert_desc e l).
Proof.
  induction l as [| x rest IH]; intros Hl; simpl.
  - by repeat constructor.
  - apply StronglySorted_cons in Hl as [Hx Hrest].
    destruct (Z.ltb_spec (ue_timestamp x) (ue_timestamp e)) as [Hlt | Hge].
    + apply StronglySorted_cons. split; [| by apply StronglySorted_cons].
      constructor; [unfold later_first; lia |].
      eapply Forall_impl; [exact Hx |]. unfold later_first. intros y Hy. lia.
    + apply StronglySorted_cons. split; [| by apply IH].
      rewrite insert_desc_perm. by constructor.
Qed.

Lemma sort_desc_sorted (l : list IUsageEvent) :
  StronglySorted later_first (Stats.sort_desc l).
Proof.
  unfold Stats.sort_desc.
  assert (forall acc, StronglySorted later_first acc ->
            StronglySorted later_first
              (fold_left (fun sorted e => Stats.insert_desc e sorted) l acc)) as H.
  { induction l as [| e rest IH]; intros acc Hacc; simpl; [done |].
    by apply IH, insert_desc_sorted. }
  apply H. constructor.
Qed.

Lemma matches_spec (userId : string) (startDate endDate : option Date)
    (type : option string) (e : IUsageEvent) :
  Stats.matches userId startDate endDate type e = true <->
  ue_userId e = userId
  /\ (forall d, startDate = Some d -> d <= ue_timestamp e)
  /\ (forall d, endDate = Some d -> ue_timestamp e <= d)
  /\ (forall t, type = Some t -> ue_type e = t).
Proof.
  unfold Stats.matches. rewrite !andb_true_iff, String.eqb_eq.
  destruct startDate as [sd |], endDate as [ed |], type as [ty |];
    rewrite ?Z.leb_le, ?String.eqb_eq.
  all: split;
    [ intros (((Hu & Hs) & He) & Ht); repeat split; try done;
      intros ? ?; by simplify_eq
    | intros (Hu & Hs & He & Ht); repeat split; eauto ].
Qed.

(** What a statistics query selects.  The events found are at most 1000,
    latest first; each is a recorded event of the user that lies in the
    date range and has the type asked for; when more than 1000 match, the
    ones left out are no later than any of those kept; and when at most
    1000 match, all of them are found. *)
Theorem find_events_selection (userId : string) (startDate endDate : option Date)
    (type : option string) (st : State) :
  let found := Stats.find_events userId startDate endDate type st in
  let matching e := Stats.matches userId startDate endDate type e = true in
  (length found <= 1000)%nat
  /\ StronglySorted later_first found
  /\ (forall e, In e found ->
        In e (usageEvents st)
        /\ ue_userId e = userId
        /\ (forall d, startDate = Some d -> d <= ue_timestamp e)
        /\ (forall d, endDate = Some d -> ue_timestamp e <= d)
        /\ (forall t, type = Some t -> ue_type e = t))
  /\ (forall e x, In e (usageEvents st) -> matching e -> ~ In e found ->
        In x found -> ue_timestamp e <= ue_timestamp x)
  /\ ((length (List.filter (Stats.matches userId startDate endDate type)
                 (usageEvents st)) <= 1000)%nat ->
      found ≡ₚ List.filter (Stats.matches userId startDate endDate type) (usageEvents st)).
Proof.
  cbv zeta. unfold Stats.find_events.
  set (all := List.filter (Stats.matches userId startDate endDate type) (usageEvents st)).
  pose proof (sort_desc_perm all) as Hperm.
  pose proof (sort_desc_sorted all) as Hsorted.
  rewrite <- (firstn_skipn 1000 (Stats.sort_desc all)) in Hsorted, Hperm.
  split; [apply firstn_le_length |].
  split; [by apply StronglySorted_app_1_l in Hsorted |].
  split; [| split].
  - intros e He.
    assert (In e all) as Hall.
    { apply list_elem_of_In. rewrite <- Hperm. apply list_elem_of_In, in_or_app. by left. }
    apply filter_In in Hall as [Hin Hm]. split; [done |]. by apply matches_spec.
  - intros e x Hin Hm Hout Hx.
    assert (In e all) as Hall by (apply filter_In; by split).
    apply list_elem_of_In in Hall. rewrite <- Hperm in Hall.
    apply list_elem_of_In, in_app_or in Hall as [? | Hrest]; [done |].
    apply (StronglySorted_app_1_elem_of _ _ _ x e Hsorted); by apply list_elem_of_In.
  - intros Hfew.
    rewrite firstn_all2; [apply sort_desc_perm |].
    by rewrite (Permutation_length (sort_desc_perm all)).
Qed.

(** ** Further instances on the sample data *)

Lemma track_unlimited_never_refused_witness :
  Forall (fun r => track_status r = 200)
    (track_all [u2_call 10; u2_call 20; u2_call 30] unlimited_state).2
  /\ exists u1,
       users (track_all [u2_call 10; u2_call 20; u2_call 30] unlimited_state).1 !! "u2"
       = Some u1
       /\ promptsPerMonth (usageQuota u1) = -1
       /\ promptsUsed (usageQuota u1) = 7 + 3.
Proof.
  apply (track_unlimited_never_refused "u2" [u2_call 10; u2_call 20; u2_call 30]
           unlimited_state unlimited_user).
  - discriminate.
  - reflexivity.
  - reflexivity.
  - repeat constructor; simpl; (discriminate || tauto).
Defined.

Lemma reset_restores_allowance_witness :
  exists u1,
    users (reset 5000 "u1" seen_state).1 !! "u1" = Some u1
    /\ u1 = with_usageQuota
              (fun q => mkUsageQuota (promptsPerMonth q) 0 (5000 + THIRTY_DAYS)
                          (lastResetDate q)) seen_user
    /\ (reset 5000 "u1" seen_state).2
       = ResetOk (mkQuotaView 2 0 2 (5000 + THIRTY_DAYS))
    /\ Forall (fun r => track_status r = 200)
         (track_all [chat_call 5001; chat_call 5002] (reset 5000 "u1" seen_state).1).2.
Proof.
  pose proof (reset_restores_allowance 5000 "u1" seen_state) as H.
  change (users seen_state !! "u1") with (Some seen_user) in H.
  destruct H as (u1 & Hu1 & _ & _ & _ & _ & _ & _ & _ & Hrest & Hresp & _ & _ & Hcalls).
  - discriminate.
  - exists u1. split; [exact Hu1 |]. split; [| split; [exact Hresp |]].
    + apply Hrest. by eexists.
    + apply Hcalls.
      * repeat constructor; simpl; (discriminate || tauto).
      * simpl. lia.
Defined.

Lemma verify_creates_basic_user_witness :
  users (Subscription.verify 100 api_down verify_u9 sample_state).1 !! "u9"
  = Some (mkUser None
            (mkSubscription FAN ACTIVE 100 None None None None None None false)
            (mkUsageQuota 75 0 (100 + THIRTY_DAYS) None)
            ["chat"; "agent"; "codeCompletion"]
            (mkUserMetadata (Some "1.2.0") (Some 100) None None)).
Proof.
  apply (verify_creates_basic_user 100 api_down verify_u9 sample_state).
  - discriminate.
  - reflexivity.
Defined.

Lemma verify_reconciles_status_witness :
  exists u1,
    users (Subscription.verify 500 api_active verify_u1 sample_state).1 !! "u1" = Some u1
    /\ subscription u1 = set_status (status (subscription u1)) (subscription sample_user)
    /\ status (subscription u1) = ACTIVE.
Proof.
  apply (verify_reconciles_status 500 api_active verify_u1 sample_state sample_user).
  - discriminate.
  - reflexivity.
Defined.

Lemma verify_twice_witness :
  exists u1 u2,
    users (Subscription.verify 100 api_down verify_u9 sample_state).1 !! "u9" = Some u1
    /\ users (Subscription.verify 200 api_down verify_u9
               (Subscription.verify 100 api_down verify_u9 sample_state).1).1 !! "u9"
       = Some u2
    /\ subscription u2 = subscription u1
    /\ features u2 = features u1
    /\ email u2 = email u1
    /\ (200 <= resetDate (usageQuota u1) -> usageQuota u2 = usageQuota u1).
Proof.
  apply (verify_twice 100 200 api_down verify_u9 verify_u9 sample_state).
  - discriminate.
  - reflexivity.
Defined.

Lemma ended_subscription_not_valid_witness :
  exists summary,
    (Subscription.verify 6000 api_active (Subscription.mkVerifyRequest "u2" None None)
       (Webhooks.processEvent 5000
          (mkWebhookEvent "subscription.cancelled" (Some expired_data)) unlimited_state)).2
    = Subscription.VerifyOk (UserSchema_methods.isTrialActive 6000 unlimited_user) summary
        (UserSchema_methods.isTrialActive 6000 unlimited_user)
        (trialEndDate (subscription unlimited_user))
    /\ (isTrialActive (subscription unlimited_user) = false ->
        UserSchema_methods.isTrialActive 6000 unlimited_user = false).
Proof.
  apply (ended_subscription_not_valid "subscription.cancelled" 5000 6000 expired_data
           unlimited_state "u2" unlimited_user api_active None None).
  - simpl. tauto.
  - reflexivity.
  - discriminate.
  - lia.
Defined.

Lemma verify_payment_grants_witness :
  exists u1,
    users (Subscription.verify_payment 100 no_email pay_u9 sample_state).1 !! "u9" = Some u1
    /\ entitled_as DEVELOPER u1
    /\ status (subscription u1) = ACTIVE
    /\ endDate (subscription u1) = Some (100 + THIRTY_DAYS).
Proof.
  destruct (verify_payment_grants 100 no_email pay_u9 sample_state DEVELOPER)
    as (u1 & Hu1 & Hent & Hst & _ & Hend & _).
  - discriminate.
  - reflexivity.
  - intros e He. discriminate He.
  - exists u1. split; [exact Hu1 |]. split; [exact Hent |]. split; [exact Hst | exact Hend].
Defined.

Lemma paid_access_window_witness :
  exists valid summary ta te,
    (Subscription.verify (100 + SEVEN_DAYS) api_down
       (Subscription.mkVerifyRequest "u9" None None)
       (Subscription.verify_payment 100 no_email pay_u9 sample_state).1).2
    = Subscription.VerifyOk valid summary ta te
    /\ valid = true.
Proof.
  destruct (paid_access_window 100 (100 + SEVEN_DAYS) no_email api_down pay_u9
              sample_state DEVELOPER None None)
    as (valid & s & ta & te & Hv & _ & _ & Hmid).
  - discriminate.
  - reflexivity.
  - intros e He. discriminate He.
  - reflexivity.
  - exists valid, s, ta, te. split; [exact Hv |].
    apply Hmid; [lia | by vm_compute |]. simpl. right. left. reflexivity.
Defined.

Lemma webhook_noops_witness :
  Webhooks.parse_and_process sample_parse 5000 "{expired sub_2}" sample_state
  = (sample_state, WebhookReceived).
Proof.
  apply (webhook_noops sample_parse 5000 "{expired sub_2}"
           (mkWebhookEvent "subscription.expired" (Some expired_data)) sample_state).
  - reflexivity.
  - right. right. right. exists expired_data.
    split; [reflexivity |]. split; [discriminate |].
    intros userId u Hu. simpl in Hu.
    apply lookup_singleton_Some in Hu as [_ <-]. discriminate.
Defined.

Lemma status_events_keep_service_witness :
  (track 6000 "e" (tc_req (u2_call 6000))
     (Webhooks.processEvent 5000
        (mkWebhookEvent "subscription.cancelled" (Some expired_data)) unlimited_state)).2
  = (track 6000 "e" (tc_req (u2_call 6000)) unlimited_state).2.
Proof.
  apply (status_events_keep_service "subscription.cancelled" 5000 6000 (Some expired_data)
           "e" (tc_req (u2_call 6000)) unlimited_state).
  simpl. tauto.
Defined.

Lemma expiry_limits_tracking_witness :
  track_status
    (track 6000 "e" (mkTrackRequest "u2" "chat" "knowledgeBase" no_metadata)
       (Webhooks.processEvent 5000
          (mkWebhookEvent "subscription.expired" (Some expired_data)) unlimited_state)).2
  = 403
  /\ track_status
       (track 6000 "e" (tc_req (u2_call 6000))
          (Webhooks.processEvent 5000
             (mkWebhookEvent "subscription.expired" (Some expired_data))
             unlimited_state)).2
     = 200.
Proof.
  split.
  - apply (expiry_limits_tracking 5000 6000 expired_data unlimited_state "u2" "e"
             unlimited_user (mkTrackRequest "u2" "chat" "knowledgeBase" no_metadata));
      try reflexivity.
    simpl. intros [H | [H | [H | []]]]; discriminate H.
  - apply (expiry_limits_tracking 5000 6000 expired_data unlimited_state "u2" "e"
             unlimited_user (tc_req (u2_call 6000))); try reflexivity.
    + simpl. tauto.
    + simpl. tauto.
Defined.

Lemma created_then_cancelled_witness :
  exists u2,
    users (Webhooks.processEvent 200
             (mkWebhookEvent "subscription.cancelled" (Some cancelled_data))
             (Webhooks.processEvent 100
                (mkWebhookEvent "subscription.created" (Some created_data)) sample_state))
      !! "u9" = Some u2
    /\ status (subscription u2) = CANCELLED
    /\ endDate (subscription u2) = Some 200
    /\ entitled_as DEVELOPER u2.
Proof.
  apply (created_then_cancelled 100 200 created_data cancelled_data sample_state "u9").
  - reflexivity.
  - discriminate.
  - reflexivity.
  - intros other v Hv _. simpl in Hv.
    apply lookup_singleton_Some in Hv as [_ <-]. discriminate.
Defined.

Lemma issued_tokens_are_user_tokens_witness :
  AuthMiddleware.generateToken sample_jwt soon_auth_env "u9" None = None
  /\ truthy (JWT_SECRET sample_auth_env) = true
  /\ AuthMiddleware.authenticateUser sample_jwt sample_auth_env
       (Some ("Bearer " ++ "token-u9"))
     = AuthNext (mkClaims (Some "u9") None (Some "user"))
  /\ AuthMiddleware.authenticateAdmin sample_jwt sample_auth_env
       (Some ("Bearer " ++ "token-u9"))
     = AuthRespond 403 "Admin access required".
Proof.
  assert (forall secret lifetime token,
            jwt_sign sample_jwt (mkClaims (Some "u9") None (Some "user")) secret lifetime
            = Some token ->
            jwt_verify sample_jwt token secret
            = Some (mkClaims (Some "u9") None (Some "user"))) as Hround.
  { intros secret lifetime token H. simpl in H.
    destruct (String.eqb lifetime "soon"); [discriminate |].
    injection H as <-. reflexivity. }
  split.
  - destruct (issued_tokens_are_user_tokens sample_jwt soon_auth_env "u9" None Hround)
      as (_ & Hsign & _).
    rewrite (Hsign "jwt-secret"); [reflexivity | reflexivity | discriminate].
  - destruct (issued_tokens_are_user_tokens sample_jwt sample_auth_env "u9" None Hround)
      as (_ & _ & H).
    apply H. reflexivity.
Defined.

Lemma token_routes_effect_witness :
  exists u1,
    users (Auth.token sample_jwt soon_auth_env 100
             (Auth.mkTokenRequest "u1" None None) sample_state).1
    = <["u1" := u1]> (users sample_state)
    /\ lastActiveDate (metadata u1) = Some 100
    /\ (Auth.token sample_jwt soon_auth_env 100
          (Auth.mkTokenRequest "u1" None None) sample_state).2
       = Auth.TokenInternalError.
Proof.
  destruct (token_routes_effect sample_jwt soon_auth_env 100
              (Auth.mkTokenRequest "u1" None None) sample_state)
    as [(u1 & Hst & _ & Hla & _ & Hresp & _) _].
  - discriminate.
  - exists u1. split; [exact Hst |]. split; [exact Hla |].
    rewrite Hresp. reflexivity.
Defined.

Lemma firstn_In_inv {A : Type} (n : nat) (l : list A) (x : A) :
  In x (firstn n l) -> In x l.
Proof.
  intros Hx. rewrite <- (firstn_skipn n l). apply in_or_app. by left.
Qed.

Lemma firstn_sorted (n : nat) (l : list IUsageEvent) :
  StronglySorted later_first l -> StronglySorted later_first (firstn n l).
Proof.
  intros Hl. rewrite <- (firstn_skipn n l) in Hl.
  by apply StronglySorted_app_1_l in Hl.
Qed.

Lemma find_events_In (userId : string) (startDate endDate : option Date)
    (type : option string) (st : State) (e : IUsageEvent) :
  In e (Stats.find_events userId startDate endDate type st) ->
  In e (usageEvents st) /\ ue_userId e = userId.
Proof.
  unfold Stats.find_events. intros He. apply firstn_In_inv in He.
  apply list_elem_of_In in He. rewrite sort_desc_perm in He.
  apply list_elem_of_In, filter_In in He as [Hin Hm].
  split; [done |]. by apply matches_spec in Hm as [? _].
Qed.

(** What a statistics answer contains.  A successful answer is for an
    existing user and reports that user's tier and quota, with
    [promptsRemaining] computed as the tracking route does; the events it
    lists are at most 50, recorded events of that user only, latest first;
    and [totalEvents] counts at least the events listed and at most 1000. *)
Theorem stats_answer (parseISO : string -> option Date) (isoDay : Date -> string)
    (req : Stats.StatsRequest) (st : State) (userId : string) (T : SubscriptionTier)
    (q : QuotaView) (a : Stats.Aggregates) (listed : list IUsageEvent) :
  Stats.stats parseISO isoDay req st = Stats.StatsOk userId T q a listed ->
  userId = Stats.sr_userId req
  /\ (exists user,
        users st !! userId = Some user
        /\ T = tier (subscription user)
        /\ qv_promptsPerMonth q = promptsPerMonth (usageQuota user)
        /\ qv_promptsUsed q = promptsUsed (usageQuota user)
        /\ qv_promptsRemaining q
           = (if promptsPerMonth (usageQuota user) =? -1 then -1
              else Z.max 0 (promptsPerMonth (usageQuota user)
                            - promptsUsed (usageQuota user))))
  /\ (length listed <= 50)%nat
  /\ Z.of_nat (length listed) <= Stats.totalEvents a <= 1000
  /\ (forall e, In e listed -> In e (usageEvents st) /\ ue_userId e = userId)
  /\ StronglySorted later_first listed.
Proof.
  unfold Stats.stats.
  destruct (String.eqb (Stats.sr_userId req) ""); [done |].
  destruct (Stats.parse_optional parseISO (Stats.sr_startDate req)) as [sd |]; [| done].
  destruct (Stats.parse_optional parseISO (Stats.sr_endDate req)) as [ed |]; [| done].
  destruct (match Stats.sr_type req with
            | Some t => negb (isIn t (map UsageEventType_value UsageEventType_values))
            | None => false
            end); [done |].
  destruct (users st !! Stats.sr_userId req) as [user |] eqn:Hu; [| done].
  intros [= <- <- <- <- <-].
  set (found := Stats.find_events (Stats.sr_userId req) sd ed (Stats.sr_type req) st).
  assert ((length found <= 1000)%nat) as Hfound by apply firstn_le_length.
  assert (Stats.totalEvents (Stats.aggregate isoDay found) = Z.of_nat (length found))
    as Htotal.
  { unfold Stats.aggregate.
    by destruct (aggregate_fields isoDay found
                   (Stats.mkAggregates (Z.of_nat (length found)) ∅ ∅ ∅ 0 0 0))
      as [-> _]. }
  split; [done |]. split; [by exists user |].
  split; [apply firstn_le_length |]. split.
  - rewrite Htotal. pose proof (firstn_le_length 50 found). 
    rewrite length_firstn. lia.
  - split.
    + intros e He. apply firstn_In_inv in He. by apply find_events_In in He.
    + apply firstn_sorted. unfold found, Stats.find_events.
      apply firstn_sorted, sort_desc_sorted.
Qed.

Lemma stats_answer_witness :
  let st := (track 10 "e" (tc_req (chat_call 10)) sample_state).1 in
  let found := Stats.find_events "u1" None None None st in
  (length (firstn 50 found) <= 50)%nat
  /\ Z.of_nat (length (firstn 50 found))
     <= Stats.totalEvents (Stats.aggregate (fun _ => "1970-01-01") found) <= 1000
  /\ (forall e, In e (firstn 50 found) -> In e (usageEvents st) /\ ue_userId e = "u1").
Proof.
  cbv zeta.
  destruct (stats_answer (fun _ => None) (fun _ => "1970-01-01")
              (Stats.mkStatsRequest "u1" None None None)
              (track 10 "e" (tc_req (chat_call 10)) sample_state).1
              "u1" FAN (mkQuotaView 2 1 1 1000)
              (Stats.aggregate (fun _ => "1970-01-01")
                 (Stats.find_events "u1" None None None
                    (track 10 "e" (tc_req (chat_call 10)) sample_state).1))
              (firstn 50
                 (Stats.find_events "u1" None None None
                    (track 10 "e" (tc_req (chat_call 10)) sample_state).1)))
    as (_ & _ & Hlen & Htot & Hin & _).
  - reflexivity.
  - split; [exact Hlen |]. split; [exact Htot | exact Hin].
Defined.

Lemma track_effect_witness :
  exists user ev,
    users sample_state !! "u1" = Some user
    /\ usageEvents (track 10 "e" (tc_req (chat_call 10)) sample_state).1 = [ev]
    /\ ue_userId ev = "u1"
    /\ ue_timestamp ev = 10
    /\ em_success (ue_metadata ev) = Some true
    /\ users (track 10 "e" (tc_req (chat_call 10)) sample_state).1
       = <["u1" := consume 10 user]> (users sample_state).
Proof.
  destruct (proj2 (track_effect 10 "e" (tc_req (chat_call 10)) sample_state))
    as (user & ev & Hu & _ & Hev & Hid & _ & _ & _ & Hts & _ & _ & _ & Hok & _ & _ & _ & _
        & Hsave).
  - reflexivity.
  - exists user, ev. split; [exact Hu |]. split; [exact Hev |]. split; [exact Hid |].
    split; [exact Hts |]. split; [exact Hok | exact Hsave].
Defined.

Lemma webhook_frame_witness :
  exists u1,
    users (Webhooks.processEvent 5000
             (mkWebhookEvent "subscription.expired" (Some expired_data))
             seen_unlimited_state) !! "u2" = Some u1
    /\ promptsUsed (usageQuota u1) = 7
    /\ metadata u1 = mkUserMetadata None (Some 900) None None.
Proof.
  destruct (webhook_frame 5000 (mkWebhookEvent "subscription.expired" (Some expired_data))
              seen_unlimited_state) as (_ & H & _).
  destruct (H "u2" seen_unlimited_user) as (u1 & Hu1 & Hused & _ & _ & _ & _ & _ & Hmeta).
  - reflexivity.
  - exists u1. split; [exact Hu1 |]. split; [exact Hused |].
    apply Hmeta. by eexists.
Defined.

Lemma update_effect_witness :
  exists u u1,
    users seen_state !! "u1" = Some u
    /\ users (Subscription.update
               (Subscription.mkUpdateRequest "u1" "enterprise" "active" (Some "") None)
               seen_state).1 = <["u1" := u1]> (users seen_state)
    /\ goDaddySubscriptionId (subscription u1) = goDaddySubscriptionId (subscription u)
    /\ source (metadata u1) = source (metadata u).
Proof.
  destruct (proj2 (update_effect
                     (Subscription.mkUpdateRequest "u1" "enterprise" "active" (Some "") None)
                     seen_state))
    as (u & u1 & Hu & Hst & _ & _ & _ & _ & Hsrc & _ & _ & Hsid & _).
  - reflexivity.
  - exists u, u1. split; [exact Hu |]. split; [exact Hst |].
    split; [exact Hsid | exact Hsrc].
Defined.

Lemma authentication_decisions_witness :
  AuthMiddleware.authenticateUser sample_jwt sample_auth_env (Some "Bearer token-u9")
  = AuthNext (mkClaims (Some "u9") None (Some "user"))
  /\ AuthMiddleware.authenticateAdmin sample_jwt sample_auth_env (Some "Bearer token-u9")
     = AuthRespond 403 "Admin access required"
  /\ AuthMiddleware.authenticateUser sample_jwt (mkAuthEnv None None)
       (Some "Bearer token-u9")
     = AuthRespond 500 "Authentication service not configured"
  /\ AuthMiddleware.authenticateUser sample_jwt sample_auth_env (Some "Bearer forged")
     = AuthRespond 401 "Invalid or expired token"
  /\ AuthMiddleware.authenticateUser sample_jwt sample_auth_env (Some "token-u9")
     = AuthRespond 401 "No valid authorization token provided".
Proof.
  destruct (authentication_decisions sample_jwt sample_auth_env (Some "Bearer token-u9")
              (mkClaims (Some "u9") None (Some "user"))) as (Hpass & _ & _ & Hadmin & _).
  assert (AuthMiddleware.authenticateUser sample_jwt sample_auth_env
            (Some "Bearer token-u9")
          = AuthNext (mkClaims (Some "u9") None (Some "user"))) as Hu.
  { apply Hpass. exists "token-u9", "jwt-secret". repeat split; done. }
  split; [exact Hu |]. split; [apply Hadmin; [exact Hu | discriminate] |].
  split; [| split].
  - destruct (authentication_decisions sample_jwt (mkAuthEnv None None)
                (Some "Bearer token-u9") (mkClaims None None None))
      as (_ & _ & _ & _ & _ & H500 & _).
    destruct (H500 "token-u9") as [H _]; [reflexivity | reflexivity | exact H].
  - destruct (authentication_decisions sample_jwt sample_auth_env
                (Some "Bearer forged") (mkClaims None None None))
      as (_ & _ & _ & _ & _ & _ & H401).
    apply (H401 "forged" "jwt-secret"); [reflexivity | reflexivity | discriminate |
                                         reflexivity].
  - destruct (authentication_decisions sample_jwt sample_auth_env
                (Some "token-u9") (mkClaims None None None))
      as (_ & _ & _ & _ & H401 & _).
    apply H401. right. exists "token-u9". split; reflexivity.
Defined.
